(** * Quota, rate-limit and usage accounting of fastapi-ignite

    A shallow embedding of the limits subsystem of the service:
    [src/services/limits.py], the repositories under [src/repositories/]
    and the handlers [ask], [create_project], [upload_and_attach] and
    [subscribe] under [src/api/v1/endpoints/].

    Handlers are written in a small monad that reads the per-request
    environment (clock, provider replies), threads the shared state
    (Redis, the relational tables, the log of provider calls) and may
    raise. Integers are Python integers ([Z]); identifiers of type UUID are
    kept in their canonical text form, so that [str(tenant_id)] is the
    identity. *)

From Stdlib Require Import ZArith Lia Strings.Byte.
From stdpp Require Import base tactics option list gmap strings pretty.

Local Open Scope Z_scope.

Abbreviation UUID := string (only parsing).
(** Calendar dates are proleptic ordinals ([date.toordinal()]); only their
    order is used. *)
Abbreviation date := Z (only parsing).

(** ** Exceptions *)

(** [fastapi.HTTPException(status_code, detail)]. *)
Record HTTPException := { status_code : Z; detail : string }.

(** What a handler can raise: an [HTTPException] of its own, or whatever
    the retrieval/LLM provider client raised. *)
Inductive exn :=
| HTTP (e : HTTPException)
| Upstream (msg : string).

Inductive result (A : Type) :=
| Ok (a : A)
| Raise (e : exn).
Arguments Ok {A} a.
Arguments Raise {A} e.

Definition http (code : Z) (msg : string) : exn :=
  HTTP {| status_code := code; detail := msg |}.

(** The denials of the handlers, by the taxonomy of the specification. *)
Definition rate_limit_exceeded : exn := http 429 "Rate limit exceeded".
Definition duplicate_request : exn := http 409 "Duplicate request (idempotency)".
Definition project_not_found : exn := http 404 "Project not found".
Definition no_active_subscription : exn := http 403 "No active subscription".
Definition plan_data_missing : exn := http 500 "Subscription plan data missing".
Definition message_cap_reached : exn :=
  http 402 "Monthly message cap reached. Upgrade plan.".
Definition upload_cap_exceeded : exn :=
  http 402 "Upload character cap exceeded for this billing period. Upgrade your plan.".
Definition project_limit_reached : exn :=
  http 402 "Project limit reached for your plan. Upgrade to add more chatbots.".
Definition tenant_mismatch : exn := http 403 "Tenant mismatch".
Definition invalid_billing_cycle : exn := http 400 "Invalid billing cycle".

(** ** Redis

    The three commands the service issues: [INCR], [EXPIRE] and
    [SET key value EX seconds NX]. A key holds a value and, possibly, the
    instant at which it expires; an expired key is absent. The value ["1"]
    written by [SET] is the integer 1, as [INCR] would read it. *)
Module Redis.

Record entry := { value : Z; expires_at : option Z }.

Definition live (now : Z) (e : entry) : bool :=
    match expires_at e with
    | None => true
    | Some deadline => bool_decide (now < deadline)
    end.

Definition get (now : Z) (key : string) (s : gmap string entry) : option entry :=
    match s !! key with
    | Some e => if live now e then Some e else None
    | None => None
    end.

  (** [INCR key]: an absent key counts from 0; the expiry is kept. *)
Definition incr (now : Z) (key : string) (s : gmap string entry)
    : Z * gmap string entry :=
    match get now key s with
    | Some e =>
        (value e + 1, <[key := {| value := value e + 1; expires_at := expires_at e |}]> s)
    | None => (1, <[key := {| value := 1; expires_at := None |}]> s)
    end.

  (** [EXPIRE key seconds]. *)
Definition expire (now : Z) (key : string) (seconds : Z) (s : gmap string entry)
    : gmap string entry :=
    match get now key s with
    | Some e => <[key := {| value := value e; expires_at := Some (now + seconds) |}]> s
    | None => s
    end.

  (** [SET key v EX ex NX]: true when the key was set, false (redis-py's
      [None]) when it was already there. *)
Definition set_nx (now : Z) (key : string) (v : Z) (ex : Z) (s : gmap string entry)
    : bool * gmap string entry :=
    match get now key s with
    | Some _ => (false, s)
    | None => (true, <[key := {| value := v; expires_at := Some (now + ex) |}]> s)
    end.

End Redis.

(** ** Tables

    The rows of the relational store, with the columns the handlers read
    or write (server-side defaults such as [created_at] and generated
    message identifiers are left out). *)

Record Plan := {
  plan_key : string;                  (* plans.id *)
  plan_name : string;
  max_projects : Z;
  monthly_message_cap : Z;
  monthly_upload_char_cap : Z;
  is_annual_available : bool
}.

Record Subscription := {
  sub_tenant_id : UUID;               (* primary key *)
  plan_id : string;
  billing_cycle : string;
  current_period_start : date;
  current_period_end : date
}.

Record Project := {
  id : UUID;
  tenant_id : UUID;
  name : string;
  vector_store_id : option string
}.

Record UsageDaily := {
  usage_date : date;
  usage_tenant_id : UUID;
  usage_project_id : UUID;
  messages_count : Z;
  tokens_in : Z;
  tokens_out : Z;
  chars_uploaded : Z
}.

Record Message := {
  msg_tenant_id : UUID;
  msg_project_id : UUID;
  role : string;
  content : string;
  msg_tokens_in : Z;
  msg_tokens_out : Z;
  idempotency_key : option string
}.

Record Tenant := {
  tenant_key : UUID;                  (* tenants.id *)
  tenant_name : string;
  plan : string;
  plan_messages : Z
}.

(** The session's view of the database. [subscriptions], [plans] and
    [tenants] are keyed by their primary key; [projects], [usage_daily] and
    [messages] are queried by predicates and kept as lists of rows. *)
Record Database := {
  plans : gmap string Plan;
  subscriptions : gmap string Subscription;
  tenants : gmap string Tenant;
  projects : list Project;
  usage_daily : list UsageDaily;
  messages : list Message
}.

Definition with_usage_daily (rows : list UsageDaily) (db : Database) : Database :=
  {| plans := plans db; subscriptions := subscriptions db; tenants := tenants db;
     projects := projects db; usage_daily := rows; messages := messages db |}.

Definition with_messages (rows : list Message) (db : Database) : Database :=
  {| plans := plans db; subscriptions := subscriptions db; tenants := tenants db;
     projects := projects db; usage_daily := usage_daily db; messages := rows |}.

Definition with_projects (rows : list Project) (db : Database) : Database :=
  {| plans := plans db; subscriptions := subscriptions db; tenants := tenants db;
     projects := rows; usage_daily := usage_daily db; messages := messages db |}.

Definition with_subscriptions (t : gmap string Subscription) (db : Database) : Database :=
  {| plans := plans db; subscriptions := t; tenants := tenants db;
     projects := projects db; usage_daily := usage_daily db; messages := messages db |}.

Definition with_tenants (t : gmap string Tenant) (db : Database) : Database :=
  {| plans := plans db; subscriptions := subscriptions db; tenants := t;
     projects := projects db; usage_daily := usage_daily db; messages := messages db |}.

(** Sum of a column over the rows a [WHERE] clause keeps:
    [COALESCE(SUM(col), 0)]. *)
Definition sum_where (keep : UsageDaily -> bool) (col : UsageDaily -> Z)
    (rows : list UsageDaily) : Z :=
  foldr (fun r acc => if keep r then col r + acc else acc) 0 rows.

(** ** src/repositories/usage_repo.py *)
Module UsageRepo.

Definition same_key (d : date) (t p : UUID) (r : UsageDaily) : bool :=
    bool_decide (usage_date r = d) && bool_decide (usage_tenant_id r = t)
    && bool_decide (usage_project_id r = p).

  (** [INSERT ... ON CONFLICT (date, tenant_id, project_id) DO UPDATE]:
      the row with the key of [fresh] is replaced by [merge] of it, or
      [fresh] is inserted when there is none. *)
Fixpoint upsert (fresh : UsageDaily) (merge : UsageDaily -> UsageDaily)
      (rows : list UsageDaily) : list UsageDaily :=
    match rows with
    | [] => [fresh]
    | r :: rest =>
        if same_key (usage_date fresh) (usage_tenant_id fresh) (usage_project_id fresh) r
        then merge r :: rest
        else r :: upsert fresh merge rest
    end.

Definition increment_message (today : date) (tenant_id project_id : UUID)
      (ti to : Z) (rows : list UsageDaily) : list UsageDaily :=
    upsert
      {| usage_date := today; usage_tenant_id := tenant_id; usage_project_id := project_id;
         messages_count := 1; tokens_in := ti; tokens_out := to;
         chars_uploaded := 0 |}
      (fun r =>
         {| usage_date := usage_date r; usage_tenant_id := usage_tenant_id r;
            usage_project_id := usage_project_id r;
            messages_count := messages_count r + 1;
            tokens_in := tokens_in r + ti;
            tokens_out := tokens_out r + to;
            chars_uploaded := chars_uploaded r |})
      rows.

Definition in_period (period_start period_end : date) (r : UsageDaily) : bool :=
    bool_decide (period_start <= usage_date r) && bool_decide (usage_date r < period_end).

Definition messages_in_period (tenant_id : UUID) (period_start period_end : date)
      (rows : list UsageDaily) : Z :=
    sum_where
      (fun r => bool_decide (usage_tenant_id r = tenant_id)
                && in_period period_start period_end r)
      messages_count rows.

Definition chars_uploaded_for_project_in_period (tenant_id project_id : UUID)
      (period_start period_end : date) (rows : list UsageDaily) : Z :=
    sum_where
      (fun r => bool_decide (usage_tenant_id r = tenant_id)
                && bool_decide (usage_project_id r = project_id)
                && in_period period_start period_end r)
      chars_uploaded rows.

Definition chars_uploaded_in_period (tenant_id : UUID) (period_start period_end : date)
      (rows : list UsageDaily) : Z :=
    sum_where
      (fun r => bool_decide (usage_tenant_id r = tenant_id)
                && in_period period_start period_end r)
      chars_uploaded rows.

Definition record_upload_chars (today : date) (tenant_id project_id : UUID)
      (char_count : Z) (rows : list UsageDaily) : list UsageDaily :=
    upsert
      {| usage_date := today; usage_tenant_id := tenant_id; usage_project_id := project_id;
         messages_count := 0; tokens_in := 0; tokens_out := 0;
         chars_uploaded := char_count |}
      (fun r =>
         {| usage_date := usage_date r; usage_tenant_id := usage_tenant_id r;
            usage_project_id := usage_project_id r;
            messages_count := messages_count r;
            tokens_in := tokens_in r;
            tokens_out := tokens_out r;
            chars_uploaded := chars_uploaded r + char_count |})
      rows.

End UsageRepo.

(** ** Raising queries *)

(** SQLAlchemy's [Result.scalar_one_or_none()]: the only row, [None] when
    there is none, [MultipleResultsFound] when there are several. *)
Definition scalar_one_or_none {A} (rows : list A) : result (option A) :=
  match rows with
  | [] => Ok None
  | [r] => Ok (Some r)
  | _ => Raise (Upstream "MultipleResultsFound")
  end.

(** ** src/repositories/project_repo.py *)
Module ProjectRepo.

Definition get_by_id (project_id : UUID) (rows : list Project)
    : result (option Project) :=
    scalar_one_or_none (filter (fun p => id p = project_id) rows).

Definition get_by_tenant_and_name (tenant : UUID) (nm : string) (rows : list Project)
    : result (option Project) :=
    scalar_one_or_none (filter (fun p => tenant_id p = tenant /\ name p = nm) rows).

  (** [Project(tenant_id=..., name=...)], its [id] drawn by [uuid4]. *)
Definition create (fresh_id : UUID) (tenant : UUID) (nm : string) (rows : list Project)
    : Project * list Project :=
    let project :=
      {| id := fresh_id; tenant_id := tenant; name := nm; vector_store_id := None |} in
    (project, rows ++ [project]).

Definition count_for_tenant (tenant : UUID) (rows : list Project) : Z :=
    Z.of_nat (length (filter (fun p => tenant_id p = tenant) rows)).

End ProjectRepo.

(** ** src/repositories/subscription_repo.py *)
Module SubscriptionRepo.

  (** The subscription of the tenant with its [plan] relationship loaded:
      the plan row its [plan_id] names, when there is one. *)
Definition get_with_plan (tenant : UUID) (db : Database)
    : option (Subscription * option Plan) :=
    match subscriptions db !! tenant with
    | Some s => Some (s, plans db !! plan_id s)
    | None => None
    end.

Definition upsert (tenant : UUID) (plan : string) (cycle : string)
      (period_start period_end : date) (db : Database) : Subscription * Database :=
    let s := {| sub_tenant_id := tenant; plan_id := plan; billing_cycle := cycle;
                current_period_start := period_start;
                current_period_end := period_end |} in
    (s, with_subscriptions (<[tenant := s]> (subscriptions db)) db).

End SubscriptionRepo.

(** ** src/repositories/plan_repo.py, tenant_repo.py *)
Module PlanRepo.
Definition get (plan : string) (db : Database) : option Plan := plans db !! plan.
End PlanRepo.

Module TenantRepo.
Definition get (tenant : UUID) (db : Database) : option Tenant := tenants db !! tenant.
End TenantRepo.

(** ** The world of a request *)

(** Calls that reached the retrieval/LLM provider, in order. *)
Inductive ProviderCall :=
| ResponsesCreate (vector_store_ids : list string) (question model : string)
| FilesCreate (payload : list (string * list byte * string))
| FileBatchCreate (vector_store : string) (file_ids : list string).

Record World := {
  redis : gmap string Redis.entry;
  db : Database;
  provider_calls : list ProviderCall
}.

(** Token counts of a provider response; a field is [None] when the
    attribute is missing or null. *)
Record Usage := { input_tokens : option Z; output_tokens : option Z }.

Record RawResponse := {
  output_text : string;
  usage : option Usage;
  file_citations : list string
}.

Record Batch := { batch_status : option string; file_counts : option string }.

(** What a request reads from outside the state: the clocks, the
    identifier [uuid4] draws, and how the provider answers the calls of
    this request ([None]: the client raises). *)
Record Env := {
  now : Z;                              (* time.time(), in seconds *)
  today : date;                         (* date.today() *)
  uuid4 : UUID;
  responses_reply : option RawResponse;
  files_reply : option (list string);
  batch_reply : option Batch
}.

(** The settings the limits read ([src/core/config.py] is not part of the
    sources at hand; its values are parameters). *)
Record Settings := { RATE_LIMIT_RPM : Z; OPENAI_MODEL_DEFAULT : string }.

(** ** The handler monad *)

Definition M (A : Type) : Type := Env -> World -> result A * World.

Definition ret {A} (a : A) : M A := fun _ w => (Ok a, w).

Definition raise {A} (e : exn) : M A := fun _ w => (Raise e, w).

Definition bind {A B} (m : M A) (k : A -> M B) : M B :=
  fun env w =>
    match m env w with
    | (Ok a, w') => k a env w'
    | (Raise e, w') => (Raise e, w')
    end.

Definition lift {A} (r : result A) : M A := fun _ w => (r, w).

Definition read_env {A} (f : Env -> A) : M A := fun env w => (Ok (f env), w).

Definition read_db {A} (f : Database -> A) : M A := fun _ w => (Ok (f (db w)), w).

Definition update_db (f : Database -> Database) : M unit :=
  fun _ w =>
    (Ok tt, {| redis := redis w; db := f (db w); provider_calls := provider_calls w |}).

(** A Redis command, run at the instant of the request. *)
Definition redis_cmd {A} (cmd : Z -> gmap string Redis.entry -> A * gmap string Redis.entry)
  : M A :=
  fun env w =>
    let '(a, s) := cmd (now env) (redis w) in
    (Ok a, {| redis := s; db := db w; provider_calls := provider_calls w |}).

(** A call to the provider: logged, then answered or failed as the
    environment says. *)
Definition provider {A} (call : ProviderCall) (reply : Env -> option A) : M A :=
  fun env w =>
    let w' := {| redis := redis w; db := db w;
                 provider_calls := provider_calls w ++ [call] |} in
    match reply env with
    | Some a => (Ok a, w')
    | None => (Raise (Upstream "provider call failed"), w')
    end.

Declare Scope handler_scope.
Delimit Scope handler_scope with handler.
Notation "'let!' x ':=' m 'in' k" := (bind m (fun x => k))
  (at level 10, x name, m at level 100, k at level 200) : handler_scope.
Local Open Scope handler_scope.

(** Python truthiness of an optional string: [None] and [""] are falsy. *)
Definition truthy (s : option string) : bool :=
  match s with
  | Some v => negb (bool_decide (v = ""))
  | None => false
  end.

(** ** [bytes.decode("utf-8", errors)]

    CPython's UTF-8 decoder with the two error handlers the text mentions.
    A malformed sequence is reported over the bytes that were accepted
    before the offending one (one byte for a bad start byte, the accepted
    prefix for a bad continuation byte, everything left for a truncated
    sequence); [strict] raises [UnicodeDecodeError] there, [ignore] drops
    exactly those bytes and goes on. The result is the list of code
    points of the [str]. *)
Inductive error_handler := strict | ignore.

Definition byte_val (b : byte) : Z := Z.of_N (Byte.to_N b).

Definition is_continuation_byte (c : Z) : bool :=
  bool_decide (0x80 <= c) && bool_decide (c < 0xC0).

Definition on_error (errors : error_handler) (rest : option (list Z)) : option (list Z) :=
  match errors with
  | strict => None
  | ignore => rest
  end.

Definition emit (cp : Z) (rest : option (list Z)) : option (list Z) :=
  match rest with
  | Some cps => Some (cp :: cps)
  | None => None
  end.

Fixpoint utf8_decode (errors : error_handler) (bs : list byte) : option (list Z) :=
  match bs with
  | [] => Some []
  | b1 :: r1 =>
    let ch := byte_val b1 in
    if bool_decide (ch < 0x80) then emit ch (utf8_decode errors r1)
    else if bool_decide (ch < 0xC2) then
      (* invalid start byte *)
      on_error errors (utf8_decode errors r1)
    else if bool_decide (ch < 0xE0) then
      match r1 with
      | [] => on_error errors (Some [])           (* unexpected end of data *)
      | b2 :: r2 =>
        let ch2 := byte_val b2 in
        if negb (is_continuation_byte ch2) then on_error errors (utf8_decode errors r1)
        else emit (Z.lor (Z.shiftl (Z.land ch 0x1F) 6) (Z.land ch2 0x3F))
                  (utf8_decode errors r2)
      end
    else if bool_decide (ch < 0xF0) then
      match r1 with
      | [] => on_error errors (Some [])
      | b2 :: r2 =>
        let ch2 := byte_val b2 in
        if negb (is_continuation_byte ch2)
           || (if bool_decide (ch2 < 0xA0)
               then bool_decide (ch = 0xE0) else bool_decide (ch = 0xED))
        then on_error errors (utf8_decode errors r1)
        else
          match r2 with
          | [] => on_error errors (Some [])
          | b3 :: r3 =>
            let ch3 := byte_val b3 in
            if negb (is_continuation_byte ch3)
            then on_error errors (utf8_decode errors r2)
            else emit (Z.lor (Z.shiftl (Z.land ch 0x0F) 12)
                         (Z.lor (Z.shiftl (Z.land ch2 0x3F) 6) (Z.land ch3 0x3F)))
                      (utf8_decode errors r3)
          end
      end
    else if bool_decide (ch < 0xF5) then
      match r1 with
      | [] => on_error errors (Some [])
      | b2 :: r2 =>
        let ch2 := byte_val b2 in
        if negb (is_continuation_byte ch2)
           || (if bool_decide (ch2 < 0x90)
               then bool_decide (ch = 0xF0) else bool_decide (ch = 0xF4))
        then on_error errors (utf8_decode errors r1)
        else
          match r2 with
          | [] => on_error errors (Some [])
          | b3 :: r3 =>
            let ch3 := byte_val b3 in
            if negb (is_continuation_byte ch3)
            then on_error errors (utf8_decode errors r2)
            else
              match r3 with
              | [] => on_error errors (Some [])
              | b4 :: r4 =>
                let ch4 := byte_val b4 in
                if negb (is_continuation_byte ch4)
                then on_error errors (utf8_decode errors r3)
                else emit (Z.lor (Z.shiftl (Z.land ch 0x07) 18)
                             (Z.lor (Z.shiftl (Z.land ch2 0x3F) 12)
                                (Z.lor (Z.shiftl (Z.land ch3 0x3F) 6)
                                   (Z.land ch4 0x3F))))
                          (utf8_decode errors r4)
              end
          end
      end
    else
      (* 0xF5 .. 0xFF: invalid start byte *)
      on_error errors (utf8_decode errors r1)
  end.

(** ** The service: limits and handlers *)
Section Service.

Variable settings : Settings.

  (** [uuid.UUID(value)]: the canonical form of a textual identifier,
      [None] when the constructor raises [ValueError]. *)
Variable uuid_of_string : string -> option UUID.

  (** [d + relativedelta(months=m, years=y)] of dateutil. *)
Variable plus_relativedelta : date -> Z -> Z -> date.

  (** *** src/services/limits.py *)

Definition rate_limit_key (tenant : string) (minute_window : Z) : string :=
    "rl:" +:+ tenant +:+ ":" +:+ pretty minute_window.

Definition check_rate_limit (tenant : string) : M unit :=
    let! minute_window := read_env (fun env => now env `div` 60) in
    let key := rate_limit_key tenant minute_window in
    let! current := redis_cmd (fun t => Redis.incr t key) in
    let! _ := (if bool_decide (current = 1)
               then redis_cmd (fun t s => (tt, Redis.expire t key 60 s))
               else ret tt) in
    if bool_decide (current > RATE_LIMIT_RPM settings)
    then raise rate_limit_exceeded
    else ret tt.

Definition idempotency_redis_key (tenant key : string) : string :=
    "idemp:" +:+ tenant +:+ ":" +:+ key.

Definition ensure_idempotent (tenant : string) (key : option string) : M unit :=
    if negb (truthy key) then ret tt
    else
      let redis_key := idempotency_redis_key tenant (default "" key) in
      let! was_set := redis_cmd (fun t => Redis.set_nx t redis_key 1 (60 * 30)) in
      if negb was_set then raise duplicate_request else ret tt.


  (** *** src/api/v1/endpoints/query.py *)

Record AskBody := { project_id : UUID; question : string }.

Record AskResponse := {
    answer : string;
    answer_tokens_in : Z;
    answer_tokens_out : Z;
    citations : list string
  }.

Definition _extract_usage_token (usage_data : option Usage) (key : Usage -> option Z) : Z :=
    match usage_data with
    | None => 0
    | Some u => default 0 (key u)
    end.

Definition get_project_by_id (pid : UUID) : M (option Project) :=
    let! rows := read_db projects in
    lift (ProjectRepo.get_by_id pid rows).

Definition ask (body : AskBody) (auth_tenant : UUID) (idempotency_key : option string)
    : M AskResponse :=
    let tenant := auth_tenant in
    let! _ := check_rate_limit tenant in
    let! _ := ensure_idempotent tenant idempotency_key in
    let! project := get_project_by_id (project_id body) in
    match project with
    | None => raise project_not_found
    | Some project =>
      if negb (bool_decide (tenant_id project = tenant)) then raise project_not_found
      else if negb (truthy (vector_store_id project))
      then raise (http 400 "Vector store missing. Ingest files first.")
      else
        let! subscription := read_db (SubscriptionRepo.get_with_plan tenant) in
        match subscription with
        | None => raise no_active_subscription
        | Some (subscription, None) => raise plan_data_missing
        | Some (subscription, Some plan) =>
          let! messages_used :=
            read_db (fun d => UsageRepo.messages_in_period tenant
                                (current_period_start subscription)
                                (current_period_end subscription) (usage_daily d)) in
          if bool_decide (messages_used >= monthly_message_cap plan)
          then raise message_cap_reached
          else
            let user_message :=
              {| msg_tenant_id := tenant; msg_project_id := project_id body;
                 role := "user"; content := question body;
                 msg_tokens_in := 0; msg_tokens_out := 0;
                 idempotency_key := idempotency_key |} in
            let! _ := update_db (fun d => with_messages (messages d ++ [user_message]) d) in
            let! raw_response :=
              provider (ResponsesCreate [default "" (vector_store_id project)]
                          (question body) (OPENAI_MODEL_DEFAULT settings))
                       responses_reply in
            let usage_data := usage raw_response in
            let ti := _extract_usage_token usage_data input_tokens in
            let to := _extract_usage_token usage_data output_tokens in
            let assistant_message :=
              {| msg_tenant_id := tenant; msg_project_id := project_id body;
                 role := "assistant"; content := output_text raw_response;
                 msg_tokens_in := ti; msg_tokens_out := to;
                 idempotency_key := None |} in
            let! _ := update_db (fun d => with_messages (messages d ++ [assistant_message]) d) in
            let! day := read_env today in
            let! _ := update_db (fun d =>
                        with_usage_daily
                          (UsageRepo.increment_message day tenant (project_id body) ti to
                             (usage_daily d)) d) in
            ret {| answer := output_text raw_response;
                   answer_tokens_in := ti; answer_tokens_out := to;
                   citations := file_citations raw_response |}
        end
    end.

  (** *** src/api/v1/endpoints/ingestion.py *)

Definition _parse_uuid (value field_name : string) : M UUID :=
    match uuid_of_string value with
    | Some u => ret u
    | None => raise (http 400 ("Invalid " +:+ field_name))
    end.

  (** The project of the response and its [status] flag. *)
Definition _project_response (project : Project) (status_flag : string)
    : Project * string := (project, status_flag).

Definition create_project (tenant_arg name_arg : string) (auth_tenant : UUID)
    : M (Project * string) :=
    let! tenant_uuid := _parse_uuid tenant_arg "tenant_id" in
    if negb (bool_decide (auth_tenant = tenant_uuid)) then raise tenant_mismatch
    else
      let! _ := check_rate_limit tenant_uuid in
      let! subscription := read_db (SubscriptionRepo.get_with_plan tenant_uuid) in
      match subscription with
      | None => raise no_active_subscription
      | Some (subscription, plan) =>
        let! rows := read_db projects in
        let! existing := lift (ProjectRepo.get_by_tenant_and_name tenant_uuid name_arg rows) in
        match existing with
        | Some existing => ret (_project_response existing "exists")
        | None =>
          match plan with
          | None => raise plan_data_missing
          | Some plan =>
            let limit := max_projects plan in
            let! current_projects := read_db (fun d =>
                                       ProjectRepo.count_for_tenant tenant_uuid (projects d)) in
            if bool_decide (current_projects >= limit) then raise project_limit_reached
            else
              let! fresh := read_env uuid4 in
              let! rows := read_db projects in
              let '(project, rows') := ProjectRepo.create fresh tenant_uuid name_arg rows in
              let! _ := update_db (with_projects rows') in
              ret (_project_response project "created")
          end
        end
      end.

Record UploadFile := {
    filename : option string;
    file_bytes : list byte;
    content_type : option string
  }.

  (** [s or fallback] on an optional string. *)
Definition or_else (s : option string) (fallback : string) : string :=
    if truthy s then default fallback s else fallback.

  (** What one file adds to [total_chars]: the length of its text decoded
      with the [ignore] handler, the length of its bytes should the
      decoder raise. *)
Definition counted_chars (data : list byte) : Z :=
    match utf8_decode ignore data with
    | Some decoded => Z.of_nat (length decoded)
    | None => Z.of_nat (length data)
    end.

  (** The loop over the uploads: the payload handed to the provider and
      [total_chars]. *)
Definition read_uploads (files : list UploadFile)
    : list (string * list byte * string) * Z :=
    foldl (fun '(payload, total_chars) upload =>
             (payload ++ [(or_else (filename upload) "upload.bin",
                           file_bytes upload,
                           or_else (content_type upload) "application/octet-stream")],
              total_chars + counted_chars (file_bytes upload)))
          ([], 0) files.

Record UploadResponse := {
    up_project_id : UUID;
    up_vector_store_id : option string;
    up_batch_status : option string;
    up_file_counts : option string
  }.

Definition upload_and_attach (tenant_arg project_arg : string) (files : list UploadFile)
      (auth_tenant : UUID) : M UploadResponse :=
    if bool_decide (files = []) then raise (http 400 "No files provided")
    else
      let! tenant_uuid := _parse_uuid tenant_arg "tenant_id" in
      let! project_uuid := _parse_uuid project_arg "project_id" in
      if negb (bool_decide (auth_tenant = tenant_uuid)) then raise tenant_mismatch
      else
        let! _ := check_rate_limit tenant_uuid in
        let! project := get_project_by_id project_uuid in
        match project with
        | None => raise project_not_found
        | Some project =>
          if negb (bool_decide (tenant_id project = tenant_uuid)) then raise project_not_found
          else if negb (truthy (vector_store_id project))
          then raise (http 400 "Vector store missing. Call ensure_vector_store first.")
          else
            let '(payload, total_chars) := read_uploads files in
            let! subscription := read_db (SubscriptionRepo.get_with_plan tenant_uuid) in
            match subscription with
            | None => raise no_active_subscription
            | Some (subscription, None) => raise plan_data_missing
            | Some (subscription, Some plan) =>
              let! already_uploaded :=
                read_db (fun d => UsageRepo.chars_uploaded_for_project_in_period
                                    tenant_uuid project_uuid
                                    (current_period_start subscription)
                                    (current_period_end subscription) (usage_daily d)) in
              if bool_decide (already_uploaded + total_chars > monthly_upload_char_cap plan)
              then raise upload_cap_exceeded
              else
                let vs := default "" (vector_store_id project) in
                let! uploaded_ids := provider (FilesCreate payload) files_reply in
                let! batch := provider (FileBatchCreate vs uploaded_ids) batch_reply in
                let! day := read_env today in
                let! _ := (if bool_decide (total_chars = 0) then ret tt
                           else update_db (fun d =>
                                  with_usage_daily
                                    (UsageRepo.record_upload_chars day tenant_uuid project_uuid
                                       total_chars (usage_daily d)) d)) in
                ret {| up_project_id := id project;
                       up_vector_store_id := vector_store_id project;
                       up_batch_status := batch_status batch;
                       up_file_counts := file_counts batch |}
            end
        end.

  (** *** src/api/v1/endpoints/billing.py *)

Definition subscribe (plan_arg cycle : string) (auth_tenant : UUID)
    : M (Subscription * Plan) :=
    let tenant := auth_tenant in
    if negb (bool_decide (cycle = "monthly") || bool_decide (cycle = "annual"))
    then raise invalid_billing_cycle
    else
      let! _ := check_rate_limit tenant in
      let! plan := read_db (PlanRepo.get plan_arg) in
      match plan with
      | None => raise (http 404 "Plan not found")
      | Some plan =>
        let! start := read_env today in
        let stop := if bool_decide (cycle = "monthly")
                    then plus_relativedelta start 1 0
                    else plus_relativedelta start 0 1 in
        let! subscription :=
          (fun _ w =>
             let '(s, d) := SubscriptionRepo.upsert tenant (plan_key plan) cycle start stop (db w) in
             (Ok s, {| redis := redis w; db := d; provider_calls := provider_calls w |})) in
        let! tenant_row := read_db (TenantRepo.get tenant) in
        let! _ := match tenant_row with
                  | Some t =>
                    update_db (fun d =>
                      with_tenants
                        (<[tenant := {| tenant_key := tenant_key t; tenant_name := tenant_name t;
                                        plan := plan_key plan;
                                        plan_messages := monthly_message_cap plan |}]>
                           (tenants d)) d)
                  | None => ret tt
                  end in
        ret (subscription, plan)
      end.

End Service.

(** ** Requests in sequence *)

(** The same handler served once per environment, each request starting
    from the state the previous one left. *)
Fixpoint serve {A} (handler : M A) (envs : list Env) (w : World)
  : list (result A) * World :=
  match envs with
  | [] => ([], w)
  | env :: rest =>
    let '(r, w1) := handler env w in
    let '(rs, w2) := serve handler rest w1 in
    (r :: rs, w2)
  end.

(** The verdict of the rate limiter on the [n]-th request of a window. *)
Definition verdict (settings : Settings) (n : Z) : result unit :=
  if bool_decide (n > RATE_LIMIT_RPM settings) then Raise rate_limit_exceeded else Ok tt.

Definition with_redis (s : gmap string Redis.entry) (w : World) : World :=
  {| redis := s; db := db w; provider_calls := provider_calls w |}.

(** A request environment that reads [t] on the clock and gets no answer
    from the provider. *)
Definition env_at (t : Z) : Env :=
  {| now := t; today := t `div` 86400; uuid4 := "";
     responses_reply := None; files_reply := None; batch_reply := None |}.

Definition empty_db : Database :=
  {| plans := ∅; subscriptions := ∅; tenants := ∅;
     projects := []; usage_daily := []; messages := [] |}.

Definition empty_world : World :=
  {| redis := ∅; db := empty_db; provider_calls := [] |}.

(** The two guards at the head of [ask]: both let the request through,
    and the state they leave. *)
Definition passes_guards (settings : Settings) (tenant : string) (key : option string)
    (env : Env) (w : World) : Prop :=
  (check_rate_limit settings tenant env w).1 = Ok tt
  /\ (ensure_idempotent tenant key env (check_rate_limit settings tenant env w).2).1 = Ok tt.

Definition after_guards (settings : Settings) (tenant : string) (key : option string)
    (env : Env) (w : World) : World :=
  (ensure_idempotent tenant key env (check_rate_limit settings tenant env w).2).2.

(** A small tenant for the examples: one project with its vector store,
    a monthly subscription over days [10, 40) to a plan of one project,
    two messages and ten characters. *)
Definition demo_settings : Settings :=
  {| RATE_LIMIT_RPM := 5; OPENAI_MODEL_DEFAULT := "model" |}.

Definition demo_plan : Plan :=
  {| plan_key := "hobby"; plan_name := "Hobby"; max_projects := 1;
     monthly_message_cap := 2; monthly_upload_char_cap := 10;
     is_annual_available := true |}.

Definition demo_subscription : Subscription :=
  {| sub_tenant_id := "t"; plan_id := "hobby"; billing_cycle := "monthly";
     current_period_start := 10; current_period_end := 40 |}.

Definition demo_project : Project :=
  {| id := "p"; tenant_id := "t"; name := "Quota"; vector_store_id := Some "vs_quota" |}.

Definition demo_usage (day : date) (msgs chars : Z) : UsageDaily :=
  {| usage_date := day; usage_tenant_id := "t"; usage_project_id := "p";
     messages_count := msgs; tokens_in := 0; tokens_out := 0; chars_uploaded := chars |}.

Definition demo_world (rows : list UsageDaily) : World :=
  {| redis := ∅;
     db := {| plans := {[ "hobby" := demo_plan ]};
              subscriptions := {[ "t" := demo_subscription ]};
              tenants := ∅;
              projects := [demo_project];
              usage_daily := rows;
              messages := [] |};
     provider_calls := [] |}.

Definition demo_env (reply : option RawResponse) : Env :=
  {| now := 1000; today := 12; uuid4 := "p2";
     responses_reply := reply;
     files_reply := Some ["file_1"];
     batch_reply := Some {| batch_status := Some "completed"; file_counts := None |} |}.

Definition demo_body : AskBody := {| project_id := "p"; question := "hello" |}.

(** Identifiers already in canonical form. *)
Definition canonical_uuid (s : string) : option UUID := Some s.

(** The eleven bytes of "hello world" and the five of "hello". *)
Definition hello_world : list byte :=
  [x68; x65; x6c; x6c; x6f; x20; x77; x6f; x72; x6c; x64].

Definition text_upload (data : list byte) : UploadFile :=
  {| filename := Some "test.txt"; file_bytes := data; content_type := Some "text/plain" |}.

(** A state in which tenant "t" has used up the five requests of the
    minute that contains second 1000. *)
Definition saturated_world : World :=
  with_redis {[ rate_limit_key "t" 16 :=
                  {| Redis.value := 5; Redis.expires_at := Some 1020 |} ]}
    (demo_world []).

(** A month and a year as 30 and 365 days, for the examples. *)
Definition flat_relativedelta (d : date) (months years : Z) : date :=
  d + 30 * months + 365 * years.

(** The count of a batch as the specification words it: the length of
    each file decoded as UTF-8 text, its raw byte length when the file does
    not decode, summed over the batch. *)
Definition spec_counted_chars (data : list byte) : Z :=
  match utf8_decode strict data with
  | Some decoded => Z.of_nat (length decoded)
  | None => Z.of_nat (length data)
  end.

Definition spec_total_chars (files : list UploadFile) : Z :=
  foldr (fun upload acc => spec_counted_chars (file_bytes upload) + acc) 0 files.

(** ** The remaining handlers *)

(** The primary key of a usage row. *)
Definition usage_key (r : UsageDaily) : date * UUID * UUID :=
  (usage_date r, usage_tenant_id r, usage_project_id r).

(** The unique key of a project row ([uq_project_tenant_name]). *)
Definition project_key (p : Project) : UUID * string := (tenant_id p, name p).

(** The answer to a provider call that the log of calls does not follow
    ([None]: the client raises). *)
Definition oracle {A} (reply : option A) : M A :=
  fun _ w =>
    match reply with
    | Some a => (Ok a, w)
    | None => (Raise (Upstream "provider call failed"), w)
    end.

(** [ProjectRepo.set_vector_store_id]: the row of [project] gets the
    identifier; the column is unique, so the flush raises when another
    project already holds it. *)
Definition set_vector_store_id (project : Project) (vs : string) (rows : list Project)
  : result (Project * list Project) :=
  if bool_decide (Exists (fun p => id p <> id project /\ vector_store_id p = Some vs) rows)
  then Raise (Upstream "IntegrityError")
  else
    let updated := {| id := id project; tenant_id := tenant_id project;
                      name := name project; vector_store_id := Some vs |} in
    Ok (updated, (fun p => if bool_decide (id p = id project) then updated else p) <$> rows).

(** What [GET /limits/current] reports. *)
Record LimitsReport := {
  report_plan_id : string;
  report_plan_name : string;
  report_billing_cycle : string;
  report_period_start : date;
  report_period_end : date;
  limit_max_projects : Z;
  limit_monthly_message_cap : Z;
  limit_monthly_upload_char_cap : Z;
  usage_projects : Z;
  usage_messages_used : Z;
  usage_chars_uploaded : Z
}.

Inductive CurrentLimits :=
| NotSubscribed                        (* {"subscribed": False} *)
| Subscribed (report : LimitsReport).

Section OtherHandlers.

Variable settings : Settings.
Variable uuid_of_string : string -> option UUID.
Variable plus_relativedelta : date -> Z -> Z -> date.

(** *** src/api/v1/endpoints/ingestion.py, continued *)

(** [created] is what [create_vector_store] returns for this request. *)
Definition ensure_vector_store (tenant_arg project_arg : string) (auth_tenant : UUID)
    (created : option string) : M (UUID * string * string) :=
  let! tenant_uuid := _parse_uuid uuid_of_string tenant_arg "tenant_id" in
  let! project_uuid := _parse_uuid uuid_of_string project_arg "project_id" in
  if negb (bool_decide (auth_tenant = tenant_uuid)) then raise tenant_mismatch
  else
    let! _ := check_rate_limit settings tenant_uuid in
    let! project := get_project_by_id project_uuid in
    match project with
    | None => raise project_not_found
    | Some project =>
      if negb (bool_decide (tenant_id project = tenant_uuid)) then raise project_not_found
      else if truthy (vector_store_id project)
      then ret (id project, default "" (vector_store_id project), "exists")
      else
        let! vs := oracle created in
        let! rows := read_db projects in
        let! updated := lift (set_vector_store_id project vs rows) in
        let! _ := update_db (with_projects updated.2) in
        ret (id project, vs, "created")
    end.

(** [listing] is what [list_vector_store_files] returns, serialised. *)
Definition list_files (tenant_arg project_arg : string) (auth_tenant : UUID)
    (listing : option (list string)) : M (UUID * string * list string) :=
  let! tenant_uuid := _parse_uuid uuid_of_string tenant_arg "tenant_id" in
  let! project_uuid := _parse_uuid uuid_of_string project_arg "project_id" in
  if negb (bool_decide (auth_tenant = tenant_uuid)) then raise tenant_mismatch
  else
    let! _ := check_rate_limit settings tenant_uuid in
    let! project := get_project_by_id project_uuid in
    match project with
    | None => raise project_not_found
    | Some project =>
      if negb (bool_decide (tenant_id project = tenant_uuid)) then raise project_not_found
      else if negb (truthy (vector_store_id project))
      then raise (http 400 "Vector store missing")
      else
        let! files := oracle listing in
        ret (id project, default "" (vector_store_id project), files)
    end.

(** [removed] says whether [remove_file_from_store] returned. *)
Definition remove_file (tenant_arg project_arg openai_file_id : string) (delete_raw : bool)
    (auth_tenant : UUID) (removed : option unit) : M (UUID * string * string * bool) :=
  let! tenant_uuid := _parse_uuid uuid_of_string tenant_arg "tenant_id" in
  let! project_uuid := _parse_uuid uuid_of_string project_arg "project_id" in
  if negb (bool_decide (auth_tenant = tenant_uuid)) then raise tenant_mismatch
  else
    let! _ := check_rate_limit settings tenant_uuid in
    let! project := get_project_by_id project_uuid in
    match project with
    | None => raise project_not_found
    | Some project =>
      if negb (bool_decide (tenant_id project = tenant_uuid)) then raise project_not_found
      else if negb (truthy (vector_store_id project))
      then raise (http 400 "Vector store missing")
      else
        let! _ := oracle removed in
        ret (id project, default "" (vector_store_id project), openai_file_id, delete_raw)
    end.

(** *** src/api/v1/endpoints/limits.py *)

Definition current_limits (auth_tenant : UUID) : M CurrentLimits :=
  let tenant := auth_tenant in
  let! _ := check_rate_limit settings tenant in
  let! subscription := read_db (SubscriptionRepo.get_with_plan tenant) in
  match subscription with
  | None => ret NotSubscribed
  | Some (subscription, None) => raise plan_data_missing
  | Some (subscription, Some plan) =>
    let! messages_used :=
      read_db (fun d => UsageRepo.messages_in_period tenant
                          (current_period_start subscription)
                          (current_period_end subscription) (usage_daily d)) in
    let! chars :=
      read_db (fun d => UsageRepo.chars_uploaded_in_period tenant
                          (current_period_start subscription)
                          (current_period_end subscription) (usage_daily d)) in
    let! project_count :=
      read_db (fun d => ProjectRepo.count_for_tenant tenant (projects d)) in
    ret (Subscribed
           {| report_plan_id := plan_id subscription;
              report_plan_name := plan_name plan;
              report_billing_cycle := billing_cycle subscription;
              report_period_start := current_period_start subscription;
              report_period_end := current_period_end subscription;
              limit_max_projects := max_projects plan;
              limit_monthly_message_cap := monthly_message_cap plan;
              limit_monthly_upload_char_cap := monthly_upload_char_cap plan;
              usage_projects := project_count;
              usage_messages_used := messages_used;
              usage_chars_uploaded := chars |})
  end.

(** *** src/api/v1/endpoints/tenants.py *)

(** The tenant's identifier is drawn by [uuid4]; adding a row whose
    primary key is taken makes the flush raise. *)
Definition create_tenant (name_arg plan_arg cycle : string)
  : M (UUID * Subscription * Plan) :=
  if negb (bool_decide (cycle = "monthly") || bool_decide (cycle = "annual"))
  then raise invalid_billing_cycle
  else
    let! plan_row := read_db (PlanRepo.get plan_arg) in
    match plan_row with
    | None => raise (http 404 "Plan not found")
    | Some plan_row =>
      let! fresh := read_env uuid4 in
      let! clash := read_db (TenantRepo.get fresh) in
      match clash with
      | Some _ => raise (Upstream "IntegrityError")
      | None =>
        let! _ := update_db (fun d =>
                    with_tenants
                      (<[fresh := {| tenant_key := fresh; tenant_name := name_arg;
                                     plan := plan_key plan_row;
                                     plan_messages := monthly_message_cap plan_row |}]>
                         (tenants d)) d) in
        let! start := read_env today in
        let stop := if bool_decide (cycle = "monthly")
                    then plus_relativedelta start 1 0
                    else plus_relativedelta start 0 1 in
        let! subscription :=
          (fun _ w =>
             let '(s, d) := SubscriptionRepo.upsert fresh (plan_key plan_row) cycle
                              start stop (db w) in
             (Ok s, {| redis := redis w; db := d; provider_calls := provider_calls w |})) in
        ret (fresh, subscription, plan_row)
      end
    end.

End OtherHandlers.

(** The row of a key in the ledger, when there is one. *)
Definition usage_row (day : date) (tenant project : UUID) (rows : list UsageDaily)
  : option UsageDaily :=
  List.find (UsageRepo.same_key day tenant project) rows.

(** Every counter in Redis is at most [j]: what holds after [j] requests
    on a store that was empty. *)
Definition counters_at_most (j : Z) (s : gmap string Redis.entry) : Prop :=
  forall k e, s !! k = Some e -> Redis.value e <= j.

(** Bytes that start no UTF-8 sequence: continuation bytes, the two
    overlong lead bytes C0 and C1, and F5 to FF. *)
Definition never_a_start (b : byte) : Prop :=
  (0x80 <= byte_val b /\ byte_val b < 0xC2) \/ 0xF5 <= byte_val b.

(** What [read_uploads] hands to the provider for one file. *)
Definition payload_entry (upload : UploadFile) : string * list byte * string :=
  (or_else (filename upload) "upload.bin", file_bytes upload,
   or_else (content_type upload) "application/octet-stream").

(** The tenant's count of existing projects as the specification words
    it: one for every project row that belongs to the tenant. *)
Fixpoint spec_count_of_existing_projects (tenant : UUID) (rows : list Project) : Z :=
  match rows with
  | [] => 0
  | p :: rows =>
      (if bool_decide (tenant_id p = tenant) then 1 else 0)
      + spec_count_of_existing_projects tenant rows
  end.

(** A tenant from before subscriptions existed: it owns the project
    "Quota" and has no subscription row. *)
Definition legacy_world : World :=
  {| redis := ∅;
     db := {| plans := {[ "hobby" := demo_plan ]};
              subscriptions := ∅;
              tenants := ∅;
              projects := [demo_project];
              usage_daily := [];
              messages := [] |};
     provider_calls := [] |}.

(** * Properties *)

(** ** Sums over the usage ledger *)

Lemma sum_where_app keep col rows1 rows2 :
  sum_where keep col (rows1 ++ rows2) = sum_where keep col rows1 + sum_where keep col rows2.
Proof.
  induction rows1 as [|r rows1 IH]; simpl; [lia|].
  fold (sum_where keep col (rows1 ++ rows2)) (sum_where keep col rows1).
  rewrite IH. destruct (keep r); lia.
Qed.

Lemma sum_where_cons keep col r rows :
  sum_where keep col (r :: rows) = (if keep r then col r else 0) + sum_where keep col rows.
Proof. unfold sum_where; simpl. destruct (keep r); lia. Qed.

Lemma sum_where_none keep col rows :
  (forall r, r ∈ rows -> keep r = false) -> sum_where keep col rows = 0.
Proof.
  induction rows as [|r rows IH]; intros Hno; [reflexivity|].
  rewrite sum_where_cons, (Hno r) by constructor.
  rewrite IH; [lia|]. intros r' Hr'. apply Hno. by constructor.
Qed.

Lemma sum_where_insert keep col rows1 r rows2 :
  sum_where keep col (rows1 ++ r :: rows2)
  = (if keep r then col r else 0) + sum_where keep col (rows1 ++ rows2).
Proof. rewrite !sum_where_app, sum_where_cons. lia. Qed.

(** An upsert adds the column of the fresh row to a sum that keeps its
    key, and leaves the other sums alone, whenever the [WHERE] clause
    looks at the key only and the merge adds the column. *)
Lemma sum_where_upsert keep col fresh merge rows :
  (forall r,
      UsageRepo.same_key (usage_date fresh) (usage_tenant_id fresh) (usage_project_id fresh) r
      = true ->
      keep r = keep fresh /\ keep (merge r) = keep fresh /\ col (merge r) = col r + col fresh) ->
  sum_where keep col (UsageRepo.upsert fresh merge rows)
  = sum_where keep col rows + (if keep fresh then col fresh else 0).
Proof.
  intros Hmerge. induction rows as [|r rows IH]; cbn [UsageRepo.upsert].
  - rewrite sum_where_cons. unfold sum_where; simpl. lia.
  - destruct (UsageRepo.same_key _ _ _ r) eqn:Hkey.
    + destruct (Hmerge r Hkey) as (Hk & Hkm & Hcol).
      rewrite !sum_where_cons, Hk, Hkm, Hcol. destruct (keep fresh); lia.
    + rewrite !sum_where_cons, IH. lia.
Qed.

Lemma same_key_spec d t p r :
  UsageRepo.same_key d t p r = true
  <-> usage_date r = d /\ usage_tenant_id r = t /\ usage_project_id r = p.
Proof.
  unfold UsageRepo.same_key. rewrite !andb_true_iff, !bool_decide_eq_true. tauto.
Qed.

Lemma in_period_spec s e r :
  UsageRepo.in_period s e r = true <-> s <= usage_date r < e.
Proof.
  unfold UsageRepo.in_period. rewrite andb_true_iff, !bool_decide_eq_true. tauto.
Qed.

(** C6. Period-scoped sums use the half-open interval [start, end): in
    each of the three sums a row dated on the period end adds nothing, a
    row of the tenant (and project) dated on the period start adds its
    counter when the period is not empty, and a sum over a ledger with no
    row in scope -- the empty ledger in particular -- is 0. *)
Theorem period_sums_half_open (t p : UUID) (s e : date)
    (rows1 rows2 : list UsageDaily) (r : UsageDaily) :
  usage_tenant_id r = t ->
  usage_project_id r = p ->
  (usage_date r = e ->
     UsageRepo.messages_in_period t s e (rows1 ++ r :: rows2)
     = UsageRepo.messages_in_period t s e (rows1 ++ rows2)
     /\ UsageRepo.chars_uploaded_for_project_in_period t p s e (rows1 ++ r :: rows2)
        = UsageRepo.chars_uploaded_for_project_in_period t p s e (rows1 ++ rows2)
     /\ UsageRepo.chars_uploaded_in_period t s e (rows1 ++ r :: rows2)
        = UsageRepo.chars_uploaded_in_period t s e (rows1 ++ rows2))
  /\ (usage_date r = s -> s < e ->
     UsageRepo.messages_in_period t s e (rows1 ++ r :: rows2)
     = messages_count r + UsageRepo.messages_in_period t s e (rows1 ++ rows2)
     /\ UsageRepo.chars_uploaded_for_project_in_period t p s e (rows1 ++ r :: rows2)
        = chars_uploaded r
          + UsageRepo.chars_uploaded_for_project_in_period t p s e (rows1 ++ rows2)
     /\ UsageRepo.chars_uploaded_in_period t s e (rows1 ++ r :: rows2)
        = chars_uploaded r + UsageRepo.chars_uploaded_in_period t s e (rows1 ++ rows2))
  /\ (forall rows : list UsageDaily,
        (forall r', r' ∈ rows ->
                    usage_tenant_id r' = t -> ~ (s <= usage_date r' < e)) ->
        UsageRepo.messages_in_period t s e rows = 0
        /\ UsageRepo.chars_uploaded_for_project_in_period t p s e rows = 0
        /\ UsageRepo.chars_uploaded_in_period t s e rows = 0)
  /\ UsageRepo.messages_in_period t s e [] = 0
  /\ UsageRepo.chars_uploaded_for_project_in_period t p s e [] = 0
  /\ UsageRepo.chars_uploaded_in_period t s e [] = 0.
Proof.
  intros Ht Hp.
  unfold UsageRepo.messages_in_period, UsageRepo.chars_uploaded_for_project_in_period,
    UsageRepo.chars_uploaded_in_period.
  split; [|split; [|split]].
  - intros He.
    assert (UsageRepo.in_period s e r = false) as Hout.
    { apply not_true_is_false. rewrite in_period_spec. lia. }
    rewrite !sum_where_insert, Hout, !andb_false_r. lia.
  - intros Hs Hlt.
    assert (UsageRepo.in_period s e r = true) as Hin.
    { rewrite in_period_spec. lia. }
    rewrite !sum_where_insert, Hin, !bool_decide_true by done. simpl. lia.
  - intros rows Habsent.
    repeat split; apply sum_where_none; intros r' Hr';
      apply not_true_is_false; rewrite !andb_true_iff, in_period_spec,
        ?bool_decide_eq_true; intros Hk; apply (Habsent r' Hr'); tauto.
  - done.
Qed.

Lemma period_sums_half_open_witness :
  let r9 := {| usage_date := 9; usage_tenant_id := "t"; usage_project_id := "p";
               messages_count := 4; tokens_in := 0; tokens_out := 0;
               chars_uploaded := 7 |} in
  UsageRepo.messages_in_period "t" 9 12 [r9] = 4 + UsageRepo.messages_in_period "t" 9 12 []
  /\ UsageRepo.messages_in_period "t" 5 9 [r9] = UsageRepo.messages_in_period "t" 5 9 [].
Proof.
  intros r9.
  split.
  - destruct (period_sums_half_open "t" "p" 9 12 [] [] r9 eq_refl eq_refl)
      as (_ & Hstart & _).
    apply Hstart; [reflexivity | lia].
  - destruct (period_sums_half_open "t" "p" 5 9 [] [] r9 eq_refl eq_refl)
      as (Hend & _).
    apply Hend. reflexivity.
Defined.

(** ** The rate limiter *)

Lemma check_rate_limit_run settings tenant env w :
  check_rate_limit settings tenant env w
  = let key := rate_limit_key tenant (now env `div` 60) in
    let '(current, s1) := Redis.incr (now env) key (redis w) in
    let s2 := if bool_decide (current = 1) then Redis.expire (now env) key 60 s1 else s1 in
    (verdict settings current, with_redis s2 w).
Proof.
  unfold check_rate_limit, bind, read_env, redis_cmd, verdict, with_redis, ret, raise.
  simpl. destruct (Redis.incr _ _ _) as [current s1]. simpl.
  repeat case_bool_decide; reflexivity.
Qed.

Lemma rate_limit_key_inj tenant w1 w2 :
  rate_limit_key tenant w1 = rate_limit_key tenant w2 -> w1 = w2.
Proof.
  unfold rate_limit_key. intros H.
  do 3 apply String.app_inj in H. by apply (inj pretty) in H.
Qed.

(** The first request of a window: the counter is created at 1 and given
    its expiry. *)
Lemma check_rate_limit_cold settings tenant env w :
  Redis.get (now env) (rate_limit_key tenant (now env `div` 60)) (redis w) = None ->
  check_rate_limit settings tenant env w
  = (verdict settings 1,
     with_redis (<[rate_limit_key tenant (now env `div` 60) :=
                     {| Redis.value := 1; Redis.expires_at := Some (now env + 60) |}]>
                   (redis w)) w).
Proof.
  intros Hcold. rewrite check_rate_limit_run. cbv zeta.
  unfold Redis.incr. rewrite Hcold. rewrite bool_decide_true by done.
  unfold Redis.expire, Redis.get. rewrite lookup_insert_eq. simpl.
  by rewrite insert_insert_eq.
Qed.

(** A later request of the window: the counter moves, the expiry stays. *)
Lemma check_rate_limit_hot settings tenant env w k deadline :
  1 <= k -> now env < deadline ->
  redis w !! rate_limit_key tenant (now env `div` 60)
  = Some {| Redis.value := k; Redis.expires_at := Some deadline |} ->
  check_rate_limit settings tenant env w
  = (verdict settings (k + 1),
     with_redis (<[rate_limit_key tenant (now env `div` 60) :=
                     {| Redis.value := k + 1; Redis.expires_at := Some deadline |}]>
                   (redis w)) w).
Proof.
  intros Hk Hlive Hkey. rewrite check_rate_limit_run. cbv zeta.
  unfold Redis.incr, Redis.get. rewrite Hkey. unfold Redis.live. simpl.
  rewrite bool_decide_true by done. simpl.
  rewrite bool_decide_false by lia. reflexivity.
Qed.

Lemma serve_window_hot settings tenant wdw envs : forall w k deadline,
  (forall env, env ∈ envs -> now env `div` 60 = wdw) ->
  1 <= k -> 60 * (wdw + 1) <= deadline ->
  redis w !! rate_limit_key tenant wdw
  = Some {| Redis.value := k; Redis.expires_at := Some deadline |} ->
  serve (check_rate_limit settings tenant) envs w
  = (verdict settings <$> seqZ (k + 1) (Z.of_nat (length envs)),
     with_redis (<[rate_limit_key tenant wdw :=
                     {| Redis.value := k + Z.of_nat (length envs);
                        Redis.expires_at := Some deadline |}]> (redis w)) w).
Proof.
  induction envs as [|env envs IH]; intros w k deadline Hwdw Hk Hdead Hkey.
  - simpl. rewrite Z.add_0_r, insert_id by done. by destruct w.
  - assert (now env `div` 60 = wdw) as Henv by (apply Hwdw; constructor).
    assert (now env < deadline) as Hlive.
    { pose proof (Z.mul_succ_div_gt (now env) 60). lia. }
    cbn [serve].
    rewrite (check_rate_limit_hot settings tenant env w k deadline), Henv
      by (rewrite ?Henv; done).
    rewrite (IH _ (k + 1) deadline); try lia.
    + simpl length. rewrite Nat2Z.inj_succ.
      rewrite (seqZ_cons (k + 1) (Z.succ _)), Z.pred_succ by lia.
      rewrite fmap_cons. unfold with_redis; simpl. rewrite insert_insert_eq.
      replace (k + 1 + Z.of_nat (length envs)) with (k + Z.succ (Z.of_nat (length envs)))
        by lia.
      reflexivity.
    + intros env' Hin. apply Hwdw. by constructor.
    + unfold with_redis; simpl. by rewrite lookup_insert_eq.
Qed.



(** ** The idempotency guard *)

Lemma with_redis_id w : with_redis (redis w) w = w.
Proof. by destruct w. Qed.

Lemma ensure_idempotent_bypass tenant key env w :
  truthy key = false -> ensure_idempotent tenant key env w = (Ok tt, w).
Proof. intros Hkey. unfold ensure_idempotent. by rewrite Hkey. Qed.

Lemma ensure_idempotent_claim tenant k env w :
  k <> "" ->
  Redis.get (now env) (idempotency_redis_key tenant k) (redis w) = None ->
  ensure_idempotent tenant (Some k) env w
  = (Ok tt,
     with_redis (<[idempotency_redis_key tenant k :=
                     {| Redis.value := 1; Redis.expires_at := Some (now env + 60 * 30) |}]>
                   (redis w)) w).
Proof.
  intros Hk Hfree. unfold ensure_idempotent, truthy.
  rewrite bool_decide_false by done. simpl.
  unfold bind, redis_cmd, Redis.set_nx. by rewrite Hfree.
Qed.

Lemma ensure_idempotent_duplicate tenant k env w :
  k <> "" ->
  is_Some (Redis.get (now env) (idempotency_redis_key tenant k) (redis w)) ->
  ensure_idempotent tenant (Some k) env w = (Raise duplicate_request, w).
Proof.
  intros Hk [e He]. unfold ensure_idempotent, truthy.
  rewrite bool_decide_false by done. simpl.
  unfold bind, redis_cmd, Redis.set_nx. rewrite He. simpl.
  unfold raise. by destruct w.
Qed.

(** A claim stays live for the 30 minutes after it was made. *)
Lemma claim_live tenant k t t' (s : gmap string Redis.entry) :
  s !! idempotency_redis_key tenant k
  = Some {| Redis.value := 1; Redis.expires_at := Some (t + 60 * 30) |} ->
  t' < t + 1800 ->
  is_Some (Redis.get t' (idempotency_redis_key tenant k) s).
Proof.
  intros Hs Ht. unfold Redis.get. rewrite Hs. unfold Redis.live. simpl.
  rewrite bool_decide_true by lia. by eexists.
Qed.

Lemma rate_limit_key_not_idempotency tenant wdw tenant' k :
  rate_limit_key tenant wdw <> idempotency_redis_key tenant' k.
Proof. unfold rate_limit_key, idempotency_redis_key. simpl. discriminate. Qed.

(** The limiter leaves the claims, the tables and the provider alone. *)
Lemma check_rate_limit_frame settings tenant env w :
  let w' := (check_rate_limit settings tenant env w).2 in
  db w' = db w /\ provider_calls w' = provider_calls w
  /\ forall tenant' k,
       redis w' !! idempotency_redis_key tenant' k
       = redis w !! idempotency_redis_key tenant' k.
Proof.
  rewrite check_rate_limit_run. cbv zeta.
  destruct (Redis.incr _ _ _) as [current s1] eqn:Hincr. simpl.
  split; [done|split; [done|]]. intros tenant' k.
  assert (s1 !! idempotency_redis_key tenant' k
          = redis w !! idempotency_redis_key tenant' k) as Hs1.
  { unfold Redis.incr in Hincr.
    destruct (Redis.get _ _ _); injection Hincr as _ <-;
      by rewrite lookup_insert_ne by apply rate_limit_key_not_idempotency. }
  case_bool_decide; [|done].
  unfold Redis.expire. destruct (Redis.get _ _ s1); [|done].
  by rewrite lookup_insert_ne by apply rate_limit_key_not_idempotency.
Qed.

Lemma ensure_idempotent_frame tenant key env w :
  let w' := (ensure_idempotent tenant key env w).2 in
  db w' = db w /\ provider_calls w' = provider_calls w.
Proof.
  unfold ensure_idempotent. destruct (truthy key); simpl; [|done].
  unfold bind, redis_cmd. destruct (Redis.set_nx _ _ _ _ _) as [[] s]; done.
Qed.

(** A live claim stops [ask] right after the limiter: nothing but the
    limiter's counter has changed. *)
Lemma ask_duplicate settings body tenant k env w :
  k <> "" ->
  (check_rate_limit settings tenant env w).1 = Ok tt ->
  is_Some (Redis.get (now env) (idempotency_redis_key tenant k) (redis w)) ->
  ask settings body tenant (Some k) env w
  = (Raise duplicate_request, (check_rate_limit settings tenant env w).2).
Proof.
  intros Hk Hrate Hlive.
  destruct (check_rate_limit_frame settings tenant env w) as (_ & _ & Hkeys).
  unfold ask. unfold bind at 1.
  destruct (check_rate_limit settings tenant env w) as [r w1]. simpl in *. subst r.
  unfold bind at 1. rewrite ensure_idempotent_duplicate; [done|done|].
  unfold Redis.get in *. by rewrite Hkeys.
Qed.

(** The key of a claim determines the tenant and the caller's key, for
    tenant identifiers of one length, as canonical UUIDs are. *)
Lemma string_app_same_length (a b c d : string) :
  String.length a = String.length b -> a +:+ c = b +:+ d -> a = b /\ c = d.
Proof.
  revert b. induction a as [|x a IH]; intros [|y b] Hlen Happ; simpl in *; try done.
  injection Happ as -> Happ. destruct (IH b) as [-> ->]; [lia|done|done].
Qed.

Lemma idempotency_redis_key_inj tenant tenant' k k' :
  String.length tenant = String.length tenant' ->
  idempotency_redis_key tenant k = idempotency_redis_key tenant' k' ->
  tenant = tenant' /\ k = k'.
Proof.
  unfold idempotency_redis_key. intros Hlen Hkey.
  apply String.app_inj in Hkey.
  apply string_app_same_length in Hkey as [-> Hrest]; [|done].
  by apply String.app_inj in Hrest.
Qed.

(** C4, as the specification has it, fails on [upload_and_attach]: the
    handler takes no [Idempotency-Key] header and never calls the guard,
    so whatever key the caller sends, the same upload sent again is
    processed again instead of being denied as a duplicate. *)
Lemma guard_on_every_mutation_counterexample :
  ~ (forall settings uuid_of_string tenant_arg project_arg files auth env w response,
        let first :=
          upload_and_attach settings uuid_of_string tenant_arg project_arg files auth env w in
        first.1 = Ok response ->
        let second :=
          upload_and_attach settings uuid_of_string tenant_arg project_arg files auth env
            first.2 in
        second.1 = Raise duplicate_request
        /\ usage_daily (db second.2) = usage_daily (db first.2)
        /\ provider_calls second.2 = provider_calls first.2).
Proof.
  intros Hclaim.
  destruct (Hclaim demo_settings canonical_uuid "t" "p" [text_upload [x68; x69]] "t"
              (demo_env None) (demo_world [])
              {| up_project_id := "p"; up_vector_store_id := Some "vs_quota";
                 up_batch_status := Some "completed"; up_file_counts := None |})
    as (Hdenied & _).
  - vm_compute. reflexivity.
  - vm_compute in Hdenied. discriminate.
Qed.

(** C4, amended. In [ask], a request with a non-empty key claims
    [idemp:tenant:key] by set-if-absent for 1800 seconds; while the claim
    is live the guard raises 409, [ask] stops there without touching the
    tables or the provider, and a later request finds the claim until the
    30 minutes are over; the claim is on the pair of tenant and key, so
    the guard treats every other pair as it did before; a request with no
    key (or an empty one) passes the guard with the state untouched. *)
Theorem idempotency_guard (settings : Settings) (tenant k : string) (body : AskBody)
    (env env2 : Env) (w : World) :
  k <> "" ->
  let rk := idempotency_redis_key tenant k in
  let claimed :=
    with_redis (<[rk := {| Redis.value := 1;
                           Redis.expires_at := Some (now env + 1800) |}]> (redis w)) w in
  (Redis.get (now env) rk (redis w) = None ->
     ensure_idempotent tenant (Some k) env w = (Ok tt, claimed)
     /\ (now env2 < now env + 1800 ->
         ensure_idempotent tenant (Some k) env2 claimed = (Raise duplicate_request, claimed))
     /\ (now env + 1800 <= now env2 ->
         (ensure_idempotent tenant (Some k) env2 claimed).1 = Ok tt)
     /\ (forall tenant' k',
           String.length tenant' = String.length tenant ->
           (tenant', k') <> (tenant, k) ->
           (ensure_idempotent tenant' (Some k') env2 claimed).1
           = (ensure_idempotent tenant' (Some k') env2 w).1))
  /\ (is_Some (Redis.get (now env) rk (redis w)) ->
      ensure_idempotent tenant (Some k) env w = (Raise duplicate_request, w)
      /\ ((check_rate_limit settings tenant env w).1 = Ok tt ->
          let w1 := (check_rate_limit settings tenant env w).2 in
          ask settings body tenant (Some k) env w = (Raise duplicate_request, w1)
          /\ db w1 = db w /\ provider_calls w1 = provider_calls w))
  /\ ensure_idempotent tenant None env w = (Ok tt, w)
  /\ ensure_idempotent tenant (Some "") env w = (Ok tt, w).
Proof.
  intros Hk rk claimed. split; [|split; [|split]].
  - intros Hfree. split; [|split; [|split]].
    + by rewrite ensure_idempotent_claim.
    + intros Hsoon. apply ensure_idempotent_duplicate; [done|].
      apply (claim_live tenant k (now env)); [|done].
      unfold claimed, with_redis; simpl. by rewrite lookup_insert_eq.
    + intros Hlate. rewrite ensure_idempotent_claim; [done|done|].
      unfold Redis.get, claimed, with_redis; simpl. rewrite lookup_insert_eq.
      unfold Redis.live; simpl. by rewrite bool_decide_false by lia.
    + intros tenant' k' Hlen Hother.
      assert (redis claimed !! idempotency_redis_key tenant' k'
              = redis w !! idempotency_redis_key tenant' k') as Hsame.
      { unfold claimed, with_redis; simpl. apply lookup_insert_ne. intros Hkey.
        apply idempotency_redis_key_inj in Hkey as [-> ->]; done. }
      unfold ensure_idempotent. destruct (truthy (Some k')); [|done]. simpl.
      unfold bind, redis_cmd, Redis.set_nx, Redis.get. rewrite Hsame.
      destruct (redis w !! _) as [e|]; [destruct (Redis.live _ e)|]; done.
  - intros Hlive. split.
    + by apply ensure_idempotent_duplicate.
    + intros Hrate w1. split; [by apply ask_duplicate|].
      destruct (check_rate_limit_frame settings tenant env w) as (Hdb & Hcalls & _).
      done.
  - by apply ensure_idempotent_bypass.
  - by apply ensure_idempotent_bypass.
Qed.

Lemma idempotency_guard_witness :
  let cfg := {| RATE_LIMIT_RPM := 5; OPENAI_MODEL_DEFAULT := "m" |} in
  let claimed :=
    with_redis {[ idempotency_redis_key "t" "dup-key" :=
                    {| Redis.value := 1; Redis.expires_at := Some 1900 |} ]} empty_world in
  ensure_idempotent "t" (Some "dup-key") (env_at 100) empty_world = (Ok tt, claimed)
  /\ ensure_idempotent "t" (Some "dup-key") (env_at 1899) claimed
     = (Raise duplicate_request, claimed)
  /\ (ensure_idempotent "u" (Some "dup-key") (env_at 1899) claimed).1 = Ok tt.
Proof.
  intros cfg claimed.
  assert ("dup-key" <> "") as Hk by discriminate.
  destruct (idempotency_guard cfg "t" "dup-key" {| project_id := "p"; question := "q" |}
              (env_at 100) (env_at 1899) empty_world Hk) as (Hclaim & _).
  destruct (Hclaim eq_refl) as (Hfirst & Hsecond & _ & Hothers).
  split; [|split].
  - exact Hfirst.
  - apply Hsecond. simpl. lia.
  - etransitivity; [apply (Hothers "u" "dup-key" eq_refl); discriminate|reflexivity].
Defined.

(** ** The question endpoint *)

Lemma guards_frame settings tenant key env w r1 w1 r2 w2 :
  check_rate_limit settings tenant env w = (r1, w1) ->
  ensure_idempotent tenant key env w1 = (r2, w2) ->
  db w2 = db w /\ provider_calls w2 = provider_calls w.
Proof.
  intros H1 H2.
  destruct (check_rate_limit_frame settings tenant env w) as (Hdb & Hcalls & _).
  destruct (ensure_idempotent_frame tenant key env w1) as (Hdb' & Hcalls').
  rewrite H1 in Hdb, Hcalls. rewrite H2 in Hdb', Hcalls'. simpl in *.
  split; congruence.
Qed.

(** Unfolding of the monad, for handlers run on a given state. *)
Tactic Notation "run_handler" :=
  cbv beta iota zeta delta
    [bind read_db read_env update_db lift ret raise provider fst snd negb].
Tactic Notation "run_handler" "in" hyp(H) :=
  cbv beta iota zeta delta
    [bind read_db read_env update_db lift ret raise provider fst snd negb] in H.

(** Past the two guards, with the project, the subscription and the plan
    in place, [ask] is decided by the message gate. *)
Lemma ask_gate_closed settings body tenant key env w w1 w2 project subscription plan :
  check_rate_limit settings tenant env w = (Ok tt, w1) ->
  ensure_idempotent tenant key env w1 = (Ok tt, w2) ->
  ProjectRepo.get_by_id (project_id body) (projects (db w)) = Ok (Some project) ->
  tenant_id project = tenant ->
  truthy (vector_store_id project) = true ->
  SubscriptionRepo.get_with_plan tenant (db w) = Some (subscription, Some plan) ->
  monthly_message_cap plan
  <= UsageRepo.messages_in_period tenant (current_period_start subscription)
       (current_period_end subscription) (usage_daily (db w)) ->
  ask settings body tenant key env w = (Raise message_cap_reached, w2).
Proof.
  intros H1 H2 Hproject Htenant Hvs Hsub Hcap.
  destruct (guards_frame _ _ _ _ _ _ _ _ _ H1 H2) as (Hdb & _).
  unfold ask, get_project_by_id. unfold bind at 1. rewrite H1.
  unfold bind at 1. rewrite H2.
  run_handler. rewrite Hdb, Hproject. run_handler.
  rewrite (bool_decide_true _ Htenant). run_handler.
  rewrite Hvs. run_handler. rewrite Hdb, Hsub. run_handler.
  rewrite Hdb. by rewrite bool_decide_true by lia.
Qed.

Lemma ask_gate_open settings body tenant key env w w1 w2 project subscription plan :
  check_rate_limit settings tenant env w = (Ok tt, w1) ->
  ensure_idempotent tenant key env w1 = (Ok tt, w2) ->
  ProjectRepo.get_by_id (project_id body) (projects (db w)) = Ok (Some project) ->
  tenant_id project = tenant ->
  truthy (vector_store_id project) = true ->
  SubscriptionRepo.get_with_plan tenant (db w) = Some (subscription, Some plan) ->
  UsageRepo.messages_in_period tenant (current_period_start subscription)
    (current_period_end subscription) (usage_daily (db w))
  < monthly_message_cap plan ->
  let out := ask settings body tenant key env w in
  provider_calls out.2
  = provider_calls w
    ++ [ResponsesCreate [default "" (vector_store_id project)] (question body)
          (OPENAI_MODEL_DEFAULT settings)]
  /\ redis out.2 = redis w2
  /\ match responses_reply env with
     | None =>
         out.1 = Raise (Upstream "provider call failed")
         /\ usage_daily (db out.2) = usage_daily (db w)
     | Some raw =>
         let ti := _extract_usage_token (usage raw) input_tokens in
         let to := _extract_usage_token (usage raw) output_tokens in
         out.1 = Ok {| answer := output_text raw; answer_tokens_in := ti;
                       answer_tokens_out := to; citations := file_citations raw |}
         /\ usage_daily (db out.2)
            = UsageRepo.increment_message (today env) tenant (project_id body) ti to
                (usage_daily (db w))
     end.
Proof.
  intros H1 H2 Hproject Htenant Hvs Hsub Hcap out.
  destruct (guards_frame _ _ _ _ _ _ _ _ _ H1 H2) as (Hdb & Hcalls).
  remember out as o eqn:Hout. unfold out in Hout. clear out.
  unfold ask, get_project_by_id in Hout. unfold bind at 1 in Hout. rewrite H1 in Hout.
  unfold bind at 1 in Hout. rewrite H2 in Hout.
  run_handler in Hout. rewrite Hdb, Hproject in Hout. run_handler in Hout.
  rewrite (bool_decide_true _ Htenant) in Hout. run_handler in Hout.
  rewrite Hvs in Hout. run_handler in Hout. rewrite Hdb, Hsub in Hout.
  run_handler in Hout.
  rewrite Hdb, bool_decide_false in Hout by lia. run_handler in Hout.
  destruct (responses_reply env) as [raw|]; subst o; simpl; rewrite ?Hcalls, ?Hdb; done.
Qed.


Lemma passes_guards_inv settings tenant key env w :
  passes_guards settings tenant key env w ->
  exists w1,
    check_rate_limit settings tenant env w = (Ok tt, w1)
    /\ ensure_idempotent tenant key env w1 = (Ok tt, after_guards settings tenant key env w).
Proof.
  unfold passes_guards, after_guards. intros [Hrate Hkey].
  destruct (check_rate_limit settings tenant env w) as [r1 w1]. simpl in *. subst r1.
  exists w1. split; [done|].
  destruct (ensure_idempotent tenant key env w1) as [r2 w2]. simpl in *. by subst r2.
Qed.


Lemma demo_passes_guards rows reply key :
  passes_guards demo_settings "t" key (demo_env reply) (demo_world rows).
Proof.
  split; [reflexivity|].
  unfold ensure_idempotent. destruct (truthy key); [|reflexivity].
  reflexivity.
Qed.


(** C5. When the retrieval call of a request that passed the message gate
    fails, the provider's exception is the outcome of [ask] and the usage
    ledger is as it was, so every period sum is unchanged; the ledger is
    incremented only when the call has returned. *)
Theorem upstream_failure_records_no_usage (settings : Settings) (body : AskBody)
    (tenant : UUID) (key : option string) (env : Env) (w : World)
    (project : Project) (subscription : Subscription) (plan : Plan) :
  passes_guards settings tenant key env w ->
  ProjectRepo.get_by_id (project_id body) (projects (db w)) = Ok (Some project) ->
  tenant_id project = tenant ->
  truthy (vector_store_id project) = true ->
  SubscriptionRepo.get_with_plan tenant (db w) = Some (subscription, Some plan) ->
  UsageRepo.messages_in_period tenant (current_period_start subscription)
    (current_period_end subscription) (usage_daily (db w))
  < monthly_message_cap plan ->
  let out := ask settings body tenant key env w in
  (responses_reply env = None ->
     out.1 = Raise (Upstream "provider call failed")
     /\ usage_daily (db out.2) = usage_daily (db w)
     /\ forall t s e,
          UsageRepo.messages_in_period t s e (usage_daily (db out.2))
          = UsageRepo.messages_in_period t s e (usage_daily (db w)))
  /\ (forall raw, responses_reply env = Some raw ->
        (exists r, out.1 = Ok r)
        /\ usage_daily (db out.2)
           = UsageRepo.increment_message (today env) tenant (project_id body)
               (_extract_usage_token (usage raw) input_tokens)
               (_extract_usage_token (usage raw) output_tokens)
               (usage_daily (db w))).
Proof.
  intros Hguards Hproject Htenant Hvs Hsub Hcap out.
  destruct (passes_guards_inv _ _ _ _ _ Hguards) as (w1 & H1 & H2).
  destruct (ask_gate_open settings body tenant key env w _ _ project subscription plan
              H1 H2 Hproject Htenant Hvs Hsub Hcap) as (_ & _ & Hout).
  fold out in Hout. split.
  - intros Hfail. rewrite Hfail in Hout. destruct Hout as [Hraise Husage].
    split; [done|]. split; [done|]. intros t s e. by rewrite Husage.
  - intros raw Hreply. rewrite Hreply in Hout. destruct Hout as [Hok Husage].
    split; [by eexists|done].
Qed.

Lemma upstream_failure_records_no_usage_witness :
  let w := demo_world [demo_usage 12 1 0] in
  let out := ask demo_settings demo_body "t" (Some "k1") (demo_env None) w in
  out.1 = Raise (Upstream "provider call failed")
  /\ usage_daily (db out.2) = [demo_usage 12 1 0].
Proof.
  intros w out.
  destruct (upstream_failure_records_no_usage demo_settings demo_body "t" (Some "k1")
              (demo_env None) w demo_project demo_subscription demo_plan
              (demo_passes_guards _ _ _) eq_refl eq_refl eq_refl eq_refl)
    as (Hfail & _).
  - vm_compute. reflexivity.
  - destruct (Hfail eq_refl) as (Hraise & Husage & _). split; assumption.
Defined.

(** A successful message counts once in the sum of every period that
    contains today, and in no other. *)
Lemma increment_message_in_period day tenant project ti to rows t s e :
  UsageRepo.messages_in_period t s e
    (UsageRepo.increment_message day tenant project ti to rows)
  = UsageRepo.messages_in_period t s e rows
    + (if bool_decide (tenant = t) && bool_decide (s <= day) && bool_decide (day < e)
       then 1 else 0).
Proof.
  unfold UsageRepo.messages_in_period, UsageRepo.increment_message.
  rewrite sum_where_upsert.
  - unfold UsageRepo.in_period. simpl. by rewrite andb_assoc.
  - intros r Hkey. apply same_key_spec in Hkey as (Hd & Ht & Hp). simpl in *.
    unfold UsageRepo.in_period. simpl. by rewrite Hd, Ht.
Qed.



(** ** The upload endpoint *)

(** Recording [n] characters today adds [n] to the sum of the project over
    every period that contains today, and to no other. *)
Lemma record_upload_chars_in_period day tenant project n rows t p s e :
  UsageRepo.chars_uploaded_for_project_in_period t p s e
    (UsageRepo.record_upload_chars day tenant project n rows)
  = UsageRepo.chars_uploaded_for_project_in_period t p s e rows
    + (if bool_decide (tenant = t) && bool_decide (project = p)
          && (bool_decide (s <= day) && bool_decide (day < e))
       then n else 0).
Proof.
  unfold UsageRepo.chars_uploaded_for_project_in_period, UsageRepo.record_upload_chars.
  rewrite sum_where_upsert.
  - unfold UsageRepo.in_period. simpl. done.
  - intros r Hkey. apply same_key_spec in Hkey as (Hd & Ht & Hp). simpl in *.
    unfold UsageRepo.in_period. simpl. by rewrite Hd, Ht, Hp.
Qed.

(** What [upload_and_attach] does once the request is well formed, passes
    the limiter and finds its project, subscription and plan. *)
Lemma upload_at_gate settings uuid_of_string tenant_arg project_arg files auth env w
    tenant_uuid project_uuid project subscription plan :
  files <> [] ->
  uuid_of_string tenant_arg = Some tenant_uuid ->
  uuid_of_string project_arg = Some project_uuid ->
  auth = tenant_uuid ->
  (check_rate_limit settings tenant_uuid env w).1 = Ok tt ->
  ProjectRepo.get_by_id project_uuid (projects (db w)) = Ok (Some project) ->
  tenant_id project = tenant_uuid ->
  truthy (vector_store_id project) = true ->
  SubscriptionRepo.get_with_plan tenant_uuid (db w) = Some (subscription, Some plan) ->
  let total := (read_uploads files).2 in
  let already := UsageRepo.chars_uploaded_for_project_in_period tenant_uuid project_uuid
                   (current_period_start subscription) (current_period_end subscription)
                   (usage_daily (db w)) in
  let out := upload_and_attach settings uuid_of_string tenant_arg project_arg files auth
               env w in
  if bool_decide (already + total > monthly_upload_char_cap plan)
  then out = (Raise upload_cap_exceeded, (check_rate_limit settings tenant_uuid env w).2)
  else
    match files_reply env, batch_reply env with
    | Some ids, Some batch =>
        (exists r, out.1 = Ok r)
        /\ usage_daily (db out.2)
           = (if bool_decide (total = 0) then usage_daily (db w)
              else UsageRepo.record_upload_chars (today env) tenant_uuid project_uuid total
                     (usage_daily (db w)))
    | _, _ =>
        out.1 = Raise (Upstream "provider call failed")
        /\ usage_daily (db out.2) = usage_daily (db w)
    end.
Proof.
  intros Hfiles Ht Hp Hauth Hrate Hproject Htenant Hvs Hsub total already out.
  destruct (check_rate_limit_frame settings tenant_uuid env w) as (Hdb & _ & _).
  remember out as o eqn:Hout. unfold out in Hout. clear out.
  unfold upload_and_attach, get_project_by_id, _parse_uuid in Hout.
  rewrite bool_decide_false, Ht, Hp in Hout by done.
  run_handler in Hout.
  rewrite (bool_decide_true _ Hauth) in Hout. run_handler in Hout.
  destruct (check_rate_limit settings tenant_uuid env w) as [r1 w1].
  simpl in Hrate, Hdb. subst r1. run_handler in Hout.
  rewrite Hdb, Hproject in Hout. run_handler in Hout.
  rewrite (bool_decide_true _ Htenant) in Hout. run_handler in Hout.
  rewrite Hvs in Hout. run_handler in Hout.
  unfold total, already. clear total already.
  destruct (read_uploads files) as [payload total]. run_handler in Hout.
  rewrite Hdb, Hsub in Hout. run_handler in Hout. rewrite Hdb in Hout.
  simpl snd.
  destruct (bool_decide (_ > _)); run_handler in Hout; [done|].
  destruct (files_reply env) as [ids|]; run_handler in Hout;
    [|subst o; simpl; by rewrite Hdb].
  destruct (batch_reply env) as [batch|]; run_handler in Hout;
    [|subst o; simpl; by rewrite Hdb].
  destruct (bool_decide (total = 0)); run_handler in Hout;
    subst o; simpl; rewrite ?Hdb; (split; [by eexists|done]).
Qed.

(** C2. A batch that reaches the upload gate is refused whole with 402
    "Upload character cap exceeded" when the characters already recorded
    for the (tenant, project) in the current period plus the total of the
    batch exceed the plan's cap, and then neither the ledger nor the
    provider is touched; otherwise it is let through, and once the
    provider has taken the files the whole total is added to today's
    row of the project, hence to every period sum that contains today. *)
Theorem upload_gate (settings : Settings) (uuid_of_string : string -> option UUID)
    (tenant_arg project_arg : string) (files : list UploadFile) (auth : UUID)
    (env : Env) (w : World) (tenant_uuid project_uuid : UUID)
    (project : Project) (subscription : Subscription) (plan : Plan) :
  files <> [] ->
  uuid_of_string tenant_arg = Some tenant_uuid ->
  uuid_of_string project_arg = Some project_uuid ->
  auth = tenant_uuid ->
  (check_rate_limit settings tenant_uuid env w).1 = Ok tt ->
  ProjectRepo.get_by_id project_uuid (projects (db w)) = Ok (Some project) ->
  tenant_id project = tenant_uuid ->
  truthy (vector_store_id project) = true ->
  SubscriptionRepo.get_with_plan tenant_uuid (db w) = Some (subscription, Some plan) ->
  let total := (read_uploads files).2 in
  let already := UsageRepo.chars_uploaded_for_project_in_period tenant_uuid project_uuid
                   (current_period_start subscription) (current_period_end subscription)
                   (usage_daily (db w)) in
  let out := upload_and_attach settings uuid_of_string tenant_arg project_arg files auth
               env w in
  (already + total > monthly_upload_char_cap plan ->
     out.1 = Raise upload_cap_exceeded
     /\ usage_daily (db out.2) = usage_daily (db w)
     /\ provider_calls out.2 = provider_calls w)
  /\ (already + total <= monthly_upload_char_cap plan ->
      out.1 <> Raise upload_cap_exceeded
      /\ (is_Some (files_reply env) -> is_Some (batch_reply env) ->
          (exists r, out.1 = Ok r)
          /\ (total <> 0 ->
              usage_daily (db out.2)
              = UsageRepo.record_upload_chars (today env) tenant_uuid project_uuid total
                  (usage_daily (db w)))
          /\ forall t p s e,
               UsageRepo.chars_uploaded_for_project_in_period t p s e
                 (usage_daily (db out.2))
               = UsageRepo.chars_uploaded_for_project_in_period t p s e
                   (usage_daily (db w))
                 + (if bool_decide (tenant_uuid = t) && bool_decide (project_uuid = p)
                       && (bool_decide (s <= today env) && bool_decide (today env < e))
                    then total else 0))).
Proof.
  intros Hfiles Ht Hp Hauth Hrate Hproject Htenant Hvs Hsub total already out.
  pose proof (upload_at_gate settings uuid_of_string tenant_arg project_arg files auth env w
                tenant_uuid project_uuid project subscription plan
                Hfiles Ht Hp Hauth Hrate Hproject Htenant Hvs Hsub) as Hgate.
  cbv zeta in Hgate. fold total already out in Hgate.
  destruct (check_rate_limit_frame settings tenant_uuid env w) as (Hdb & Hcalls & _).
  split.
  - intros Hover. rewrite bool_decide_true in Hgate by done.
    rewrite Hgate. simpl. by rewrite Hdb, Hcalls.
  - intros Hfits. rewrite bool_decide_false in Hgate by lia. split.
    + destruct (files_reply env), (batch_reply env);
        destruct Hgate as [Ho _]; try (rewrite Ho; discriminate).
      destruct Ho as [r ->]. discriminate.
    + intros [ids Hids] [batch Hbatch]. rewrite Hids, Hbatch in Hgate.
      destruct Hgate as [Hok Husage]. split; [done|]. split.
      * intros Hnz. by rewrite Husage, bool_decide_false.
      * intros t p s e. rewrite Husage. case_bool_decide as Hz.
        -- rewrite Hz. destruct (_ && _); lia.
        -- apply record_upload_chars_in_period.
Qed.

Lemma upload_gate_witness :
  let out := upload_and_attach demo_settings canonical_uuid "t" "p"
               [text_upload hello_world] "t" (demo_env None)
               (demo_world [demo_usage 12 0 9]) in
  out.1 = Raise upload_cap_exceeded /\ usage_daily (db out.2) = [demo_usage 12 0 9].
Proof.
  intros out.
  destruct (upload_gate demo_settings canonical_uuid "t" "p" [text_upload hello_world] "t"
              (demo_env None) (demo_world [demo_usage 12 0 9]) "t" "p"
              demo_project demo_subscription demo_plan)
    as (Hover & _); try reflexivity; [discriminate|].
  destruct Hover as (Hraise & Husage & _); [vm_compute; reflexivity|].
  split; assumption.
Defined.


(** ** Project creation *)

Lemma count_for_tenant_spec tenant rows :
  ProjectRepo.count_for_tenant tenant rows = spec_count_of_existing_projects tenant rows.
Proof.
  unfold ProjectRepo.count_for_tenant.
  induction rows as [|p rows IH]; [done|].
  rewrite filter_cons. simpl. rewrite <- IH.
  destruct (decide (tenant_id p = tenant)) as [Hp|Hp].
  - rewrite (bool_decide_true _ Hp). simpl length. lia.
  - rewrite (bool_decide_false _ Hp). lia.
Qed.

(** Under the unique constraint on (tenant, name), the lookup by tenant
    and name finds the project of that key, and nothing when no row has
    it. *)
Lemma get_by_tenant_and_name_absent tenant nm rows :
  (tenant, nm) ∉ project_key <$> rows ->
  ProjectRepo.get_by_tenant_and_name tenant nm rows = Ok None.
Proof.
  intros Habsent. unfold ProjectRepo.get_by_tenant_and_name.
  assert (filter (fun p => tenant_id p = tenant /\ name p = nm) rows = []) as ->; [|done].
  induction rows as [|p rows IH]; [done|].
  rewrite fmap_cons, not_elem_of_cons in Habsent. destruct Habsent as [Hp Hrows].
  rewrite filter_cons. destruct (decide _) as [[Ht Hn]|_]; [|by apply IH].
  destruct Hp. unfold project_key. by rewrite Ht, Hn.
Qed.

Lemma get_by_tenant_and_name_found tenant nm rows existing :
  NoDup (project_key <$> rows) ->
  existing ∈ rows ->
  project_key existing = (tenant, nm) ->
  ProjectRepo.get_by_tenant_and_name tenant nm rows = Ok (Some existing).
Proof.
  intros Hnodup Hin Hkey. unfold ProjectRepo.get_by_tenant_and_name.
  assert (filter (fun p => tenant_id p = tenant /\ name p = nm) rows = [existing])
    as ->; [|done].
  induction rows as [|p rows IH]; [by apply elem_of_nil in Hin|].
  rewrite fmap_cons in Hnodup. apply NoDup_cons in Hnodup as [Hp Hnodup].
  rewrite filter_cons. apply elem_of_cons in Hin as [<-|Hin].
  - destruct (decide _) as [_|Hno].
    + f_equal. rewrite Hkey in Hp.
      pose proof (get_by_tenant_and_name_absent tenant nm rows Hp) as Habsent.
      unfold ProjectRepo.get_by_tenant_and_name, scalar_one_or_none in Habsent.
      by destruct (filter _ rows) as [|q [|q' l]].
    + destruct Hno. unfold project_key in Hkey. by simplify_eq.
  - destruct (decide _) as [[Ht Hn]|_]; [|by apply IH].
    destruct Hp. apply list_elem_of_fmap. exists existing. split; [|done].
    rewrite Hkey. unfold project_key. by rewrite Ht, Hn.
Qed.

(** C8, as the specification has it, fails for a tenant that has no
    subscription: asked to create the project it already owns, the
    handler answers 403 "No active subscription" instead of returning the
    project. *)
Lemma idempotent_create_counterexample :
  ~ (forall settings uuid_of_string tenant_arg name_arg auth env w existing,
        uuid_of_string tenant_arg = Some auth ->
        (check_rate_limit settings auth env w).1 = Ok tt ->
        NoDup (project_key <$> projects (db w)) ->
        existing ∈ projects (db w) ->
        project_key existing = (auth, name_arg) ->
        (create_project settings uuid_of_string tenant_arg name_arg auth env w).1
        = Ok (existing, "exists")).
Proof.
  intros Hclaim.
  specialize (Hclaim demo_settings canonical_uuid "t" "Quota" "t" (demo_env None)
                legacy_world demo_project eq_refl eq_refl).
  assert ((create_project demo_settings canonical_uuid "t" "Quota" "t" (demo_env None)
             legacy_world).1 = Raise no_active_subscription) as Hcode
    by (vm_compute; reflexivity).
  rewrite Hclaim in Hcode; [discriminate| |by apply list_elem_of_singleton|done].
  apply NoDup_singleton.
Qed.

(** C8, amended. For a well-formed, authorised request that passes the
    limiter, with (tenant, name) unique among the projects: a tenant
    without a subscription is answered 403 "No active subscription",
    whether or not the project exists. For a tenant with a subscription,
    a project of that tenant and name is returned with status "exists",
    whatever the plan and the count say and with the projects table
    unchanged; when there is none, creation is allowed exactly when the
    number of the tenant's own projects is below [max_projects] -- the new
    row is appended and returned with status "created" -- and is denied
    with 402 "Project limit reached" when it is not (500 when the plan row
    is missing). *)
Theorem project_creation_gate (settings : Settings) (uuid_of_string : string -> option UUID)
    (tenant_arg name_arg : string) (auth : UUID) (env : Env) (w : World)
    (tenant_uuid : UUID) :
  uuid_of_string tenant_arg = Some tenant_uuid ->
  auth = tenant_uuid ->
  (check_rate_limit settings tenant_uuid env w).1 = Ok tt ->
  NoDup (project_key <$> projects (db w)) ->
  let out := create_project settings uuid_of_string tenant_arg name_arg auth env w in
  let count := spec_count_of_existing_projects tenant_uuid (projects (db w)) in
  (SubscriptionRepo.get_with_plan tenant_uuid (db w) = None ->
   out.1 = Raise no_active_subscription /\ projects (db out.2) = projects (db w))
  /\ (forall subscription plan_row,
        SubscriptionRepo.get_with_plan tenant_uuid (db w) = Some (subscription, plan_row) ->
        (forall existing,
            existing ∈ projects (db w) ->
            project_key existing = (tenant_uuid, name_arg) ->
            out.1 = Ok (existing, "exists") /\ projects (db out.2) = projects (db w))
        /\ ((tenant_uuid, name_arg) ∉ project_key <$> projects (db w) ->
            (plan_row = None ->
             out.1 = Raise plan_data_missing /\ projects (db out.2) = projects (db w))
            /\ (forall plan,
                  plan_row = Some plan ->
                  let created := {| id := uuid4 env; tenant_id := tenant_uuid;
                                    name := name_arg; vector_store_id := None |} in
                  (count < max_projects plan <-> out.1 = Ok (created, "created"))
                  /\ (count < max_projects plan ->
                      projects (db out.2) = projects (db w) ++ [created])
                  /\ (max_projects plan <= count ->
                      out.1 = Raise project_limit_reached
                      /\ projects (db out.2) = projects (db w))))).
Proof.
  intros Ht Hauth Hrate Hnodup out count.
  destruct (check_rate_limit_frame settings tenant_uuid env w) as (Hdb & _ & _).
  remember out as o eqn:Hout. unfold out in Hout. clear out.
  unfold create_project, _parse_uuid in Hout. rewrite Ht in Hout.
  run_handler in Hout.
  rewrite (bool_decide_true _ Hauth) in Hout. run_handler in Hout.
  destruct (check_rate_limit settings tenant_uuid env w) as [r1 w1].
  simpl in Hrate, Hdb. subst r1. run_handler in Hout.
  rewrite Hdb in Hout.
  split.
  - intros Hnone. rewrite Hnone in Hout. run_handler in Hout.
    subst o. simpl. by rewrite Hdb.
  - intros subscription plan_row Hsub. rewrite Hsub in Hout. run_handler in Hout.
    rewrite Hdb in Hout. split.
    + intros existing Hin Hkey.
      rewrite (get_by_tenant_and_name_found _ _ _ _ Hnodup Hin Hkey) in Hout.
      run_handler in Hout. subst o. simpl. by rewrite Hdb.
    + intros Habsent.
      rewrite (get_by_tenant_and_name_absent _ _ _ Habsent) in Hout.
      run_handler in Hout. split.
      * intros ->. run_handler in Hout. subst o. simpl. by rewrite Hdb.
      * intros plan -> created. rewrite Hdb, count_for_tenant_spec in Hout.
        fold count in Hout.
        destruct (bool_decide (count >= max_projects plan)) eqn:Hfull;
          run_handler in Hout.
        -- apply bool_decide_eq_true in Hfull. subst o. simpl. rewrite Hdb.
           split; [split; [lia|discriminate]|]. split; [lia|done].
        -- apply bool_decide_eq_false in Hfull.
           unfold ProjectRepo.create in Hout. run_handler in Hout. rewrite Hdb in Hout.
           subst o. simpl. split; [split; [done|lia]|]. split; [done|lia].
Qed.

Lemma project_creation_gate_witness :
  (create_project demo_settings canonical_uuid "t" "Quota" "t" (demo_env None)
     (demo_world [])).1 = Ok (demo_project, "exists")
  /\ (create_project demo_settings canonical_uuid "t" "Another" "t" (demo_env None)
        (demo_world [])).1 = Raise project_limit_reached
  /\ (create_project demo_settings canonical_uuid "t" "Quota" "t" (demo_env None)
        legacy_world).1 = Raise no_active_subscription.
Proof.
  split; [|split].
  - destruct (project_creation_gate demo_settings canonical_uuid "t" "Quota" "t"
                (demo_env None) (demo_world []) "t"
                eq_refl eq_refl eq_refl (NoDup_singleton _)) as (_ & Hsubscribed).
    destruct (Hsubscribed demo_subscription (Some demo_plan) eq_refl) as (Hexists & _).
    apply Hexists; [apply list_elem_of_singleton|]; reflexivity.
  - destruct (project_creation_gate demo_settings canonical_uuid "t" "Another" "t"
                (demo_env None) (demo_world []) "t"
                eq_refl eq_refl eq_refl (NoDup_singleton _)) as (_ & Hsubscribed).
    destruct (Hsubscribed demo_subscription (Some demo_plan) eq_refl) as (_ & Hnew).
    destruct Hnew as (_ & Hplan).
    + simpl. rewrite list_elem_of_singleton. discriminate.
    + destruct (Hplan demo_plan eq_refl) as (_ & _ & Hfull).
      apply Hfull. vm_compute. discriminate.
  - destruct (project_creation_gate demo_settings canonical_uuid "t" "Quota" "t"
                (demo_env None) legacy_world "t"
                eq_refl eq_refl eq_refl (NoDup_singleton _)) as (Hnone & _).
    apply Hnone. reflexivity.
Defined.


(** ** Order of the checks *)

Lemma ask_rate_limited settings body tenant key env w e :
  (check_rate_limit settings tenant env w).1 = Raise e ->
  ask settings body tenant key env w
  = (Raise e, (check_rate_limit settings tenant env w).2).
Proof.
  intros Hrate. unfold ask. unfold bind at 1.
  destruct (check_rate_limit settings tenant env w) as [r1 w1]. simpl in *. by subst r1.
Qed.





(** ** Counting the characters of a batch *)

(** The cases of the decoder, once its recursive calls have been named. *)
Ltac decoder_cases :=
  unfold on_error, emit in *;
  repeat (case_match; simplify_eq; try done).

(** The decoder on a few inputs: ASCII, a two-, three- and four-byte
    sequence, and malformed input under each handler. *)
Example decode_ascii : utf8_decode strict [x68; x69] = Some [104; 105].
Proof. reflexivity. Qed.

Example decode_e_acute : utf8_decode strict [xc3; xa9] = Some [233].
Proof. reflexivity. Qed.

Example decode_euro : utf8_decode strict [xe2; x82; xac] = Some [8364].
Proof. reflexivity. Qed.

Example decode_emoji : utf8_decode strict [xf0; x9f; x98; x80] = Some [128512].
Proof. reflexivity. Qed.

Example decode_bad_start :
  utf8_decode strict [xff; x41] = None /\ utf8_decode ignore [xff; x41] = Some [65].
Proof. split; reflexivity. Qed.

Example decode_truncated :
  utf8_decode strict [xe2; x82] = None /\ utf8_decode ignore [xe2; x82] = Some [].
Proof. split; reflexivity. Qed.

Example decode_surrogate : utf8_decode ignore [xed; xa0; x80; x41] = Some [65].
Proof. reflexivity. Qed.

Example decode_overlong : utf8_decode ignore [xc0; x80] = Some [].
Proof. reflexivity. Qed.

(** With the [ignore] handler the decoder always returns, with at most one
    code point per byte. *)
Lemma utf8_decode_ignore_bound (n : nat) : forall bs : list byte,
  (length bs <= n)%nat ->
  exists cps, utf8_decode ignore bs = Some cps /\ (length cps <= length bs)%nat.
Proof.
  induction n as [|n IH]; intros bs Hlen.
  - destruct bs; [by exists [] | simpl in Hlen; lia].
  - destruct bs as [|b1 r1]; [by exists []|]. simpl in Hlen.
    cbn [utf8_decode].
    destruct (IH r1 ltac:(lia)) as (c1 & Hc1 & Hl1). rewrite Hc1.
    destruct r1 as [|b2 r2]; cbn [length] in *.
    { decoder_cases; eexists; (split; [reflexivity|simpl; lia]). }
    destruct (IH r2 ltac:(lia)) as (c2 & Hc2 & Hl2). rewrite Hc2.
    destruct r2 as [|b3 r3]; cbn [length] in *.
    { decoder_cases; eexists; (split; [reflexivity|simpl; lia]). }
    destruct (IH r3 ltac:(lia)) as (c3 & Hc3 & Hl3). rewrite Hc3.
    destruct r3 as [|b4 r4]; cbn [length] in *.
    { decoder_cases; eexists; (split; [reflexivity|simpl; lia]). }
    destruct (IH r4 ltac:(lia)) as (c4 & Hc4 & Hl4). rewrite Hc4.
    decoder_cases; eexists; (split; [reflexivity|simpl; lia]).
Qed.

(** On bytes that are well-formed UTF-8 the two handlers agree. *)
Lemma utf8_decode_strict_ignore (n : nat) : forall (bs : list byte) cps,
  (length bs <= n)%nat ->
  utf8_decode strict bs = Some cps -> utf8_decode ignore bs = Some cps.
Proof.
  induction n as [|n IH]; intros bs cps Hlen.
  - destruct bs; [done | simpl in Hlen; lia].
  - destruct bs as [|b1 r1]; [done|]. simpl in Hlen.
    cbn [utf8_decode].
    pose proof (IH r1) as IH1.
    destruct (utf8_decode strict r1) as [s1|] eqn:Hs1;
      [rewrite (IH1 s1) by (lia || done) | destruct (utf8_decode ignore r1)];
      clear IH1;
      (destruct r1 as [|b2 r2]; cbn [length] in *; [decoder_cases|]);
      pose proof (IH r2) as IH2;
      (destruct (utf8_decode strict r2) as [s2|] eqn:Hs2;
       [rewrite (IH2 s2) by (lia || done) | destruct (utf8_decode ignore r2)]);
      clear IH2;
      (destruct r2 as [|b3 r3]; cbn [length] in *; [decoder_cases|]);
      pose proof (IH r3) as IH3;
      (destruct (utf8_decode strict r3) as [s3|] eqn:Hs3;
       [rewrite (IH3 s3) by (lia || done) | destruct (utf8_decode ignore r3)]);
      clear IH3;
      (destruct r3 as [|b4 r4]; cbn [length] in *; [decoder_cases|]);
      pose proof (IH r4) as IH4;
      (destruct (utf8_decode strict r4) as [s4|] eqn:Hs4;
       [rewrite (IH4 s4) by (lia || done) | destruct (utf8_decode ignore r4)]);
      clear IH4;
      decoder_cases.
Qed.

Lemma read_uploads_total (files : list UploadFile) :
  (read_uploads files).2
  = foldr (fun upload acc => counted_chars (file_bytes upload) + acc) 0 files.
Proof.
  unfold read_uploads.
  enough (forall acc : list (string * list byte * string) * Z,
             (foldl (fun '(payload, total_chars) upload =>
                       (payload ++ [(or_else (filename upload) "upload.bin",
                                     file_bytes upload,
                                     or_else (content_type upload)
                                       "application/octet-stream")],
                        total_chars + counted_chars (file_bytes upload)))
                    acc files).2
             = acc.2 + foldr (fun upload a => counted_chars (file_bytes upload) + a) 0 files)
    as Hgen by (rewrite Hgen; simpl; lia).
  induction files as [|upload files IH]; intros [payload total]; simpl; [lia|].
  rewrite IH. simpl. lia.
Qed.

(** C9, as the specification has it, fails on a file that is not UTF-8:
    the single byte FF counts for nothing, not for its one byte. *)
Lemma char_count_counterexample :
  ~ (forall files : list UploadFile, (read_uploads files).2 = spec_total_chars files).
Proof.
  intros Hclaim. specialize (Hclaim [text_upload [xff]]).
  vm_compute in Hclaim. discriminate.
Qed.

(** C9, amended. The count of a batch is the sum over its files of the
    number of code points left when the file is decoded as UTF-8 with the
    bytes that do not decode dropped. That decoding never fails, so the
    byte-length branch is never taken; on a file that is well-formed UTF-8
    the count is the length of its text, and in general it is at most the
    length in bytes. *)
Theorem upload_char_count (files : list UploadFile) :
  (read_uploads files).2
  = foldr (fun upload acc =>
             Z.of_nat (length (default [] (utf8_decode ignore (file_bytes upload)))) + acc)
          0 files
  /\ (forall data : list byte,
        is_Some (utf8_decode ignore data)
        /\ 0 <= counted_chars data <= Z.of_nat (length data)
        /\ (is_Some (utf8_decode strict data) ->
            counted_chars data = spec_counted_chars data)).
Proof.
  split.
  - rewrite read_uploads_total. induction files as [|upload files IH]; [done|].
    simpl. rewrite IH. f_equal. unfold counted_chars.
    destruct (utf8_decode_ignore_bound (length (file_bytes upload)) (file_bytes upload))
      as (cps & -> & _); done.
  - intros data.
    destruct (utf8_decode_ignore_bound (length data) data) as (cps & Hcps & Hlen); [done|].
    split; [by eexists|]. unfold counted_chars, spec_counted_chars. rewrite Hcps.
    split; [lia|]. intros [s Hs].
    rewrite Hs. apply utf8_decode_strict_ignore with (n := length data) in Hs; [|done].
    congruence.
Qed.


(** * Further properties of the code *)

(** ** The usage ledger as a table *)

Lemma upsert_keys_incl fresh merge rows k :
  (forall r, usage_key (merge r) = usage_key r) ->
  k ∈ usage_key <$> UsageRepo.upsert fresh merge rows ->
  k ∈ usage_key <$> rows \/ k = usage_key fresh.
Proof.
  intros Hmerge. induction rows as [|r rows IH]; cbn [UsageRepo.upsert].
  - rewrite list_fmap_singleton, list_elem_of_singleton. by right.
  - destruct (UsageRepo.same_key _ _ _ r).
    + rewrite !fmap_cons, Hmerge. by left.
    + rewrite !fmap_cons, !elem_of_cons. intros [->|Hin]; [by left; left|].
      destruct (IH Hin); [left; by right | by right].
Qed.

Lemma upsert_keeps_keys_distinct fresh merge rows :
  (forall r, usage_key (merge r) = usage_key r) ->
  NoDup (usage_key <$> rows) ->
  NoDup (usage_key <$> UsageRepo.upsert fresh merge rows).
Proof.
  intros Hmerge. induction rows as [|r rows IH]; cbn [UsageRepo.upsert]; intros Hnodup.
  - rewrite list_fmap_singleton. apply NoDup_singleton.
  - rewrite fmap_cons in Hnodup. apply NoDup_cons in Hnodup as [Hr Hrows].
    destruct (UsageRepo.same_key _ _ _ r) eqn:Hkey.
    + rewrite fmap_cons, Hmerge. by apply NoDup_cons.
    + rewrite fmap_cons. apply NoDup_cons. split; [|by apply IH].
      intros Hin. destruct (upsert_keys_incl _ _ _ _ Hmerge Hin) as [Hin'|Heq]; [done|].
      apply not_true_iff_false in Hkey. apply Hkey.
      apply same_key_spec. unfold usage_key in Heq. by simplify_eq.
Qed.

(** X1. Both writers keep (date, tenant_id, project_id) a key of the
    ledger: from rows with pairwise distinct keys they leave rows with
    pairwise distinct keys, at most one more than before. *)
Theorem ledger_primary_key (day : date) (tenant project : UUID) (ti to n : Z)
    (rows : list UsageDaily) :
  NoDup (usage_key <$> rows) ->
  NoDup (usage_key <$> UsageRepo.increment_message day tenant project ti to rows)
  /\ NoDup (usage_key <$> UsageRepo.record_upload_chars day tenant project n rows)
  /\ (length (UsageRepo.increment_message day tenant project ti to rows)
      <= S (length rows))%nat
  /\ (length (UsageRepo.record_upload_chars day tenant project n rows)
      <= S (length rows))%nat.
Proof.
  intros Hnodup.
  assert (forall fresh merge, (length (UsageRepo.upsert fresh merge rows)
                               <= S (length rows))%nat) as Hlen.
  { intros fresh merge. clear Hnodup.
    induction rows as [|r rows IH]; cbn [UsageRepo.upsert]; [simpl; lia|].
    destruct (UsageRepo.same_key _ _ _ r); simpl in *; lia. }
  split; [|split; [|split]].
  - by apply upsert_keeps_keys_distinct.
  - by apply upsert_keeps_keys_distinct.
  - apply Hlen.
  - apply Hlen.
Qed.

Lemma ledger_primary_key_witness :
  NoDup (usage_key <$> UsageRepo.increment_message 12 "t" "p" 3 4
                         [demo_usage 11 1 0; demo_usage 12 1 0]).
Proof.
  apply (ledger_primary_key 12 "t" "p" 3 4 0 [demo_usage 11 1 0; demo_usage 12 1 0]).
  apply NoDup_cons. split; [|apply NoDup_singleton].
  rewrite list_elem_of_singleton. discriminate.
Defined.

Lemma usage_row_upsert_same fresh merge rows day tenant project :
  (forall r, usage_key (merge r) = usage_key r) ->
  usage_key fresh = (day, tenant, project) ->
  usage_row day tenant project (UsageRepo.upsert fresh merge rows)
  = Some (match usage_row day tenant project rows with
          | Some r => merge r
          | None => fresh
          end).
Proof.
  intros Hmerge Hfresh. unfold usage_key in Hfresh. injection Hfresh as <- <- <-.
  unfold usage_row.
  induction rows as [|r rows IH]; cbn [UsageRepo.upsert find].
  - assert (UsageRepo.same_key (usage_date fresh) (usage_tenant_id fresh)
              (usage_project_id fresh) fresh = true) as ->; [|done].
    by apply same_key_spec.
  - destruct (UsageRepo.same_key _ _ _ r) eqn:Hkey; cbn [find].
    + assert (UsageRepo.same_key (usage_date fresh) (usage_tenant_id fresh)
                (usage_project_id fresh) (merge r) = true) as ->; [|done].
      apply same_key_spec. apply same_key_spec in Hkey.
      specialize (Hmerge r). unfold usage_key in Hmerge.
      injection Hmerge as H1 H2 H3. by rewrite H1, H2, H3.
    + by rewrite Hkey.
Qed.

Lemma usage_row_upsert_other fresh merge rows day tenant project :
  (forall r, usage_key (merge r) = usage_key r) ->
  (day, tenant, project) <> usage_key fresh ->
  usage_row day tenant project (UsageRepo.upsert fresh merge rows)
  = usage_row day tenant project rows.
Proof.
  intros Hmerge Hother. unfold usage_row.
  assert (forall r, usage_key r = usage_key fresh ->
                    UsageRepo.same_key day tenant project r = false) as Hmiss.
  { intros r Hr. apply not_true_is_false. rewrite same_key_spec.
    intros (Hd & Ht & Hp). apply Hother. rewrite <- Hr. unfold usage_key. by subst. }
  induction rows as [|r rows IH]; cbn [UsageRepo.upsert find].
  - by rewrite Hmiss.
  - destruct (UsageRepo.same_key (usage_date fresh) _ _ r) eqn:Hkey; cbn [find].
    + apply same_key_spec in Hkey as (Hd & Ht & Hp).
      assert (usage_key r = usage_key fresh) as Hr
        by (unfold usage_key; by rewrite Hd, Ht, Hp).
      rewrite (Hmiss (merge r)), (Hmiss r); [done|done|].
      by rewrite Hmerge.
    + by rewrite IH.
Qed.

(** X2. [K] successive increments for one (day, tenant, project) leave
    exactly one row for that key, with [messages_count] and the token
    counters raised by [K], [K * tokens_in] and [K * tokens_out] over what
    the row held before (0 when there was none) and [chars_uploaded] as it
    was; the row of any other key is untouched. *)
Theorem increment_message_repeated (K : nat) (day : date) (tenant project : UUID)
    (ti to : Z) (rows : list UsageDaily) :
  let rows' := Nat.iter (S K) (UsageRepo.increment_message day tenant project ti to) rows in
  let count f := default 0 (f <$> usage_row day tenant project rows) in
  (exists r,
      usage_row day tenant project rows' = Some r
      /\ usage_key r = (day, tenant, project)
      /\ messages_count r = count messages_count + Z.of_nat (S K)
      /\ tokens_in r = count tokens_in + Z.of_nat (S K) * ti
      /\ tokens_out r = count tokens_out + Z.of_nat (S K) * to
      /\ chars_uploaded r = count chars_uploaded)
  /\ forall day' tenant' project',
       (day', tenant', project') <> (day, tenant, project) ->
       usage_row day' tenant' project' rows' = usage_row day' tenant' project' rows.
Proof.
  induction K as [|K IH]; intros rows' count.
  - unfold rows'. rewrite Nat.iter_succ.
    change (Nat.iter 0 _ rows) with rows. split.
    + unfold UsageRepo.increment_message. rewrite usage_row_upsert_same by done.
      unfold count. destruct (usage_row day tenant project rows) as [r|] eqn:Hrow.
      * eexists. split; [reflexivity|]. simpl.
        apply find_some in Hrow as [_ Hkey]. apply same_key_spec in Hkey as (-> & -> & ->).
        repeat split; lia.
      * eexists. split; [reflexivity|]. simpl. repeat split; lia.
    + intros day' tenant' project' Hother.
      unfold UsageRepo.increment_message. by rewrite usage_row_upsert_other.
  - destruct IH as ((r & Hr & Hkey & Hm & Hti & Hto & Hc) & Hothers).
    unfold rows'. rewrite Nat.iter_succ. split.
    + unfold UsageRepo.increment_message at 1. rewrite usage_row_upsert_same by done.
      rewrite Hr.
      eexists. split; [reflexivity|]. simpl.
      unfold usage_key in Hkey. unfold count in *. simplify_eq.
      repeat split; lia.
    + intros day' tenant' project' Hother.
      unfold UsageRepo.increment_message at 1.
      rewrite usage_row_upsert_other by done. by apply Hothers.
Qed.

(** X3. The two writers touch disjoint counters: a recorded message
    changes no character sum, and recorded characters change no message
    sum, whatever the tenant, project and period asked for. *)
Theorem counters_independent (day : date) (tenant project : UUID) (ti to n : Z)
    (rows : list UsageDaily) (t p : UUID) (s e : date) :
  UsageRepo.chars_uploaded_in_period t s e
    (UsageRepo.increment_message day tenant project ti to rows)
  = UsageRepo.chars_uploaded_in_period t s e rows
  /\ UsageRepo.chars_uploaded_for_project_in_period t p s e
       (UsageRepo.increment_message day tenant project ti to rows)
     = UsageRepo.chars_uploaded_for_project_in_period t p s e rows
  /\ UsageRepo.messages_in_period t s e
       (UsageRepo.record_upload_chars day tenant project n rows)
     = UsageRepo.messages_in_period t s e rows.
Proof.
  unfold UsageRepo.chars_uploaded_in_period, UsageRepo.chars_uploaded_for_project_in_period,
    UsageRepo.messages_in_period, UsageRepo.increment_message, UsageRepo.record_upload_chars.
  repeat split; (rewrite sum_where_upsert;
    [simpl; case_match; lia
    | intros r Hkey; apply same_key_spec in Hkey as (Hd & Ht & Hp); simpl in *;
      unfold UsageRepo.in_period; simpl; rewrite ?Hd, ?Ht, ?Hp; repeat split; lia]).
Qed.

(** X4. The ledger is scoped by tenant and by day: a recorded message
    adds one to the message sum of its own tenant over the periods that
    contain the day, recorded characters add their number to the sums of
    their own tenant over those periods, and the sums of every other
    tenant, and of periods that do not contain the day, stay as they
    were. *)
Theorem ledger_writes_are_scoped (day : date) (tenant project : UUID) (ti to n : Z)
    (rows : list UsageDaily) (t : UUID) (s e : date) :
  let covers := bool_decide (tenant = t) && bool_decide (s <= day) && bool_decide (day < e) in
  UsageRepo.messages_in_period t s e
    (UsageRepo.increment_message day tenant project ti to rows)
  = UsageRepo.messages_in_period t s e rows + (if covers then 1 else 0)
  /\ UsageRepo.chars_uploaded_in_period t s e
       (UsageRepo.record_upload_chars day tenant project n rows)
     = UsageRepo.chars_uploaded_in_period t s e rows + (if covers then n else 0)
  /\ (tenant <> t \/ ~ (s <= day < e) ->
      UsageRepo.messages_in_period t s e
        (UsageRepo.increment_message day tenant project ti to rows)
      = UsageRepo.messages_in_period t s e rows
      /\ UsageRepo.chars_uploaded_in_period t s e
           (UsageRepo.record_upload_chars day tenant project n rows)
         = UsageRepo.chars_uploaded_in_period t s e rows).
Proof.
  intros covers.
  assert (UsageRepo.chars_uploaded_in_period t s e
            (UsageRepo.record_upload_chars day tenant project n rows)
          = UsageRepo.chars_uploaded_in_period t s e rows + (if covers then n else 0))
    as Hchars.
  { unfold UsageRepo.chars_uploaded_in_period, UsageRepo.record_upload_chars.
    rewrite sum_where_upsert.
    - unfold UsageRepo.in_period, covers. simpl. by rewrite andb_assoc.
    - intros r Hkey. apply same_key_spec in Hkey as (Hd & Ht & Hp). simpl in *.
      unfold UsageRepo.in_period. simpl. by rewrite Hd, Ht. }
  split; [apply increment_message_in_period|]. split; [done|].
  intros Hout. rewrite increment_message_in_period, Hchars.
  unfold covers.
  assert (bool_decide (tenant = t) && bool_decide (s <= day) && bool_decide (day < e)
          = false) as ->; [|lia].
  destruct Hout as [Hne|Hout].
  - by rewrite (bool_decide_false _ Hne).
  - apply not_true_is_false. rewrite !andb_true_iff, !bool_decide_eq_true. lia.
Qed.

Lemma project_chars_le_tenant t p s e rows :
  Forall (fun r => 0 <= chars_uploaded r) rows ->
  UsageRepo.chars_uploaded_for_project_in_period t p s e rows
  <= UsageRepo.chars_uploaded_in_period t s e rows.
Proof.
  unfold UsageRepo.chars_uploaded_for_project_in_period, UsageRepo.chars_uploaded_in_period.
  induction 1 as [|r rows Hr _ IH]; [done|].
  rewrite !sum_where_cons.
  destruct (bool_decide (usage_tenant_id r = t)), (bool_decide (usage_project_id r = p)),
    (UsageRepo.in_period s e r); simpl; lia.
Qed.

(** X5. With counters that are not negative, what the upload gate reads
    for one project never exceeds what the tenant has uploaded in the
    period over all projects. *)
Theorem project_chars_le_tenant_chars (t p : UUID) (s e : date) (rows : list UsageDaily) :
  Forall (fun r => 0 <= chars_uploaded r) rows ->
  0 <= UsageRepo.chars_uploaded_for_project_in_period t p s e rows
  <= UsageRepo.chars_uploaded_in_period t s e rows.
Proof.
  intros Hnonneg. split; [|by apply project_chars_le_tenant].
  unfold UsageRepo.chars_uploaded_for_project_in_period.
  induction Hnonneg as [|r rows Hr _ IH]; [done|].
  rewrite sum_where_cons. destruct (_ && _); lia.
Qed.

Lemma project_chars_le_tenant_chars_witness :
  UsageRepo.chars_uploaded_for_project_in_period "t" "p" 10 40
    [demo_usage 12 0 9; demo_usage 13 0 4]
  <= UsageRepo.chars_uploaded_in_period "t" 10 40 [demo_usage 12 0 9; demo_usage 13 0 4].
Proof.
  apply (project_chars_le_tenant_chars "t" "p" 10 40 [demo_usage 12 0 9; demo_usage 13 0 4]).
  repeat constructor; simpl; lia.
Defined.

(** ** Every path of [ask] *)

(** Either [ask] raises with the tables and the provider untouched, or it
    went through both guards and every check, called the provider once,
    and then failed with only the user message stored or succeeded with
    both messages stored and the ledger incremented. *)
Lemma ask_cases settings body tenant key env w :
  let out := ask settings body tenant key env w in
  (exists e, out.1 = Raise e /\ db out.2 = db w /\ provider_calls out.2 = provider_calls w)
  \/ exists project subscription plan,
       passes_guards settings tenant key env w
       /\ ProjectRepo.get_by_id (project_id body) (projects (db w)) = Ok (Some project)
       /\ tenant_id project = tenant
       /\ truthy (vector_store_id project) = true
       /\ SubscriptionRepo.get_with_plan tenant (db w) = Some (subscription, Some plan)
       /\ UsageRepo.messages_in_period tenant (current_period_start subscription)
            (current_period_end subscription) (usage_daily (db w))
          < monthly_message_cap plan
       /\ provider_calls out.2
          = provider_calls w
            ++ [ResponsesCreate [default "" (vector_store_id project)] (question body)
                  (OPENAI_MODEL_DEFAULT settings)]
       /\ let user_message :=
            {| msg_tenant_id := tenant; msg_project_id := project_id body;
               role := "user"; content := question body;
               msg_tokens_in := 0; msg_tokens_out := 0; idempotency_key := key |} in
          match responses_reply env with
          | None =>
              out.1 = Raise (Upstream "provider call failed")
              /\ db out.2 = with_messages (messages (db w) ++ [user_message]) (db w)
          | Some raw =>
              let ti := _extract_usage_token (usage raw) input_tokens in
              let to := _extract_usage_token (usage raw) output_tokens in
              out.1 = Ok {| answer := output_text raw; answer_tokens_in := ti;
                            answer_tokens_out := to; citations := file_citations raw |}
              /\ db out.2
                 = with_usage_daily
                     (UsageRepo.increment_message (today env) tenant (project_id body) ti to
                        (usage_daily (db w)))
                     (with_messages
                        (messages (db w)
                         ++ [user_message;
                             {| msg_tenant_id := tenant; msg_project_id := project_id body;
                                role := "assistant"; content := output_text raw;
                                msg_tokens_in := ti; msg_tokens_out := to;
                                idempotency_key := None |}])
                        (db w))
          end.
Proof.
  intros out.
  destruct (check_rate_limit_frame settings tenant env w) as (Hdb1 & Hcalls1 & _).
  remember out as o eqn:Hout. unfold out in Hout. clear out.
  unfold ask, get_project_by_id in Hout. unfold bind at 1 in Hout.
  destruct (check_rate_limit settings tenant env w) as [[[]|e1] w1] eqn:H1;
    simpl in Hdb1, Hcalls1;
    [|left; exists e1; subst o; simpl; by rewrite Hdb1, Hcalls1].
  destruct (ensure_idempotent_frame tenant key env w1) as (Hdb2 & Hcalls2).
  unfold bind at 1 in Hout.
  destruct (ensure_idempotent tenant key env w1) as [[[]|e2] w2] eqn:H2;
    simpl in Hdb2, Hcalls2;
    [|left; exists e2; subst o; simpl; split; [done|split; congruence]].
  assert (db w2 = db w) as Hdb by congruence.
  assert (provider_calls w2 = provider_calls w) as Hcalls by congruence.
  assert (passes_guards settings tenant key env w) as Hguards.
  { unfold passes_guards. rewrite H1. simpl. by rewrite H2. }
  run_handler in Hout. rewrite Hdb in Hout.
  destruct (ProjectRepo.get_by_id _ _) as [[project|]|e] eqn:Hproject;
    run_handler in Hout;
    [|left; eexists; subst o; simpl; by rewrite Hdb, Hcalls
     |left; eexists; subst o; simpl; by rewrite Hdb, Hcalls].
  destruct (bool_decide (tenant_id project = tenant)) eqn:Htenant; run_handler in Hout;
    [|left; eexists; subst o; simpl; by rewrite Hdb, Hcalls].
  apply bool_decide_eq_true in Htenant.
  destruct (truthy (vector_store_id project)) eqn:Hvs; run_handler in Hout;
    [|left; eexists; subst o; simpl; by rewrite Hdb, Hcalls].
  rewrite Hdb in Hout.
  destruct (SubscriptionRepo.get_with_plan tenant (db w)) as [[subscription [plan|]]|]
    eqn:Hsub; run_handler in Hout;
    [|left; eexists; subst o; simpl; by rewrite Hdb, Hcalls
     |left; eexists; subst o; simpl; by rewrite Hdb, Hcalls].
  rewrite Hdb in Hout.
  destruct (bool_decide (_ >= _)) eqn:Hcap; run_handler in Hout;
    [left; eexists; subst o; simpl; by rewrite Hdb, Hcalls|].
  apply bool_decide_eq_false in Hcap.
  right. exists project, subscription, plan.
  do 5 (split; [done|]). split; [lia|].
  destruct (responses_reply env) as [raw|]; subst o; simpl; rewrite Hcalls, Hdb;
    repeat split; unfold with_usage_daily, with_messages; simpl;
    by rewrite <- ?app_assoc.
Qed.

(** X6. Whatever [ask] raises -- a denial, a database error or a
    provider failure -- the usage ledger is as it was before the request;
    only a request that returns an answer has counted a message. *)
Theorem ask_raise_keeps_ledger (settings : Settings) (body : AskBody) (tenant : UUID)
    (key : option string) (env : Env) (w : World) (e : exn) :
  (ask settings body tenant key env w).1 = Raise e ->
  usage_daily (db (ask settings body tenant key env w).2) = usage_daily (db w).
Proof.
  intros Hraise.
  destruct (ask_cases settings body tenant key env w)
    as [(e' & _ & Hdb & _)|(project & subscription & plan & _ & _ & _ & _ & _ & _ & _ & Hrun)].
  - by rewrite Hdb.
  - cbv zeta in Hrun. destruct (responses_reply env) as [raw|].
    + destruct Hrun as [Hok _]. congruence.
    + destruct Hrun as [_ ->]. done.
Qed.

Lemma ask_raise_keeps_ledger_witness :
  usage_daily (db (ask demo_settings demo_body "t" None (demo_env None)
                     (demo_world [demo_usage 12 1 0])).2)
  = [demo_usage 12 1 0].
Proof.
  apply (ask_raise_keeps_ledger demo_settings demo_body "t" None (demo_env None)
           (demo_world [demo_usage 12 1 0]) (Upstream "provider call failed")).
  vm_compute. reflexivity.
Defined.

(** X7. [ask] reaches the provider only through every gate, and then
    once: if the log of provider calls has changed, the request passed the
    limiter and the idempotency guard, its project belongs to the caller
    and has a vector store, the tenant has a subscription with its plan,
    the messages of the period were below the cap, and exactly one
    retrieval call, on that project's store, was added. *)
Theorem ask_calls_provider_only_through_gates (settings : Settings) (body : AskBody)
    (tenant : UUID) (key : option string) (env : Env) (w : World) :
  provider_calls (ask settings body tenant key env w).2 <> provider_calls w ->
  passes_guards settings tenant key env w
  /\ exists project subscription plan,
       ProjectRepo.get_by_id (project_id body) (projects (db w)) = Ok (Some project)
       /\ tenant_id project = tenant
       /\ truthy (vector_store_id project) = true
       /\ SubscriptionRepo.get_with_plan tenant (db w) = Some (subscription, Some plan)
       /\ UsageRepo.messages_in_period tenant (current_period_start subscription)
            (current_period_end subscription) (usage_daily (db w))
          < monthly_message_cap plan
       /\ provider_calls (ask settings body tenant key env w).2
          = provider_calls w
            ++ [ResponsesCreate [default "" (vector_store_id project)] (question body)
                  (OPENAI_MODEL_DEFAULT settings)].
Proof.
  intros Hcalled.
  destruct (ask_cases settings body tenant key env w)
    as [(e' & _ & _ & Hcalls)
       |(project & subscription & plan & Hg & Hp & Ht & Hvs & Hsub & Hcap & Hcalls & _)].
  - done.
  - split; [done|]. by exists project, subscription, plan.
Qed.

Lemma ask_calls_provider_only_through_gates_witness :
  passes_guards demo_settings "t" (Some "k") (demo_env None) (demo_world []).
Proof.
  apply (ask_calls_provider_only_through_gates demo_settings demo_body "t" (Some "k")
           (demo_env None) (demo_world [])).
  vm_compute. discriminate.
Defined.

(** X8. [ask] never writes to the projects, subscriptions, plans or
    tenants, and only appends to the messages: at most the user's message
    and the assistant's. *)
Theorem ask_frame (settings : Settings) (body : AskBody) (tenant : UUID)
    (key : option string) (env : Env) (w : World) :
  let d := db (ask settings body tenant key env w).2 in
  projects d = projects (db w)
  /\ subscriptions d = subscriptions (db w)
  /\ plans d = plans (db w)
  /\ tenants d = tenants (db w)
  /\ exists added, messages d = messages (db w) ++ added /\ (length added <= 2)%nat.
Proof.
  intros d. unfold d. clear d.
  destruct (ask_cases settings body tenant key env w)
    as [(e' & _ & Hdb & _)|(project & subscription & plan & _ & _ & _ & _ & _ & _ & _ & Hrun)].
  - rewrite Hdb. repeat split. exists []. split; [by rewrite app_nil_r | simpl; lia].
  - cbv zeta in Hrun. destruct (responses_reply env) as [raw|]; destruct Hrun as [_ ->];
      simpl; repeat split; eexists; (split; [reflexivity|simpl; lia]).
Qed.

(** ** A run of questions against the quota *)

Lemma ask_keeps_tables settings body tenant key env w :
  let d := db (ask settings body tenant key env w).2 in
  projects d = projects (db w) /\ subscriptions d = subscriptions (db w)
  /\ plans d = plans (db w) /\ tenants d = tenants (db w).
Proof.
  intros d. unfold d. clear d.
  destruct (ask_cases settings body tenant key env w)
    as [(e' & _ & Hdb & _)|(project & subscription & plan & _ & _ & _ & _ & _ & _ & _ & Hrun)].
  - by rewrite Hdb.
  - cbv zeta in Hrun. destruct (responses_reply env) as [raw|]; destruct Hrun as [_ ->]; done.
Qed.

Lemma redis_get_lookup now key (s : gmap string Redis.entry) e :
  Redis.get now key s = Some e -> s !! key = Some e.
Proof.
  unfold Redis.get. destruct (s !! key) as [e'|]; [|done].
  destruct (Redis.live now e'); [|done]. done.
Qed.

Lemma counters_at_most_insert j (s : gmap string Redis.entry) key e :
  counters_at_most j s -> Redis.value e <= j -> counters_at_most j (<[key := e]> s).
Proof.
  intros Hs He k e'. rewrite lookup_insert. case_decide; [|by apply Hs].
  by intros [= <-].
Qed.

Lemma counters_at_most_expire j now key seconds (s : gmap string Redis.entry) :
  counters_at_most j s -> counters_at_most j (Redis.expire now key seconds s).
Proof.
  intros Hs. unfold Redis.expire.
  destruct (Redis.get now key s) as [e|] eqn:Hget; [|done].
  apply counters_at_most_insert; [done|]. simpl.
  apply redis_get_lookup in Hget. by apply (Hs key).
Qed.

Lemma counters_at_most_incr j now key (s : gmap string Redis.entry) :
  counters_at_most j s -> 0 <= j ->
  (Redis.incr now key s).1 <= j + 1
  /\ counters_at_most (j + 1) (Redis.incr now key s).2.
Proof.
  intros Hs Hj.
  assert (counters_at_most (j + 1) s) as Hs'.
  { intros k e Hk. specialize (Hs k e Hk). lia. }
  unfold Redis.incr. destruct (Redis.get now key s) as [e|] eqn:Hget; simpl.
  - apply redis_get_lookup in Hget. specialize (Hs key e Hget).
    split; [lia|]. apply counters_at_most_insert; [done|simpl; lia].
  - split; [lia|]. apply counters_at_most_insert; [done|simpl; lia].
Qed.

(** With every counter at most [j] and [j] below the cap, the limiter
    lets the request through and leaves every counter at most [j + 1]. *)
Lemma check_rate_limit_within_budget settings tenant env w j :
  counters_at_most j (redis w) -> 0 <= j -> j < RATE_LIMIT_RPM settings ->
  exists w1,
    check_rate_limit settings tenant env w = (Ok tt, w1)
    /\ counters_at_most (j + 1) (redis w1)
    /\ db w1 = db w /\ provider_calls w1 = provider_calls w.
Proof.
  intros Hinv Hj Hbudget. rewrite check_rate_limit_run. cbv zeta.
  destruct (counters_at_most_incr j (now env) (rate_limit_key tenant (now env `div` 60))
              (redis w) Hinv Hj) as [Hcurrent Hinv1].
  destruct (Redis.incr _ _ _) as [current s1]. simpl in Hcurrent, Hinv1.
  eexists. split.
  { unfold verdict. rewrite bool_decide_false by lia. reflexivity. }
  split; [|done]. unfold with_redis; simpl.
  case_bool_decide; [|done]. by apply counters_at_most_expire.
Qed.

Lemma serve_ask_against_quota settings body tenant project subscription plan envs :
  forall w j,
  counters_at_most j (redis w) -> 0 <= j ->
  j + Z.of_nat (length envs) <= RATE_LIMIT_RPM settings ->
  ProjectRepo.get_by_id (project_id body) (projects (db w)) = Ok (Some project) ->
  tenant_id project = tenant ->
  truthy (vector_store_id project) = true ->
  SubscriptionRepo.get_with_plan tenant (db w) = Some (subscription, Some plan) ->
  (forall env, env ∈ envs ->
     current_period_start subscription <= today env < current_period_end subscription
     /\ is_Some (responses_reply env)) ->
  let used := UsageRepo.messages_in_period tenant (current_period_start subscription)
                (current_period_end subscription) (usage_daily (db w)) in
  let served := serve (ask settings body tenant None) envs w in
  (forall (i : nat) r, served.1 !! i = Some r ->
     if bool_decide (used + Z.of_nat i < monthly_message_cap plan)
     then exists a, r = Ok a
     else r = Raise message_cap_reached)
  /\ UsageRepo.messages_in_period tenant (current_period_start subscription)
       (current_period_end subscription) (usage_daily (db served.2))
     = Z.max used (Z.min (used + Z.of_nat (length envs)) (monthly_message_cap plan)).
Proof.
  induction envs as [|env envs IH];
    intros w j Hinv Hj Hbudget Hproject Htenant Hvs Hsub Henvs used served.
  - unfold served. simpl. split; [intros i r Hi; by rewrite lookup_nil in Hi|].
    fold used. lia.
  - simpl length in Hbudget.
    destruct (check_rate_limit_within_budget settings tenant env w j Hinv Hj ltac:(lia))
      as (w1 & H1 & Hinv1 & Hdb1 & _).
    pose proof (ensure_idempotent_bypass tenant None env w1 eq_refl) as H2.
    destruct (Henvs env ltac:(constructor)) as [Htoday [raw Hreply]].
    destruct (ask_keeps_tables settings body tenant None env w) as (Hpr & Hsu & Hpl & _).
    set (next := (ask settings body tenant None env w).2) in *.
    assert (ProjectRepo.get_by_id (project_id body) (projects (db next)) = Ok (Some project))
      as Hproject' by (by rewrite Hpr).
    assert (SubscriptionRepo.get_with_plan tenant (db next) = Some (subscription, Some plan))
      as Hsub'.
    { unfold SubscriptionRepo.get_with_plan in *. by rewrite Hsu, Hpl. }
    assert (forall env', env' ∈ envs ->
              current_period_start subscription <= today env' < current_period_end subscription
              /\ is_Some (responses_reply env')) as Henvs'.
    { intros env' Hin. apply Henvs. by constructor. }
    unfold served. cbn [serve].
    destruct (ask settings body tenant None env w) as [r0 w0] eqn:Hask.
    simpl in next. subst next.
    destruct (serve (ask settings body tenant None) envs w0) as [rs wn] eqn:Hrest.
    simpl fst. simpl snd.
    destruct (Z.lt_ge_cases used (monthly_message_cap plan)) as [Hopen|Hclosed].
    + destruct (ask_gate_open settings body tenant None env w _ _ project subscription plan
                  H1 H2 Hproject Htenant Hvs Hsub Hopen) as (_ & Hredis & Hrun).
      rewrite Hask, Hreply in Hrun. rewrite Hask in Hredis.
      simpl in Hrun, Hredis. destruct Hrun as [Hr0 Husage].
      assert (UsageRepo.messages_in_period tenant (current_period_start subscription)
                (current_period_end subscription) (usage_daily (db w0)) = used + 1) as Hused.
      { rewrite Husage, increment_message_in_period.
        rewrite !bool_decide_true by (done || lia). simpl. unfold used. lia. }
      destruct (IH w0 (j + 1)) as [Hvs' Hfinal]; try done; try lia.
      { by rewrite Hredis. }
      rewrite Hrest in Hvs', Hfinal. simpl in Hvs', Hfinal. rewrite Hused in Hvs', Hfinal.
      split.
      * intros [|i] r Hi; simpl in Hi.
        -- injection Hi as <-. rewrite bool_decide_true by lia. by eexists.
        -- specialize (Hvs' i r Hi).
           replace (used + Z.of_nat (S i)) with (used + 1 + Z.of_nat i) by lia. done.
      * rewrite Hfinal. simpl length. lia.
    + pose proof (ask_gate_closed settings body tenant None env w _ _ project subscription plan
                    H1 H2 Hproject Htenant Hvs Hsub Hclosed) as Hrun.
      rewrite Hask in Hrun. injection Hrun as -> ->.
      destruct (IH w1 (j + 1)) as [Hvs' Hfinal]; try done; try lia.
      rewrite Hrest in Hvs', Hfinal. simpl in Hvs', Hfinal. rewrite Hdb1 in Hvs', Hfinal.
      fold used in Hvs', Hfinal.
      split.
      * intros [|i] r Hi; simpl in Hi.
        -- injection Hi as <-. by rewrite bool_decide_false by lia.
        -- specialize (Hvs' i r Hi).
           rewrite bool_decide_false in Hvs' by lia. by rewrite bool_decide_false by lia.
      * rewrite Hfinal. simpl length. lia.
Qed.

(** X9. A tenant with [used] messages in the period and cap C who sends
    questions one after the other -- no idempotency key, a fresh limiter
    with room for all of them, the provider answering, each on a day of
    the period -- gets an answer to the [i]-th (from 0) exactly when
    [used + i < C] and 402 "Monthly message cap reached" from then on, and
    ends with [min (used + n, C)] messages counted (or [used] when it was
    over the cap already): C - used questions pass, not one more. *)
Theorem message_quota_exhaustion (settings : Settings) (body : AskBody) (tenant : UUID)
    (project : Project) (subscription : Subscription) (plan : Plan)
    (envs : list Env) (w : World) :
  redis w = ∅ ->
  Z.of_nat (length envs) <= RATE_LIMIT_RPM settings ->
  ProjectRepo.get_by_id (project_id body) (projects (db w)) = Ok (Some project) ->
  tenant_id project = tenant ->
  truthy (vector_store_id project) = true ->
  SubscriptionRepo.get_with_plan tenant (db w) = Some (subscription, Some plan) ->
  (forall env, env ∈ envs ->
     current_period_start subscription <= today env < current_period_end subscription
     /\ is_Some (responses_reply env)) ->
  let used := UsageRepo.messages_in_period tenant (current_period_start subscription)
                (current_period_end subscription) (usage_daily (db w)) in
  let served := serve (ask settings body tenant None) envs w in
  (forall (i : nat) r, served.1 !! i = Some r ->
     if bool_decide (used + Z.of_nat i < monthly_message_cap plan)
     then exists a, r = Ok a
     else r = Raise message_cap_reached)
  /\ UsageRepo.messages_in_period tenant (current_period_start subscription)
       (current_period_end subscription) (usage_daily (db served.2))
     = Z.max used (Z.min (used + Z.of_nat (length envs)) (monthly_message_cap plan)).
Proof.
  intros Hredis Hbudget Hproject Htenant Hvs Hsub Henvs.
  apply (serve_ask_against_quota settings body tenant project subscription plan envs w 0);
    try done; try lia.
  intros k e. by rewrite Hredis, lookup_empty.
Qed.

Lemma message_quota_exhaustion_witness :
  let reply := Some {| output_text := "ok"; usage := None; file_citations := [] |} in
  let served := serve (ask demo_settings demo_body "t" None)
                  [demo_env reply; demo_env reply; demo_env reply]
                  (demo_world [demo_usage 12 1 0]) in
  served.1 !! 1%nat = Some (Raise message_cap_reached)
  /\ UsageRepo.messages_in_period "t" 10 40 (usage_daily (db served.2)) = 2.
Proof.
  intros reply served.
  destruct (message_quota_exhaustion demo_settings demo_body "t" demo_project
              demo_subscription demo_plan [demo_env reply; demo_env reply; demo_env reply]
              (demo_world [demo_usage 12 1 0])) as [Hverdicts Hfinal]; try reflexivity.
  - simpl. lia.
  - intros env Hin. repeat (apply elem_of_cons in Hin as [->|Hin]; [split; [simpl; lia|by eexists]|]).
    by apply elem_of_nil in Hin.
  - split; [reflexivity|exact Hfinal].
Defined.

(** ** Every path of [upload_and_attach] *)

(** Either the upload raises with the tables and the provider untouched,
    or it passed every check and the gate and handed the batch to the
    provider; the ledger is written only after both provider calls have
    returned. *)
Lemma upload_cases settings uuid_of_string tenant_arg project_arg files auth env w :
  let out := upload_and_attach settings uuid_of_string tenant_arg project_arg files auth
               env w in
  (exists e, out.1 = Raise e /\ db out.2 = db w /\ provider_calls out.2 = provider_calls w)
  \/ exists tenant_uuid project_uuid project subscription plan,
       files <> []
       /\ uuid_of_string tenant_arg = Some tenant_uuid
       /\ uuid_of_string project_arg = Some project_uuid
       /\ auth = tenant_uuid
       /\ (check_rate_limit settings tenant_uuid env w).1 = Ok tt
       /\ ProjectRepo.get_by_id project_uuid (projects (db w)) = Ok (Some project)
       /\ tenant_id project = tenant_uuid
       /\ truthy (vector_store_id project) = true
       /\ SubscriptionRepo.get_with_plan tenant_uuid (db w) = Some (subscription, Some plan)
       /\ UsageRepo.chars_uploaded_for_project_in_period tenant_uuid project_uuid
            (current_period_start subscription) (current_period_end subscription)
            (usage_daily (db w)) + (read_uploads files).2
          <= monthly_upload_char_cap plan
       /\ match files_reply env, batch_reply env with
          | None, _ =>
              out.1 = Raise (Upstream "provider call failed")
              /\ db out.2 = db w
              /\ provider_calls out.2
                 = provider_calls w ++ [FilesCreate (read_uploads files).1]
          | Some ids, None =>
              out.1 = Raise (Upstream "provider call failed")
              /\ db out.2 = db w
              /\ provider_calls out.2
                 = provider_calls w
                   ++ [FilesCreate (read_uploads files).1;
                       FileBatchCreate (default "" (vector_store_id project)) ids]
          | Some ids, Some batch =>
              out.1 = Ok {| up_project_id := id project;
                            up_vector_store_id := vector_store_id project;
                            up_batch_status := batch_status batch;
                            up_file_counts := file_counts batch |}
              /\ db out.2
                 = (if bool_decide ((read_uploads files).2 = 0) then db w
                    else with_usage_daily
                           (UsageRepo.record_upload_chars (today env) tenant_uuid project_uuid
                              (read_uploads files).2 (usage_daily (db w))) (db w))
              /\ provider_calls out.2
                 = provider_calls w
                   ++ [FilesCreate (read_uploads files).1;
                       FileBatchCreate (default "" (vector_store_id project)) ids]
          end.
Proof.
  intros out. remember out as o eqn:Hout. unfold out in Hout. clear out.
  unfold upload_and_attach, get_project_by_id, _parse_uuid in Hout.
  destruct (bool_decide (files = [])) eqn:Hfiles; run_handler in Hout;
    [left; eexists; by subst o|].
  apply bool_decide_eq_false in Hfiles.
  destruct (uuid_of_string tenant_arg) as [tenant_uuid|] eqn:Ht; run_handler in Hout;
    [|left; eexists; by subst o].
  destruct (uuid_of_string project_arg) as [project_uuid|] eqn:Hp; run_handler in Hout;
    [|left; eexists; by subst o].
  destruct (bool_decide (auth = tenant_uuid)) eqn:Hauth; run_handler in Hout;
    [|left; eexists; by subst o].
  apply bool_decide_eq_true in Hauth.
  destruct (check_rate_limit_frame settings tenant_uuid env w) as (Hdb & Hcalls & _).
  destruct (check_rate_limit settings tenant_uuid env w) as [[[]|e1] w1] eqn:H1;
    simpl in Hdb, Hcalls; run_handler in Hout;
    [|left; eexists; subst o; simpl; by rewrite Hdb, Hcalls].
  rewrite Hdb in Hout.
  destruct (ProjectRepo.get_by_id _ _) as [[project|]|e] eqn:Hproject;
    run_handler in Hout;
    [|left; eexists; subst o; simpl; by rewrite Hdb, Hcalls
     |left; eexists; subst o; simpl; by rewrite Hdb, Hcalls].
  destruct (bool_decide (tenant_id project = tenant_uuid)) eqn:Htenant; run_handler in Hout;
    [|left; eexists; subst o; simpl; by rewrite Hdb, Hcalls].
  apply bool_decide_eq_true in Htenant.
  destruct (truthy (vector_store_id project)) eqn:Hvs; run_handler in Hout;
    [|left; eexists; subst o; simpl; by rewrite Hdb, Hcalls].
  destruct (read_uploads files) as [payload total] eqn:Hread. run_handler in Hout.
  rewrite Hdb in Hout.
  destruct (SubscriptionRepo.get_with_plan tenant_uuid (db w)) as [[subscription [plan|]]|]
    eqn:Hsub; run_handler in Hout;
    [|left; eexists; subst o; simpl; by rewrite Hdb, Hcalls
     |left; eexists; subst o; simpl; by rewrite Hdb, Hcalls].
  rewrite Hdb in Hout.
  destruct (bool_decide (_ > _)) eqn:Hcap; run_handler in Hout;
    [left; eexists; subst o; simpl; by rewrite Hdb, Hcalls|].
  apply bool_decide_eq_false in Hcap.
  right. exists tenant_uuid, project_uuid, project, subscription, plan.
  rewrite H1. do 9 (split; [done|]). simpl. split; [lia|].
  destruct (files_reply env) as [ids|]; run_handler in Hout;
    [|subst o; simpl; by rewrite Hdb, Hcalls].
  destruct (batch_reply env) as [batch|]; run_handler in Hout;
    [|subst o; simpl; rewrite Hdb, Hcalls; by rewrite <- app_assoc].
  destruct (bool_decide (total = 0)); run_handler in Hout;
    subst o; simpl; rewrite ?Hdb, Hcalls; by rewrite <- app_assoc.
Qed.

(** X10. [upload_and_attach] writes nothing but the ledger, and the
    ledger only when it returns: the projects, subscriptions, plans,
    tenants and messages are never changed, and whenever it raises -- any
    denial, a database error, or either provider call failing, even after
    files were handed over -- the ledger is as it was. *)
Theorem upload_writes_only_the_ledger (settings : Settings)
    (uuid_of_string : string -> option UUID) (tenant_arg project_arg : string)
    (files : list UploadFile) (auth : UUID) (env : Env) (w : World) :
  let out := upload_and_attach settings uuid_of_string tenant_arg project_arg files auth
               env w in
  projects (db out.2) = projects (db w)
  /\ subscriptions (db out.2) = subscriptions (db w)
  /\ plans (db out.2) = plans (db w)
  /\ tenants (db out.2) = tenants (db w)
  /\ messages (db out.2) = messages (db w)
  /\ forall e, out.1 = Raise e -> usage_daily (db out.2) = usage_daily (db w).
Proof.
  intros out.
  destruct (upload_cases settings uuid_of_string tenant_arg project_arg files auth env w)
    as [(e' & _ & Hdb & _)
       |(tu & pu & project & subscription & plan & _ & _ & _ & _ & _ & _ & _ & _ & _ & _
         & Hrun)]; fold out in Hdb || fold out in Hrun.
  - by rewrite Hdb.
  - destruct (files_reply env) as [ids|]; [destruct (batch_reply env) as [batch|]|];
      destruct Hrun as (Hres & Hdb & _); rewrite Hdb;
      try case_bool_decide; repeat split; try done; intros e He; congruence.
Qed.

(** X11. [upload_and_attach] hands files to the provider only through
    every check: if the log of provider calls has changed, the request was
    well formed and authorised, passed the limiter, found its project with
    a vector store and its subscription with a plan, and the characters
    already recorded for the project plus the batch fit the cap; the first
    call added is the upload of the whole batch. *)
Theorem upload_calls_provider_only_under_cap (settings : Settings)
    (uuid_of_string : string -> option UUID) (tenant_arg project_arg : string)
    (files : list UploadFile) (auth : UUID) (env : Env) (w : World) :
  let out := upload_and_attach settings uuid_of_string tenant_arg project_arg files auth
               env w in
  provider_calls out.2 <> provider_calls w ->
  exists project subscription plan rest,
    files <> []
    /\ uuid_of_string tenant_arg = Some auth
    /\ (check_rate_limit settings auth env w).1 = Ok tt
    /\ (exists project_uuid,
           uuid_of_string project_arg = Some project_uuid
           /\ ProjectRepo.get_by_id project_uuid (projects (db w)) = Ok (Some project)
           /\ UsageRepo.chars_uploaded_for_project_in_period auth project_uuid
                (current_period_start subscription) (current_period_end subscription)
                (usage_daily (db w)) + (read_uploads files).2
              <= monthly_upload_char_cap plan)
    /\ tenant_id project = auth
    /\ truthy (vector_store_id project) = true
    /\ SubscriptionRepo.get_with_plan auth (db w) = Some (subscription, Some plan)
    /\ provider_calls out.2
       = provider_calls w ++ FilesCreate (read_uploads files).1 :: rest.
Proof.
  intros out Hcalled.
  destruct (upload_cases settings uuid_of_string tenant_arg project_arg files auth env w)
    as [(e' & _ & _ & Hcalls)
       |(tu & pu & project & subscription & plan & Hf & Ht & Hp & -> & Hrate & Hproject
         & Htenant & Hvs & Hsub & Hcap & Hrun)]; [done|].
  fold out in Hrun.
  assert (exists rest, provider_calls out.2
                       = provider_calls w ++ FilesCreate (read_uploads files).1 :: rest)
    as [rest Hrest].
  { destruct (files_reply env) as [ids|]; [destruct (batch_reply env) as [batch|]|];
      destruct Hrun as (_ & _ & ->); by eexists. }
  exists project, subscription, plan, rest.
  repeat split; try done. by exists pu.
Qed.

Lemma upload_calls_provider_only_under_cap_witness :
  exists rest,
    provider_calls (upload_and_attach demo_settings canonical_uuid "t" "p"
                      [text_upload [x68; x69]] "t" (demo_env None) (demo_world [])).2
    = FilesCreate (read_uploads [text_upload [x68; x69]]).1 :: rest.
Proof.
  destruct (upload_calls_provider_only_under_cap demo_settings canonical_uuid "t" "p"
              [text_upload [x68; x69]] "t" (demo_env None) (demo_world []))
    as (project & subscription & plan & rest & _ & _ & _ & _ & _ & _ & _ & Hcalls).
  - vm_compute. discriminate.
  - exists rest. exact Hcalls.
Defined.

(** ** Every path of [create_project] *)

Lemma get_by_tenant_and_name_none tenant nm rows :
  ProjectRepo.get_by_tenant_and_name tenant nm rows = Ok None ->
  forall p, p ∈ rows -> project_key p <> (tenant, nm).
Proof.
  unfold ProjectRepo.get_by_tenant_and_name, scalar_one_or_none.
  intros Hnone p Hp Hkey.
  assert (p ∈ filter (fun p => tenant_id p = tenant /\ name p = nm) rows) as Hin.
  { apply list_elem_of_filter. split; [|done]. unfold project_key in Hkey. by simplify_eq. }
  destruct (filter _ rows) as [|q [|q' l]]; [|done|done].
  by apply elem_of_nil in Hin.
Qed.

(** Either [create_project] leaves the database as it was, or it went
    through every check, found no project of that name and room under the
    plan's limit, and appended the new row. *)
Lemma create_project_cases settings uuid_of_string tenant_arg name_arg auth env w :
  let out := create_project settings uuid_of_string tenant_arg name_arg auth env w in
  db out.2 = db w
  \/ exists subscription plan,
       uuid_of_string tenant_arg = Some auth
       /\ (check_rate_limit settings auth env w).1 = Ok tt
       /\ SubscriptionRepo.get_with_plan auth (db w) = Some (subscription, Some plan)
       /\ ProjectRepo.get_by_tenant_and_name auth name_arg (projects (db w)) = Ok None
       /\ ProjectRepo.count_for_tenant auth (projects (db w)) < max_projects plan
       /\ let created := {| id := uuid4 env; tenant_id := auth; name := name_arg;
                            vector_store_id := None |} in
          out.1 = Ok (created, "created")
          /\ db out.2 = with_projects (projects (db w) ++ [created]) (db w).
Proof.
  intros out. remember out as o eqn:Hout. unfold out in Hout. clear out.
  unfold create_project, _parse_uuid in Hout.
  destruct (uuid_of_string tenant_arg) as [tenant_uuid|] eqn:Ht; run_handler in Hout;
    [|left; by subst o].
  destruct (bool_decide (auth = tenant_uuid)) eqn:Hauth; run_handler in Hout;
    [|left; by subst o].
  apply bool_decide_eq_true in Hauth. subst tenant_uuid.
  destruct (check_rate_limit_frame settings auth env w) as (Hdb & _ & _).
  destruct (check_rate_limit settings auth env w) as [[[]|e1] w1] eqn:H1;
    simpl in Hdb; run_handler in Hout; [|left; by subst o].
  rewrite Hdb in Hout.
  destruct (SubscriptionRepo.get_with_plan auth (db w)) as [[subscription plan_row]|]
    eqn:Hsub; run_handler in Hout; [|left; by subst o].
  rewrite Hdb in Hout.
  destruct (ProjectRepo.get_by_tenant_and_name auth name_arg (projects (db w)))
    as [[existing|]|e] eqn:Hexisting; run_handler in Hout;
    [left; by subst o| |left; by subst o].
  destruct plan_row as [plan|]; run_handler in Hout; [|left; by subst o].
  rewrite Hdb in Hout.
  destruct (bool_decide (_ >= _)) eqn:Hfull; run_handler in Hout; [left; by subst o|].
  apply bool_decide_eq_false in Hfull.
  unfold ProjectRepo.create in Hout. run_handler in Hout. rewrite Hdb in Hout.
  right. exists subscription, plan.
  do 4 (split; [done|]). split; [lia|]. by subst o.
Qed.

(** X12. [create_project] keeps (tenant_id, name) unique and never takes
    a tenant beyond its plan: from a projects table with pairwise distinct
    (tenant, name) it leaves one, the rows it had stay in place, no other
    tenant's count moves, and the caller's count either stays or grows by
    one from a value that was below [max_projects]. *)
Theorem create_project_keeps_invariants (settings : Settings)
    (uuid_of_string : string -> option UUID) (tenant_arg name_arg : string) (auth : UUID)
    (env : Env) (w : World) :
  let out := create_project settings uuid_of_string tenant_arg name_arg auth env w in
  (NoDup (project_key <$> projects (db w)) ->
   NoDup (project_key <$> projects (db out.2)))
  /\ (exists added, projects (db out.2) = projects (db w) ++ added /\ (length added <= 1)%nat)
  /\ (forall t, t <> auth ->
        ProjectRepo.count_for_tenant t (projects (db out.2))
        = ProjectRepo.count_for_tenant t (projects (db w)))
  /\ (ProjectRepo.count_for_tenant auth (projects (db out.2))
      = ProjectRepo.count_for_tenant auth (projects (db w))
      \/ exists subscription plan,
           SubscriptionRepo.get_with_plan auth (db w) = Some (subscription, Some plan)
           /\ ProjectRepo.count_for_tenant auth (projects (db w)) < max_projects plan
           /\ ProjectRepo.count_for_tenant auth (projects (db out.2))
              = ProjectRepo.count_for_tenant auth (projects (db w)) + 1).
Proof.
  intros out.
  destruct (create_project_cases settings uuid_of_string tenant_arg name_arg auth env w)
    as [Hdb|(subscription & plan & _ & _ & Hsub & Hnone & Hroom & _ & Hdb)];
    fold out in Hdb; rewrite Hdb.
  - split; [done|]. split; [exists []; split; [by rewrite app_nil_r|simpl; lia]|].
    split; [done|by left].
  - simpl. split; [|split; [|split]].
    + intros Hnodup. rewrite fmap_app. apply NoDup_app. split; [done|].
      split; [|apply NoDup_singleton].
      intros k Hk. rewrite list_fmap_singleton, list_elem_of_singleton. intros ->.
      apply list_elem_of_fmap in Hk as (p & Hkey & Hp).
      by apply (get_by_tenant_and_name_none auth name_arg _ Hnone p Hp).
    + eexists. split; [reflexivity|simpl; lia].
    + intros t Ht. unfold ProjectRepo.count_for_tenant.
      rewrite filter_app, length_app. rewrite filter_cons_False; [simpl; lia|].
      simpl. congruence.
    + right. exists subscription, plan. split; [done|]. split; [done|].
      unfold ProjectRepo.count_for_tenant.
      rewrite filter_app, length_app, filter_cons_True by done. simpl. lia.
Qed.

Lemma create_project_keeps_invariants_witness :
  NoDup (project_key <$> projects (db (create_project demo_settings canonical_uuid "t"
                                         "Quota" "t" (demo_env None) (demo_world [])).2)).
Proof.
  apply (create_project_keeps_invariants demo_settings canonical_uuid "t" "Quota" "t"
           (demo_env None) (demo_world [])).
  apply NoDup_singleton.
Defined.

Lemma create_project_existing settings uuid_of_string tenant_arg name_arg auth env w
    subscription plan_row existing :
  uuid_of_string tenant_arg = Some auth ->
  (check_rate_limit settings auth env w).1 = Ok tt ->
  SubscriptionRepo.get_with_plan auth (db w) = Some (subscription, plan_row) ->
  ProjectRepo.get_by_tenant_and_name auth name_arg (projects (db w)) = Ok (Some existing) ->
  create_project settings uuid_of_string tenant_arg name_arg auth env w
  = (Ok (existing, "exists"), (check_rate_limit settings auth env w).2).
Proof.
  intros Ht Hrate Hsub Hexisting.
  destruct (check_rate_limit_frame settings auth env w) as (Hdb & _ & _).
  unfold create_project, _parse_uuid. rewrite Ht. run_handler.
  rewrite bool_decide_true by done. run_handler.
  destruct (check_rate_limit settings auth env w) as [r1 w1].
  simpl in Hrate, Hdb. subst r1. run_handler.
  rewrite Hdb, Hsub. run_handler. rewrite Hdb, Hexisting. by run_handler.
Qed.

(** X13. Creating is idempotent across requests: when [create_project]
    has returned a project, created or found, the same request sent again
    (and let through by the limiter) returns that very project with status
    "exists" and adds no row, whatever the plan's limit. *)
Theorem create_project_twice (settings : Settings) (uuid_of_string : string -> option UUID)
    (tenant_arg name_arg : string) (auth : UUID) (env env' : Env) (w : World)
    (project : Project) (status_flag : string) :
  let first := create_project settings uuid_of_string tenant_arg name_arg auth env w in
  first.1 = Ok (project, status_flag) ->
  (check_rate_limit settings auth env' first.2).1 = Ok tt ->
  let second := create_project settings uuid_of_string tenant_arg name_arg auth env'
                  first.2 in
  second.1 = Ok (project, "exists")
  /\ projects (db second.2) = projects (db first.2).
Proof.
  intros first Hfirst Hrate second.
  assert (exists subscription plan_row,
             uuid_of_string tenant_arg = Some auth
             /\ SubscriptionRepo.get_with_plan auth (db first.2)
                = Some (subscription, plan_row)
             /\ ProjectRepo.get_by_tenant_and_name auth name_arg (projects (db first.2))
                = Ok (Some project)) as (subscription & plan_row & Ht & Hsub & Hfound).
  { destruct (check_rate_limit_frame settings auth env w) as (Hdb & _ & _).
    remember first as o eqn:Hout. unfold first in Hout. clear first second.
    unfold create_project, _parse_uuid in Hout.
    destruct (uuid_of_string tenant_arg) as [tenant_uuid|] eqn:Ht; run_handler in Hout;
      [|by subst o].
    destruct (bool_decide (auth = tenant_uuid)) eqn:Hauth; run_handler in Hout;
      [|by subst o].
    apply bool_decide_eq_true in Hauth. subst tenant_uuid.
    destruct (check_rate_limit settings auth env w) as [[[]|e1] w1] eqn:H1;
      simpl in Hdb; run_handler in Hout; [|by subst o].
    rewrite Hdb in Hout.
    destruct (SubscriptionRepo.get_with_plan auth (db w)) as [[subscription plan_row]|]
      eqn:Hsub; run_handler in Hout; [|by subst o].
    rewrite Hdb in Hout.
    destruct (ProjectRepo.get_by_tenant_and_name auth name_arg (projects (db w)))
      as [[existing|]|e] eqn:Hexisting; run_handler in Hout; [| |by subst o].
    - subst o. simpl in *. injection Hfirst as -> _.
      exists subscription, plan_row. by rewrite Hdb.
    - destruct plan_row as [plan|]; run_handler in Hout; [|by subst o].
      rewrite Hdb in Hout.
      destruct (bool_decide (_ >= _)); run_handler in Hout; [by subst o|].
      unfold ProjectRepo.create in Hout. run_handler in Hout. rewrite Hdb in Hout.
      subst o. simpl in *. injection Hfirst as <- _.
      exists subscription, (Some plan). split; [done|]. split; [done|].
      unfold ProjectRepo.get_by_tenant_and_name in *.
      rewrite filter_app, filter_cons_True, filter_nil by done.
      unfold scalar_one_or_none in Hexisting.
      destruct (filter _ (projects (db w))) as [|q [|q' l]]; done. }
  unfold second.
  rewrite (create_project_existing settings uuid_of_string tenant_arg name_arg auth env'
             first.2 subscription plan_row project Ht Hrate Hsub Hfound).
  split; [done|]. simpl.
  by destruct (check_rate_limit_frame settings auth env' first.2) as (-> & _ & _).
Qed.

Lemma create_project_twice_witness :
  let w := with_projects [] (db (demo_world [])) in
  let first := create_project demo_settings canonical_uuid "t" "DocBot" "t" (demo_env None)
                 {| redis := ∅; db := w; provider_calls := [] |} in
  (create_project demo_settings canonical_uuid "t" "DocBot" "t" (env_at 2000) first.2).1
  = Ok ({| id := "p2"; tenant_id := "t"; name := "DocBot"; vector_store_id := None |},
        "exists").
Proof.
  intros w first.
  apply (create_project_twice demo_settings canonical_uuid "t" "DocBot" "t" (demo_env None)
           (env_at 2000) {| redis := ∅; db := w; provider_calls := [] |}
           {| id := "p2"; tenant_id := "t"; name := "DocBot"; vector_store_id := None |}
           "created"); reflexivity.
Defined.

(** ** Vector stores, and whose project it is *)

Lemma get_by_id_found project_uuid rows project :
  ProjectRepo.get_by_id project_uuid rows = Ok (Some project) ->
  filter (fun p => id p = project_uuid) rows = [project] /\ id project = project_uuid.
Proof.
  unfold ProjectRepo.get_by_id, scalar_one_or_none. intros Hfound.
  destruct (filter _ rows) as [|q [|q' l]] eqn:Hfilter; [done| |done].
  injection Hfound as ->. split; [done|].
  assert (project ∈ filter (fun p => id p = project_uuid) rows) as Hin
    by (rewrite Hfilter; constructor).
  by apply list_elem_of_filter in Hin as [? _].
Qed.

Lemma get_by_id_after_update project_uuid rows project updated :
  ProjectRepo.get_by_id project_uuid rows = Ok (Some project) ->
  id updated = id project ->
  ProjectRepo.get_by_id project_uuid
    ((fun p => if bool_decide (id p = id project) then updated else p) <$> rows)
  = Ok (Some updated).
Proof.
  intros Hfound Hid. apply get_by_id_found in Hfound as [Hfilter Hpid].
  unfold ProjectRepo.get_by_id.
  assert (forall l : list Project,
            filter (fun p => id p = project_uuid)
              ((fun p => if bool_decide (id p = id project) then updated else p) <$> l)
            = (fun p => if bool_decide (id p = id project) then updated else p)
                <$> filter (fun p => id p = project_uuid) l) as Hmap.
  { induction l as [|q l IH]; [done|]. rewrite fmap_cons, !filter_cons, IH.
    case_bool_decide as Hq.
    - rewrite Hid, Hpid, <- Hpid, <- Hq. destruct (decide _); [|done].
      by rewrite fmap_cons, bool_decide_true.
    - destruct (decide _) as [Hq'|]; [|done]. by rewrite fmap_cons, bool_decide_false. }
  rewrite Hmap, Hfilter. simpl. by rewrite bool_decide_true.
Qed.

(** X14. [ensure_vector_store] creates at most once. A project that has
    a vector store gets it back with status "exists" without the provider
    being consulted and with the database untouched. A project without
    one gets the identifier the provider returns (when it is not empty and
    no other project holds it) with status "created", and the same request
    sent again returns that identifier with status "exists", whatever the
    provider would answer, and changes no row. *)
Theorem ensure_vector_store_once (settings : Settings)
    (uuid_of_string : string -> option UUID) (tenant_arg project_arg : string)
    (auth project_uuid : UUID) (project : Project) (env env' : Env) (w : World)
    (vs : string) (created' : option string) :
  uuid_of_string tenant_arg = Some auth ->
  uuid_of_string project_arg = Some project_uuid ->
  (check_rate_limit settings auth env w).1 = Ok tt ->
  ProjectRepo.get_by_id project_uuid (projects (db w)) = Ok (Some project) ->
  tenant_id project = auth ->
  let first := ensure_vector_store settings uuid_of_string tenant_arg project_arg auth in
  (truthy (vector_store_id project) = true ->
     (first created' env w).1
     = Ok (id project, default "" (vector_store_id project), "exists")
     /\ db (first created' env w).2 = db w)
  /\ (truthy (vector_store_id project) = false ->
      vs <> "" ->
      ~ Exists (fun p => id p <> id project /\ vector_store_id p = Some vs) (projects (db w)) ->
      let w1 := (first (Some vs) env w).2 in
      (first (Some vs) env w).1 = Ok (id project, vs, "created")
      /\ ProjectRepo.get_by_id project_uuid (projects (db w1))
         = Ok (Some {| id := id project; tenant_id := tenant_id project;
                       name := name project; vector_store_id := Some vs |})
      /\ ((check_rate_limit settings auth env' w1).1 = Ok tt ->
          (first created' env' w1).1 = Ok (id project, vs, "exists")
          /\ db (first created' env' w1).2 = db w1)).
Proof.
  intros Ht Hp Hrate Hfound Htenant first.
  assert (forall created env0 w0 p0,
             (check_rate_limit settings auth env0 w0).1 = Ok tt ->
             ProjectRepo.get_by_id project_uuid (projects (db w0)) = Ok (Some p0) ->
             tenant_id p0 = auth ->
             truthy (vector_store_id p0) = true ->
             (first created env0 w0).1 = Ok (id p0, default "" (vector_store_id p0), "exists")
             /\ db (first created env0 w0).2 = db w0) as Hexists.
  { intros created env0 w0 p0 Hrate0 Hfound0 Htenant0 Hvs0.
    destruct (check_rate_limit_frame settings auth env0 w0) as (Hdb & _ & _).
    unfold first, ensure_vector_store, _parse_uuid, get_project_by_id.
    rewrite Ht, Hp. run_handler. rewrite bool_decide_true by done. run_handler.
    destruct (check_rate_limit settings auth env0 w0) as [r1 w1].
    simpl in Hrate0, Hdb. subst r1. run_handler.
    rewrite Hdb, Hfound0. run_handler. rewrite (bool_decide_true _ Htenant0). run_handler.
    rewrite Hvs0. run_handler. done. }
  split; [intros Hvs; by apply Hexists|].
  intros Hvs Hvs_ne Hfree w1.
  assert (first (Some vs) env w
          = (Ok (id project, vs, "created"),
             {| redis := redis (check_rate_limit settings auth env w).2;
                db := with_projects
                        ((fun p => if bool_decide (id p = id project)
                                   then {| id := id project; tenant_id := tenant_id project;
                                           name := name project;
                                           vector_store_id := Some vs |}
                                   else p) <$> projects (db w)) (db w);
                provider_calls := provider_calls w |})) as Hfirst.
  { destruct (check_rate_limit_frame settings auth env w) as (Hdb & Hcalls & _).
    unfold first, ensure_vector_store, _parse_uuid, get_project_by_id.
    rewrite Ht, Hp. run_handler. rewrite bool_decide_true by done. run_handler.
    destruct (check_rate_limit settings auth env w) as [r1 w0].
    simpl in Hrate, Hdb, Hcalls. subst r1. run_handler.
    rewrite Hdb, Hfound. run_handler. rewrite (bool_decide_true _ Htenant). run_handler.
    rewrite Hvs. unfold oracle. run_handler. rewrite Hdb.
    unfold set_vector_store_id. rewrite bool_decide_false by done.
    run_handler. simpl. by rewrite ?Hdb, ?Hcalls. }
  assert (ProjectRepo.get_by_id project_uuid (projects (db w1))
          = Ok (Some {| id := id project; tenant_id := tenant_id project;
                        name := name project; vector_store_id := Some vs |})) as Hfound1.
  { unfold w1. rewrite Hfirst. simpl. by apply get_by_id_after_update. }
  split; [by rewrite Hfirst|]. split; [done|].
  intros Hrate'.
  destruct (Hexists created' env' w1
              {| id := id project; tenant_id := tenant_id project;
                 name := name project; vector_store_id := Some vs |})
    as [Hres Hdb']; try done.
  simpl. by rewrite bool_decide_false.
Qed.

Lemma ensure_vector_store_once_witness :
  (ensure_vector_store demo_settings canonical_uuid "t" "p" "t" None (demo_env None)
     (demo_world [])).1
  = Ok ("p", "vs_quota", "exists").
Proof.
  destruct (ensure_vector_store_once demo_settings canonical_uuid "t" "p" "t" "p"
              demo_project (demo_env None) (demo_env None) (demo_world []) "vs_new" None
              eq_refl eq_refl eq_refl eq_refl eq_refl)
    as [Hexists _].
  destruct (Hexists eq_refl) as [Hres _]. exact Hres.
Defined.

(** X15. A caller who names another tenant is turned away before
    anything happens: in [create_project], [ensure_vector_store],
    [upload_and_attach], [list_files] and [remove_file], a tenant
    identifier that parses to one other than the caller's has the request
    refused with the whole state -- limiter counter, tables, provider --
    exactly as it was. The answer is 403 "Tenant mismatch", unless a
    validation that comes first in the handler refuses the request: 400
    "No files provided" for an upload without files, 400 "Invalid
    project_id" when the project identifier does not parse. *)
Theorem tenant_mismatch_touches_nothing (settings : Settings)
    (uuid_of_string : string -> option UUID)
    (tenant_arg project_arg name_arg file_arg : string) (auth tenant_uuid : UUID)
    (files : list UploadFile) (delete_raw : bool) (created : option string)
    (listing : option (list string)) (removed : option unit) (env : Env) (w : World) :
  uuid_of_string tenant_arg = Some tenant_uuid ->
  auth <> tenant_uuid ->
  let refusal :=
    match uuid_of_string project_arg with
    | Some _ => tenant_mismatch
    | None => http 400 "Invalid project_id"
    end in
  create_project settings uuid_of_string tenant_arg name_arg auth env w
  = (Raise tenant_mismatch, w)
  /\ ensure_vector_store settings uuid_of_string tenant_arg project_arg auth created env w
     = (Raise refusal, w)
  /\ upload_and_attach settings uuid_of_string tenant_arg project_arg files auth env w
     = (Raise (if bool_decide (files = []) then http 400 "No files provided" else refusal), w)
  /\ list_files settings uuid_of_string tenant_arg project_arg auth listing env w
     = (Raise refusal, w)
  /\ remove_file settings uuid_of_string tenant_arg project_arg file_arg delete_raw auth
       removed env w
     = (Raise refusal, w).
Proof.
  intros Ht Hauth refusal. unfold refusal. split; [|split; [|split; [|split]]].
  - unfold create_project, _parse_uuid. rewrite Ht. run_handler.
    by rewrite bool_decide_false.
  - unfold ensure_vector_store, _parse_uuid. rewrite Ht.
    destruct (uuid_of_string project_arg); run_handler; [|done].
    by rewrite bool_decide_false.
  - unfold upload_and_attach, _parse_uuid. case_bool_decide; [done|]. rewrite Ht.
    destruct (uuid_of_string project_arg); run_handler; [|done].
    by rewrite bool_decide_false.
  - unfold list_files, _parse_uuid. rewrite Ht.
    destruct (uuid_of_string project_arg); run_handler; [|done].
    by rewrite bool_decide_false.
  - unfold remove_file, _parse_uuid. rewrite Ht.
    destruct (uuid_of_string project_arg); run_handler; [|done].
    by rewrite bool_decide_false.
Qed.

Lemma tenant_mismatch_touches_nothing_witness :
  create_project demo_settings canonical_uuid "other" "Cross" "t" (demo_env None)
    (demo_world [])
  = (Raise tenant_mismatch, demo_world [])
  /\ upload_and_attach demo_settings canonical_uuid "other" "p" [] "t" (demo_env None)
       (demo_world [])
     = (Raise (http 400 "No files provided"), demo_world []).
Proof.
  destruct (tenant_mismatch_touches_nothing demo_settings canonical_uuid "other" "p" "Cross"
              "file" "t" "other" [] false None None None (demo_env None) (demo_world [])
              eq_refl) as (Hcreate & _ & Hupload & _).
  - discriminate.
  - split; [exact Hcreate | exact Hupload].
Defined.

Lemma ask_without_project settings body tenant key env w :
  (ProjectRepo.get_by_id (project_id body) (projects (db w)) = Ok None
   \/ exists p, ProjectRepo.get_by_id (project_id body) (projects (db w)) = Ok (Some p)
                /\ tenant_id p <> tenant) ->
  ask settings body tenant key env w
  = match check_rate_limit settings tenant env w with
    | (Raise e, w1) => (Raise e, w1)
    | (Ok _, w1) =>
        match ensure_idempotent tenant key env w1 with
        | (Raise e, w2) => (Raise e, w2)
        | (Ok _, w2) => (Raise project_not_found, w2)
        end
    end.
Proof.
  intros Hmissing.
  destruct (check_rate_limit_frame settings tenant env w) as (Hdb1 & _ & _).
  remember (ask settings body tenant key env w) as o eqn:Hout.
  unfold ask, get_project_by_id in Hout. unfold bind at 1 in Hout.
  destruct (check_rate_limit settings tenant env w) as [[[]|e1] w1]; [|done].
  simpl in Hdb1.
  destruct (ensure_idempotent_frame tenant key env w1) as (Hdb2 & _).
  unfold bind at 1 in Hout.
  destruct (ensure_idempotent tenant key env w1) as [[[]|e2] w2]; [|done].
  simpl in Hdb2. run_handler in Hout. rewrite Hdb2, Hdb1 in Hout.
  destruct Hmissing as [Hnone|(p & Hfound & Hforeign)].
  - rewrite Hnone in Hout. by run_handler in Hout.
  - rewrite Hfound in Hout. run_handler in Hout.
    by rewrite (bool_decide_false _ Hforeign) in Hout.
Qed.

Lemma upload_without_project settings uuid_of_string tenant_arg project_arg files tenant
    project_uuid env w :
  uuid_of_string project_arg = Some project_uuid ->
  (ProjectRepo.get_by_id project_uuid (projects (db w)) = Ok None
   \/ exists p, ProjectRepo.get_by_id project_uuid (projects (db w)) = Ok (Some p)
                /\ tenant_id p <> tenant) ->
  upload_and_attach settings uuid_of_string tenant_arg project_arg files tenant env w
  = if bool_decide (files = []) then (Raise (http 400 "No files provided"), w)
    else match uuid_of_string tenant_arg with
         | None => (Raise (http 400 "Invalid tenant_id"), w)
         | Some tenant_uuid =>
             if bool_decide (tenant = tenant_uuid)
             then match check_rate_limit settings tenant env w with
                  | (Raise e, w1) => (Raise e, w1)
                  | (Ok _, w1) => (Raise project_not_found, w1)
                  end
             else (Raise tenant_mismatch, w)
         end.
Proof.
  intros Hp Hmissing.
  remember (upload_and_attach settings uuid_of_string tenant_arg project_arg files tenant
              env w) as o eqn:Hout.
  unfold upload_and_attach, _parse_uuid, get_project_by_id in Hout.
  destruct (bool_decide (files = [])); [done|].
  destruct (uuid_of_string tenant_arg) as [tenant_uuid|]; [|done].
  rewrite Hp in Hout. run_handler in Hout.
  destruct (bool_decide (tenant = tenant_uuid)) eqn:Hauth; [|done].
  apply bool_decide_eq_true in Hauth. subst tenant_uuid. run_handler in Hout.
  destruct (check_rate_limit_frame settings tenant env w) as (Hdb1 & _ & _).
  destruct (check_rate_limit settings tenant env w) as [[[]|e1] w1]; [|done].
  simpl in Hdb1. rewrite Hdb1 in Hout.
  destruct Hmissing as [Hnone|(p & Hfound & Hforeign)].
  - rewrite Hnone in Hout. by run_handler in Hout.
  - rewrite Hfound in Hout. run_handler in Hout.
    by rewrite (bool_decide_false _ Hforeign) in Hout.
Qed.

(** X16. Another tenant's project is answered as one that does not
    exist: [ask] and [upload_and_attach] on a project whose owner is not
    the caller return exactly what they return, and leave exactly the
    state they leave, for an identifier that matches no project. *)
Theorem foreign_project_looks_absent (settings : Settings)
    (uuid_of_string : string -> option UUID) (body body' : AskBody)
    (tenant_arg project_arg project_arg' : string) (project_uuid project_uuid' : UUID)
    (files : list UploadFile) (tenant : UUID) (key : option string)
    (foreign foreign' : Project) (env : Env) (w : World) :
  tenant_id foreign <> tenant ->
  tenant_id foreign' <> tenant ->
  (ProjectRepo.get_by_id (project_id body) (projects (db w)) = Ok (Some foreign) ->
   ProjectRepo.get_by_id (project_id body') (projects (db w)) = Ok None ->
   ask settings body tenant key env w = ask settings body' tenant key env w)
  /\ (uuid_of_string project_arg = Some project_uuid ->
      uuid_of_string project_arg' = Some project_uuid' ->
      ProjectRepo.get_by_id project_uuid (projects (db w)) = Ok (Some foreign') ->
      ProjectRepo.get_by_id project_uuid' (projects (db w)) = Ok None ->
      upload_and_attach settings uuid_of_string tenant_arg project_arg files tenant env w
      = upload_and_attach settings uuid_of_string tenant_arg project_arg' files tenant env w).
Proof.
  intros Hforeign Hforeign'. split.
  - intros Hfound Hnone.
    rewrite (ask_without_project settings body) by (right; by exists foreign).
    by rewrite (ask_without_project settings body') by (by left).
  - intros Hp Hp' Hfound Hnone.
    rewrite (upload_without_project settings uuid_of_string tenant_arg project_arg files
               tenant project_uuid env w Hp) by (right; by exists foreign').
    by rewrite (upload_without_project settings uuid_of_string tenant_arg project_arg' files
                  tenant project_uuid' env w Hp') by (by left).
Qed.

Lemma foreign_project_looks_absent_witness :
  ask demo_settings demo_body "other" None (demo_env None) (demo_world [])
  = ask demo_settings {| project_id := "nowhere"; question := "hello" |} "other" None
      (demo_env None) (demo_world []).
Proof.
  assert (tenant_id demo_project <> "other") as Hforeign by discriminate.
  destruct (foreign_project_looks_absent demo_settings canonical_uuid demo_body
              {| project_id := "nowhere"; question := "hello" |} "other" "p" "nowhere"
              "p" "nowhere" [] "other" None demo_project demo_project (demo_env None)
              (demo_world []) Hforeign Hforeign) as [Hask _].
  apply Hask; reflexivity.
Defined.

(** ** The limits report, signing up and subscribing *)

Lemma current_limits_run settings tenant env w :
  current_limits settings tenant env w
  = match check_rate_limit settings tenant env w with
    | (Raise e, w1) => (Raise e, w1)
    | (Ok _, w1) =>
        match SubscriptionRepo.get_with_plan tenant (db w) with
        | None => (Ok NotSubscribed, w1)
        | Some (_, None) => (Raise plan_data_missing, w1)
        | Some (subscription, Some plan) =>
            (Ok (Subscribed
                   {| report_plan_id := plan_id subscription;
                      report_plan_name := plan_name plan;
                      report_billing_cycle := billing_cycle subscription;
                      report_period_start := current_period_start subscription;
                      report_period_end := current_period_end subscription;
                      limit_max_projects := max_projects plan;
                      limit_monthly_message_cap := monthly_message_cap plan;
                      limit_monthly_upload_char_cap := monthly_upload_char_cap plan;
                      usage_projects :=
                        ProjectRepo.count_for_tenant tenant (projects (db w));
                      usage_messages_used :=
                        UsageRepo.messages_in_period tenant
                          (current_period_start subscription)
                          (current_period_end subscription) (usage_daily (db w));
                      usage_chars_uploaded :=
                        UsageRepo.chars_uploaded_in_period tenant
                          (current_period_start subscription)
                          (current_period_end subscription) (usage_daily (db w)) |}),
             w1)
        end
    end.
Proof.
  destruct (check_rate_limit_frame settings tenant env w) as (Hdb & _ & _).
  unfold current_limits. unfold bind at 1.
  destruct (check_rate_limit settings tenant env w) as [[[]|e1] w1]; [|done].
  simpl in Hdb. run_handler. rewrite Hdb.
  destruct (SubscriptionRepo.get_with_plan tenant (db w)) as [[subscription [plan|]]|];
    run_handler; by rewrite ?Hdb.
Qed.

(** X17. The limits report shows the two numbers the message gate
    compares and costs nothing but a limiter slot: after
    [current_limits] has reported (messages_used, monthly_message_cap), a
    question that reaches the gate in the state it left is refused with
    402 "Monthly message cap reached" exactly when the reported
    messages_used is at or above the reported cap; the report itself leaves
    the tables and the provider untouched. *)
Theorem limits_report_agrees_with_message_gate (settings : Settings) (tenant : UUID)
    (env0 env : Env) (w : World) (report : LimitsReport) (body : AskBody)
    (key : option string) (project : Project) :
  (current_limits settings tenant env0 w).1 = Ok (Subscribed report) ->
  let w' := (current_limits settings tenant env0 w).2 in
  passes_guards settings tenant key env w' ->
  ProjectRepo.get_by_id (project_id body) (projects (db w)) = Ok (Some project) ->
  tenant_id project = tenant ->
  truthy (vector_store_id project) = true ->
  db w' = db w /\ provider_calls w' = provider_calls w
  /\ ((ask settings body tenant key env w').1 = Raise message_cap_reached
      <-> limit_monthly_message_cap report <= usage_messages_used report).
Proof.
  intros Hreport w' Hguards Hproject Htenant Hvs.
  destruct (check_rate_limit_frame settings tenant env0 w) as (Hdb & Hcalls & _).
  unfold w' in *. clear w'. rewrite current_limits_run in *.
  destruct (check_rate_limit settings tenant env0 w) as [[[]|e1] w1]; [|done].
  simpl in Hdb, Hcalls.
  destruct (SubscriptionRepo.get_with_plan tenant (db w)) as [[subscription [plan|]]|]
    eqn:Hsub; [|done|done].
  simpl in *. injection Hreport as <-. simpl.
  split; [done|]. split; [done|].
  destruct (passes_guards_inv _ _ _ _ _ Hguards) as (w2 & H1 & H2).
  rewrite <- Hdb in Hproject, Hsub.
  rewrite <- Hdb.
  destruct (Z.lt_ge_cases
              (UsageRepo.messages_in_period tenant (current_period_start subscription)
                 (current_period_end subscription) (usage_daily (db w1)))
              (monthly_message_cap plan)) as [Hopen|Hclosed].
  - split; [|lia]. intros Hdenied. exfalso.
    destruct (ask_gate_open settings body tenant key env w1 _ _ project subscription plan
                H1 H2 Hproject Htenant Hvs Hsub Hopen) as (_ & _ & Hrun).
    destruct (responses_reply env); destruct Hrun as [Hres _];
      rewrite Hres in Hdenied; discriminate.
  - split; [done|]. intros _.
    by rewrite (ask_gate_closed settings body tenant key env w1 _ _ project subscription plan
                  H1 H2 Hproject Htenant Hvs Hsub Hclosed).
Qed.

Lemma limits_report_agrees_with_message_gate_witness :
  let w := demo_world [demo_usage 12 2 0] in
  (ask demo_settings demo_body "t" None (demo_env None)
     (current_limits demo_settings "t" (demo_env None) w).2).1
  = Raise message_cap_reached.
Proof.
  intros w.
  destruct (limits_report_agrees_with_message_gate demo_settings "t" (demo_env None)
              (demo_env None) w
              {| report_plan_id := "hobby"; report_plan_name := "Hobby";
                 report_billing_cycle := "monthly";
                 report_period_start := 10; report_period_end := 40;
                 limit_max_projects := 1; limit_monthly_message_cap := 2;
                 limit_monthly_upload_char_cap := 10;
                 usage_projects := 1; usage_messages_used := 2;
                 usage_chars_uploaded := 0 |}
              demo_body None demo_project eq_refl (conj eq_refl eq_refl)
              eq_refl eq_refl eq_refl) as (_ & _ & Hgate).
  apply Hgate. simpl. lia.
Defined.

(** X18. For uploads the report errs on the safe side: it shows the
    characters of the tenant over all projects, while the gate counts one
    project, so with counters that are not negative the figure the gate
    uses never exceeds the reported one, and a batch that fits under the
    cap on the reported figure is never refused for the cap. *)
Theorem limits_report_bounds_upload_gate (settings : Settings)
    (uuid_of_string : string -> option UUID) (tenant : UUID) (env0 env : Env) (w : World)
    (report : LimitsReport) (tenant_arg project_arg : string) (project_uuid : UUID)
    (files : list UploadFile) (project : Project) :
  (current_limits settings tenant env0 w).1 = Ok (Subscribed report) ->
  Forall (fun r => 0 <= chars_uploaded r) (usage_daily (db w)) ->
  let w' := (current_limits settings tenant env0 w).2 in
  (forall p,
      UsageRepo.chars_uploaded_for_project_in_period tenant p (report_period_start report)
        (report_period_end report) (usage_daily (db w))
      <= usage_chars_uploaded report)
  /\ (files <> [] ->
      uuid_of_string tenant_arg = Some tenant ->
      uuid_of_string project_arg = Some project_uuid ->
      (check_rate_limit settings tenant env w').1 = Ok tt ->
      ProjectRepo.get_by_id project_uuid (projects (db w)) = Ok (Some project) ->
      tenant_id project = tenant ->
      truthy (vector_store_id project) = true ->
      usage_chars_uploaded report + (read_uploads files).2
      <= limit_monthly_upload_char_cap report ->
      (upload_and_attach settings uuid_of_string tenant_arg project_arg files tenant
         env w').1 <> Raise upload_cap_exceeded).
Proof.
  intros Hreport Hnonneg w'.
  destruct (check_rate_limit_frame settings tenant env0 w) as (Hdb & _ & _).
  unfold w' in *. clear w'. rewrite current_limits_run in *.
  destruct (check_rate_limit settings tenant env0 w) as [[[]|e1] w1]; [|done].
  simpl in Hdb.
  destruct (SubscriptionRepo.get_with_plan tenant (db w)) as [[subscription [plan|]]|]
    eqn:Hsub; [|done|done].
  simpl in *. injection Hreport as <-. simpl.
  split; [intros p; by apply project_chars_le_tenant|].
  intros Hfiles Ht Hp Hrate Hproject Htenant Hvs Hfits.
  rewrite <- Hdb in Hproject, Hsub.
  pose proof (upload_at_gate settings uuid_of_string tenant_arg project_arg files tenant env
                w1 tenant project_uuid project subscription plan
                Hfiles Ht Hp eq_refl Hrate Hproject Htenant Hvs Hsub) as Hgate.
  cbv zeta in Hgate. rewrite Hdb in Hgate.
  pose proof (project_chars_le_tenant tenant project_uuid (current_period_start subscription)
                (current_period_end subscription) _ Hnonneg) as Hle.
  rewrite bool_decide_false in Hgate by lia.
  destruct (files_reply env), (batch_reply env);
    destruct Hgate as [Hres _]; try (rewrite Hres; discriminate).
  destruct Hres as [r ->]. discriminate.
Qed.

Lemma limits_report_bounds_upload_gate_witness :
  let w := demo_world [demo_usage 12 0 3] in
  UsageRepo.chars_uploaded_for_project_in_period "t" "p" 10 40 (usage_daily (db w)) <= 3.
Proof.
  intros w.
  destruct (limits_report_bounds_upload_gate demo_settings canonical_uuid "t"
              (demo_env None) (demo_env None) w
              {| report_plan_id := "hobby"; report_plan_name := "Hobby";
                 report_billing_cycle := "monthly";
                 report_period_start := 10; report_period_end := 40;
                 limit_max_projects := 1; limit_monthly_message_cap := 2;
                 limit_monthly_upload_char_cap := 10;
                 usage_projects := 1; usage_messages_used := 0;
                 usage_chars_uploaded := 3 |}
              "t" "p" "p" [] demo_project eq_refl) as [Hbound _].
  - repeat constructor. simpl. lia.
  - exact (Hbound "p").
Defined.

(** X19. Signing up gives the tenant its subscription at once: with a
    valid cycle, a plan of the catalogue (stored under its own id) and a
    fresh identifier, [create_tenant] stores the tenant with the plan's
    message cap, and the subscription the gates will find is the new one,
    on that plan, over the period from today to today plus a month or a
    year; no limiter is consulted, and no other tenant's subscription
    moves. With a cycle that is not valid, or a plan that is not in the
    catalogue, nothing is written. *)
Theorem create_tenant_subscribes (plus_relativedelta : date -> Z -> Z -> date) (name_arg plan_arg cycle : string)
    (plan_row : Plan) (env : Env) (w : World) :
  let out := create_tenant plus_relativedelta name_arg plan_arg cycle env w in
  (cycle <> "monthly" -> cycle <> "annual" -> out = (Raise invalid_billing_cycle, w))
  /\ (cycle = "monthly" \/ cycle = "annual" ->
      (plans (db w) !! plan_arg = None -> out = (Raise (http 404 "Plan not found"), w))
      /\ (plans (db w) !! plan_arg = Some plan_row ->
          plan_key plan_row = plan_arg ->
          tenants (db w) !! uuid4 env = None ->
          let subscription :=
            {| sub_tenant_id := uuid4 env; plan_id := plan_arg; billing_cycle := cycle;
               current_period_start := today env;
               current_period_end :=
                 if bool_decide (cycle = "monthly")
                 then plus_relativedelta (today env) 1 0
                 else plus_relativedelta (today env) 0 1 |} in
          out.1 = Ok (uuid4 env, subscription, plan_row)
          /\ SubscriptionRepo.get_with_plan (uuid4 env) (db out.2)
             = Some (subscription, Some plan_row)
          /\ TenantRepo.get (uuid4 env) (db out.2)
             = Some {| tenant_key := uuid4 env; tenant_name := name_arg;
                       plan := plan_arg;
                       plan_messages := monthly_message_cap plan_row |}
          /\ (forall t, t <> uuid4 env ->
                SubscriptionRepo.get_with_plan t (db out.2)
                = SubscriptionRepo.get_with_plan t (db w))
          /\ redis out.2 = redis w
          /\ usage_daily (db out.2) = usage_daily (db w)
          /\ projects (db out.2) = projects (db w))).
Proof.
  intros out. split.
  - intros Hm Ha. unfold out, create_tenant. by rewrite !bool_decide_false by done.
  - intros Hcycle.
    assert (bool_decide (cycle = "monthly") || bool_decide (cycle = "annual") = true)
      as Hvalid by (destruct Hcycle as [-> | ->]; reflexivity).
    split.
    + intros Hnone. unfold out, create_tenant, PlanRepo.get. rewrite Hvalid.
      run_handler. by rewrite Hnone.
    + intros Hplan Hkey Hfresh subscription.
      assert (out
              = (Ok (uuid4 env, subscription, plan_row),
                 {| redis := redis w;
                    db := with_subscriptions
                            (<[uuid4 env := subscription]> (subscriptions (db w)))
                            (with_tenants
                               (<[uuid4 env :=
                                    {| tenant_key := uuid4 env; tenant_name := name_arg;
                                       plan := plan_arg;
                                       plan_messages := monthly_message_cap plan_row |}]>
                                  (tenants (db w))) (db w));
                    provider_calls := provider_calls w |})) as ->.
      { unfold out, create_tenant, PlanRepo.get, TenantRepo.get. rewrite Hvalid.
        run_handler. rewrite Hplan. run_handler. rewrite Hfresh. run_handler.
        unfold SubscriptionRepo.upsert. simpl. by rewrite Hkey. }
      simpl. unfold SubscriptionRepo.get_with_plan, TenantRepo.get. simpl.
      rewrite !lookup_insert_eq. simpl. rewrite Hplan.
      repeat split; try done.
      intros t Ht. by rewrite lookup_insert_ne.
Qed.

Lemma create_tenant_subscribes_witness :
  SubscriptionRepo.get_with_plan "p2"
    (db (create_tenant flat_relativedelta "Acme" "hobby" "annual" (demo_env None)
           (demo_world [])).2)
  = Some ({| sub_tenant_id := "p2"; plan_id := "hobby"; billing_cycle := "annual";
             current_period_start := 12; current_period_end := 377 |}, Some demo_plan).
Proof.
  destruct (create_tenant_subscribes flat_relativedelta "Acme" "hobby" "annual"
              demo_plan (demo_env None) (demo_world [])) as [_ Hvalid].
  destruct (Hvalid (or_intror eq_refl)) as [_ Hcreated].
  destruct (Hcreated eq_refl eq_refl eq_refl) as (_ & Hsub & _).
  exact Hsub.
Defined.

(** X20. Subscribing replaces the tenant's period and with it what
    counts against the caps: for a valid cycle and a plan of the catalogue
    (stored under its own id), once past the limiter, the subscription
    the gates will find is on the new plan over the period that starts
    today, the tenant's row (when there is one) carries the new message
    cap, and the ledger, projects, messages and every other tenant's
    subscription stay as they were -- so usage recorded before today is
    no longer counted: if all the tenant's rows are dated before today,
    the message gate starts from 0. *)
Theorem subscribe_resets_period (settings : Settings)
    (plus_relativedelta : date -> Z -> Z -> date) (plan_arg cycle : string) (tenant : UUID)
    (plan_row : Plan) (env : Env) (w : World) :
  cycle = "monthly" \/ cycle = "annual" ->
  (check_rate_limit settings tenant env w).1 = Ok tt ->
  plans (db w) !! plan_arg = Some plan_row ->
  plan_key plan_row = plan_arg ->
  let out := subscribe settings plus_relativedelta plan_arg cycle tenant env w in
  let subscription :=
    {| sub_tenant_id := tenant; plan_id := plan_arg; billing_cycle := cycle;
       current_period_start := today env;
       current_period_end :=
         if bool_decide (cycle = "monthly")
         then plus_relativedelta (today env) 1 0
         else plus_relativedelta (today env) 0 1 |} in
  out.1 = Ok (subscription, plan_row)
  /\ SubscriptionRepo.get_with_plan tenant (db out.2) = Some (subscription, Some plan_row)
  /\ (forall t, t <> tenant ->
        SubscriptionRepo.get_with_plan t (db out.2) = SubscriptionRepo.get_with_plan t (db w))
  /\ (forall row, tenants (db w) !! tenant = Some row ->
        plan_messages <$> tenants (db out.2) !! tenant
        = Some (monthly_message_cap plan_row))
  /\ usage_daily (db out.2) = usage_daily (db w)
  /\ projects (db out.2) = projects (db w)
  /\ messages (db out.2) = messages (db w)
  /\ ((forall r, r ∈ usage_daily (db w) -> usage_tenant_id r = tenant ->
                 usage_date r < today env) ->
      UsageRepo.messages_in_period tenant (current_period_start subscription)
        (current_period_end subscription) (usage_daily (db out.2)) = 0).
Proof.
  intros Hcycle Hrate Hplan Hkey out subscription.
  destruct (check_rate_limit_frame settings tenant env w) as (Hdb & _ & _).
  assert (bool_decide (cycle = "monthly") || bool_decide (cycle = "annual") = true)
    as Hvalid by (destruct Hcycle as [-> | ->]; reflexivity).
  assert (out.1 = Ok (subscription, plan_row)
          /\ db out.2
             = (fun d => match tenants (db w) !! tenant with
                         | Some row =>
                             with_tenants
                               (<[tenant := {| tenant_key := tenant_key row;
                                               tenant_name := tenant_name row;
                                               plan := plan_arg;
                                               plan_messages :=
                                                 monthly_message_cap plan_row |}]>
                                  (tenants (db w))) d
                         | None => d
                         end)
                 (with_subscriptions (<[tenant := subscription]> (subscriptions (db w)))
                    (db w))) as [Hres Hdbout].
  { unfold out, subscribe, PlanRepo.get, TenantRepo.get. rewrite Hvalid. run_handler.
    destruct (check_rate_limit settings tenant env w) as [r1 w1].
    simpl in Hrate, Hdb. subst r1. run_handler. rewrite Hdb, Hplan. run_handler.
    unfold SubscriptionRepo.upsert. simpl. rewrite Hdb, Hkey.
    destruct (tenants (db w) !! tenant) as [row|]; run_handler; simpl; by rewrite ?Hdb. }
  assert (subscriptions (db out.2) = <[tenant := subscription]> (subscriptions (db w))
          /\ plans (db out.2) = plans (db w)
          /\ usage_daily (db out.2) = usage_daily (db w)
          /\ projects (db out.2) = projects (db w)
          /\ messages (db out.2) = messages (db w)) as (Hsubs & Hplans & Husage & Hpr & Hmsg).
  { rewrite Hdbout. by destruct (tenants (db w) !! tenant). }
  split; [done|]. split; [|split; [|split; [|split; [|split; [|split]]]]]; try done.
  - unfold SubscriptionRepo.get_with_plan. rewrite Hsubs, Hplans, lookup_insert_eq.
    simpl. by rewrite Hplan.
  - intros t Ht. unfold SubscriptionRepo.get_with_plan.
    by rewrite Hsubs, Hplans, lookup_insert_ne.
  - intros row Hrow. rewrite Hdbout, Hrow. simpl. by rewrite lookup_insert_eq.
  - intros Hold. rewrite Husage. unfold UsageRepo.messages_in_period.
    apply sum_where_none. intros r Hr. apply not_true_is_false.
    rewrite andb_true_iff, in_period_spec, bool_decide_eq_true. simpl.
    intros [Htenant Hperiod]. specialize (Hold r Hr Htenant). lia.
Qed.

Lemma subscribe_resets_period_witness :
  let out := subscribe demo_settings flat_relativedelta "hobby" "monthly" "t"
               (demo_env None) (demo_world [demo_usage 11 2 0]) in
  UsageRepo.messages_in_period "t" 12 42 (usage_daily (db out.2)) = 0.
Proof.
  intros out.
  destruct (subscribe_resets_period demo_settings flat_relativedelta "hobby" "monthly" "t"
              demo_plan (demo_env None) (demo_world [demo_usage 11 2 0])
              (or_introl eq_refl) eq_refl eq_refl eq_refl)
    as (_ & _ & _ & _ & _ & _ & _ & Hreset).
  apply Hreset. intros r Hr _.
  apply list_elem_of_singleton in Hr as ->. simpl. lia.
Defined.

(** ** What a batch counts for *)

(** X21. Plain ASCII counts one character per byte: a file whose bytes
    are all below 0x80 decodes, under either handler, to those very
    bytes, and adds its length to the total. *)
Theorem ascii_counts_every_byte (data : list byte) :
  Forall (fun b => byte_val b < 0x80) data ->
  utf8_decode strict data = Some (byte_val <$> data)
  /\ utf8_decode ignore data = Some (byte_val <$> data)
  /\ counted_chars data = Z.of_nat (length data).
Proof.
  intros Hascii.
  assert (forall errors, utf8_decode errors data = Some (byte_val <$> data)) as Hdecode.
  { intros errors. induction Hascii as [|b data Hb _ IH]; [done|].
    cbn [utf8_decode]. rewrite bool_decide_true by done. by rewrite IH. }
  split; [apply Hdecode|]. split; [apply Hdecode|].
  unfold counted_chars. by rewrite Hdecode, length_fmap.
Qed.

Lemma ascii_counts_every_byte_witness : counted_chars hello_world = 11.
Proof.
  apply (ascii_counts_every_byte hello_world).
  repeat constructor.
Defined.

Lemma never_a_start_dropped (data : list byte) :
  Forall never_a_start data -> utf8_decode ignore data = Some [].
Proof.
  induction 1 as [|b data Hb _ IH]; [done|].
  cbn [utf8_decode]. rewrite IH. unfold never_a_start in Hb.
  repeat case_bool_decide; try done; try lia; destruct data; done.
Qed.

(** X22. Bytes that cannot start a character are free: a batch whose
    files hold only continuation bytes and bytes from F5 up counts 0
    characters, whatever its size in bytes. *)
Theorem undecodable_batch_counts_nothing (files : list UploadFile) :
  Forall (fun upload => Forall never_a_start (file_bytes upload)) files ->
  (read_uploads files).2 = 0
  /\ Forall (fun upload => counted_chars (file_bytes upload) = 0) files.
Proof.
  intros Hjunk.
  assert (Forall (fun upload => counted_chars (file_bytes upload) = 0) files) as Hzero.
  { eapply Forall_impl; [exact Hjunk|]. intros upload Hupload.
    unfold counted_chars. by rewrite never_a_start_dropped. }
  split; [|done]. rewrite read_uploads_total.
  induction Hzero as [|upload files Hupload _ IH]; [done|].
  simpl. inversion Hjunk; subst. rewrite Hupload, IH; [done|done].
Qed.

Lemma undecodable_batch_counts_nothing_witness :
  (read_uploads [text_upload [xff; xfe; x80; xbf]; text_upload [xc0; xc1]]).2 = 0.
Proof.
  apply (undecodable_batch_counts_nothing
           [text_upload [xff; xfe; x80; xbf]; text_upload [xc0; xc1]]).
  repeat constructor; unfold never_a_start; vm_compute; intuition discriminate.
Defined.

(** X23. The loop over the uploads hands every file on, in order and
    byte for byte, under its own name and content type or the defaults
    "upload.bin" and "application/octet-stream", and its total is the sum
    of the files' counts: it is additive over concatenated batches and
    lies between 0 and the number of bytes read. *)
Theorem read_uploads_payload_and_total (files more : list UploadFile) :
  (read_uploads files).1 = payload_entry <$> files
  /\ (read_uploads (files ++ more)).2 = (read_uploads files).2 + (read_uploads more).2
  /\ 0 <= (read_uploads files).2
     <= Z.of_nat (length (concat (file_bytes <$> files))).
Proof.
  split; [|split].
  - unfold read_uploads.
    enough (forall acc : list (string * list byte * string) * Z,
               (foldl (fun '(payload, total_chars) upload =>
                         (payload ++ [(or_else (filename upload) "upload.bin",
                                       file_bytes upload,
                                       or_else (content_type upload)
                                         "application/octet-stream")],
                          total_chars + counted_chars (file_bytes upload)))
                      acc files).1
               = acc.1 ++ (payload_entry <$> files)) as Hgen by (by rewrite Hgen).
    induction files as [|upload files IH]; intros [payload total]; simpl.
    + by rewrite app_nil_r.
    + rewrite IH. simpl. by rewrite <- app_assoc.
  - rewrite !read_uploads_total, foldr_app.
    generalize (foldr (fun upload acc => counted_chars (file_bytes upload) + acc) 0 more).
    intros z. induction files as [|upload files IH]; simpl; [lia|]. rewrite IH. lia.
  - rewrite read_uploads_total.
    induction files as [|upload files IH]; [simpl; lia|].
    assert (0 <= counted_chars (file_bytes upload)
            <= Z.of_nat (length (file_bytes upload))) as Hfile.
    { destruct (utf8_decode_ignore_bound (length (file_bytes upload)) (file_bytes upload))
        as (cps & Hcps & Hlen); [done|].
      unfold counted_chars. rewrite Hcps. lia. }
    rewrite fmap_cons. cbn [concat foldr]. rewrite length_app. lia.
Qed.

(** ** Keys in Redis *)

Lemma rate_limit_key_inj_tenant tenant tenant' wdw wdw' :
  String.length tenant = String.length tenant' ->
  rate_limit_key tenant wdw = rate_limit_key tenant' wdw' ->
  tenant = tenant' /\ wdw = wdw'.
Proof.
  unfold rate_limit_key. intros Hlen Hkey.
  apply String.app_inj in Hkey.
  apply string_app_same_length in Hkey as [-> Hrest]; [|done].
  apply String.app_inj in Hrest. by apply (inj pretty) in Hrest.
Qed.

(** The limiter writes the key of its tenant and window, and no other. *)
Lemma check_rate_limit_other_keys settings tenant env w k :
  k <> rate_limit_key tenant (now env `div` 60) ->
  redis (check_rate_limit settings tenant env w).2 !! k = redis w !! k.
Proof.
  intros Hk. rewrite check_rate_limit_run. cbv zeta.
  destruct (Redis.incr _ _ _) as [current s1] eqn:Hincr. simpl.
  assert (s1 !! k = redis w !! k) as Hs1.
  { unfold Redis.incr in Hincr.
    destruct (Redis.get _ _ _); injection Hincr as _ <-; by rewrite lookup_insert_ne. }
  case_bool_decide; [|done].
  unfold Redis.expire. destruct (Redis.get _ _ s1); [|done]. by rewrite lookup_insert_ne.
Qed.

(** The verdict of the limiter reads the key of its tenant and window,
    and no other. *)
Lemma check_rate_limit_reads_own_key settings tenant env w w' :
  redis w !! rate_limit_key tenant (now env `div` 60)
  = redis w' !! rate_limit_key tenant (now env `div` 60) ->
  (check_rate_limit settings tenant env w).1 = (check_rate_limit settings tenant env w').1.
Proof.
  intros Hsame. rewrite !check_rate_limit_run. cbv zeta.
  unfold Redis.incr, Redis.get. rewrite Hsame.
  destruct (redis w' !! _) as [e|]; [destruct (Redis.live _ e)|]; done.
Qed.

Lemma ensure_idempotent_reads_own_key tenant k env w w' :
  redis w !! idempotency_redis_key tenant k = redis w' !! idempotency_redis_key tenant k ->
  (ensure_idempotent tenant (Some k) env w).1 = (ensure_idempotent tenant (Some k) env w').1.
Proof.
  intros Hsame. unfold ensure_idempotent. destruct (truthy (Some k)); [|done]. simpl.
  unfold bind, redis_cmd, Redis.set_nx, Redis.get. rewrite Hsame.
  destruct (redis w' !! _) as [e|]; [destruct (Redis.live _ e)|]; done.
Qed.

(** X24. Tenants do not share limiter windows or idempotency claims:
    for tenants whose identifiers have the same length, as canonical UUIDs
    do, a request of one tenant changes neither the limiter's verdict on
    another tenant nor the fate of another tenant's idempotency key, and a
    claim on one key of a tenant leaves its other keys free. *)
Theorem redis_keys_are_per_tenant (settings : Settings) (tenant tenant' : string)
    (k k' : string) (env env' : Env) (w : World) :
  String.length tenant = String.length tenant' ->
  tenant <> tenant' \/ k <> k' ->
  (tenant <> tenant' ->
   (check_rate_limit settings tenant' env' (check_rate_limit settings tenant env w).2).1
   = (check_rate_limit settings tenant' env' w).1)
  /\ (ensure_idempotent tenant' (Some k') env'
        (check_rate_limit settings tenant env w).2).1
     = (ensure_idempotent tenant' (Some k') env' w).1
  /\ (ensure_idempotent tenant' (Some k') env' (ensure_idempotent tenant (Some k) env w).2).1
     = (ensure_idempotent tenant' (Some k') env' w).1.
Proof.
  intros Hlen Hdiff. split; [|split].
  - intros Htenant. apply check_rate_limit_reads_own_key.
    apply check_rate_limit_other_keys. intros Hkey.
    apply eq_sym, rate_limit_key_inj_tenant in Hkey as [? _]; done.
  - apply ensure_idempotent_reads_own_key.
    by destruct (check_rate_limit_frame settings tenant env w) as (_ & _ & ->).
  - apply ensure_idempotent_reads_own_key.
    unfold ensure_idempotent. destruct (truthy (Some k)); [|done]. simpl.
    unfold bind, redis_cmd, Redis.set_nx.
    destruct (Redis.get _ _ _); simpl; [done|].
    rewrite lookup_insert_ne; [done|]. intros Hkey.
    apply idempotency_redis_key_inj in Hkey as [-> ->]; [|done].
    by destruct Hdiff.
Qed.

Lemma redis_keys_are_per_tenant_witness :
  (check_rate_limit demo_settings "u" (demo_env None)
     (check_rate_limit demo_settings "t" (demo_env None) saturated_world).2).1
  = Ok tt.
Proof.
  destruct (redis_keys_are_per_tenant demo_settings "t" "u" "k" "k" (demo_env None)
              (demo_env None) saturated_world eq_refl)
    as [Hlimiter _].
  - left. discriminate.
  - rewrite Hlimiter; [reflexivity|discriminate].
Defined.

(** ** Two windows in a row *)

Lemma serve_app {A} (handler : M A) (envs1 envs2 : list Env) (w : World) :
  serve handler (envs1 ++ envs2) w
  = ((serve handler envs1 w).1 ++ (serve handler envs2 (serve handler envs1 w).2).1,
     (serve handler envs2 (serve handler envs1 w).2).2).
Proof.
  revert w. induction envs1 as [|env envs1 IH]; intros w; simpl.
  - by destruct (serve handler envs2 w).
  - destruct (handler env w) as [r w1]. rewrite IH.
    destruct (serve handler envs1 w1) as [rs w2]. simpl.
    by destruct (serve handler envs2 w2).
Qed.

Lemma serve_window_cold settings tenant wdw envs w :
  (forall env, env ∈ envs -> now env `div` 60 = wdw) ->
  redis w !! rate_limit_key tenant wdw = None ->
  (serve (check_rate_limit settings tenant) envs w).1
  = verdict settings <$> seqZ 1 (Z.of_nat (length envs))
  /\ forall k, k <> rate_limit_key tenant wdw ->
               redis (serve (check_rate_limit settings tenant) envs w).2 !! k = redis w !! k.
Proof.
  intros Hwdw Hfresh. destruct envs as [|env0 envs]; [done|].
  assert (now env0 `div` 60 = wdw) as H0 by (apply Hwdw; constructor).
  cbn [serve]. rewrite check_rate_limit_cold by (unfold Redis.get; by rewrite H0, Hfresh).
  rewrite H0.
  rewrite (serve_window_hot settings tenant wdw envs _ 1 (now env0 + 60)).
  - simpl length. rewrite Nat2Z.inj_succ.
    rewrite (seqZ_cons 1 (Z.succ _)), Z.pred_succ by lia. simpl.
    split; [done|]. intros k Hk. by rewrite !lookup_insert_ne.
  - intros env Hin. apply Hwdw. by constructor.
  - lia.
  - pose proof (Z.mul_div_le (now env0) 60). lia.
  - unfold with_redis; simpl. by rewrite lookup_insert_eq.
Qed.

(** X25. Windows are aligned to the minute and each starts afresh: up to
    the cap of requests at the end of one minute followed by up to the
    cap at the start of the next all pass, so a tenant can be served twice
    the nominal rate across a minute boundary. *)
Theorem burst_across_windows (settings : Settings) (tenant : string) (wdw : Z)
    (envs1 envs2 : list Env) (w : World) :
  (forall env, env ∈ envs1 -> now env `div` 60 = wdw) ->
  (forall env, env ∈ envs2 -> now env `div` 60 = wdw + 1) ->
  redis w !! rate_limit_key tenant wdw = None ->
  redis w !! rate_limit_key tenant (wdw + 1) = None ->
  Z.of_nat (length envs1) <= RATE_LIMIT_RPM settings ->
  Z.of_nat (length envs2) <= RATE_LIMIT_RPM settings ->
  (serve (check_rate_limit settings tenant) (envs1 ++ envs2) w).1
  = replicate (length envs1 + length envs2) (Ok tt).
Proof.
  intros Hw1 Hw2 Hfresh1 Hfresh2 Hcap1 Hcap2.
  assert (forall (n : nat) m, m + Z.of_nat n - 1 <= RATE_LIMIT_RPM settings ->
                              verdict settings <$> seqZ m (Z.of_nat n)
                              = replicate n (Ok tt)) as Hpass.
  { induction n as [|n IH]; intros m Hm; [done|].
    rewrite Nat2Z.inj_succ, seqZ_cons, Z.pred_succ by lia.
    rewrite fmap_cons, IH by lia. simpl. f_equal.
    unfold verdict. by rewrite bool_decide_false by lia. }
  rewrite serve_app. simpl.
  destruct (serve_window_cold settings tenant wdw envs1 w Hw1 Hfresh1) as [Hr1 Hkeys].
  destruct (serve_window_cold settings tenant (wdw + 1) envs2
              (serve (check_rate_limit settings tenant) envs1 w).2 Hw2) as [Hr2 _].
  { rewrite Hkeys; [done|]. intros Hkey. apply rate_limit_key_inj in Hkey. lia. }
  rewrite Hr1, Hr2, !Hpass by lia. by rewrite replicate_add.
Qed.

Lemma burst_across_windows_witness :
  let cfg := {| RATE_LIMIT_RPM := 2; OPENAI_MODEL_DEFAULT := "m" |} in
  (serve (check_rate_limit cfg "t") ([env_at 118; env_at 119] ++ [env_at 120; env_at 121])
     empty_world).1
  = [Ok tt; Ok tt; Ok tt; Ok tt].
Proof.
  intros cfg.
  apply (burst_across_windows cfg "t" 1 [env_at 118; env_at 119] [env_at 120; env_at 121]
           empty_world).
  - intros env Hin. repeat (apply elem_of_cons in Hin as [->|Hin]; [reflexivity|]).
    by apply elem_of_nil in Hin.
  - intros env Hin. repeat (apply elem_of_cons in Hin as [->|Hin]; [reflexivity|]).
    by apply elem_of_nil in Hin.
  - apply lookup_empty.
  - apply lookup_empty.
  - simpl. lia.
  - simpl. lia.
Defined.

(** ** At most once per key *)

(** [ask] leaves Redis as the two guards left it. *)
Lemma ask_redis settings body tenant key env w w1 w2 :
  check_rate_limit settings tenant env w = (Ok tt, w1) ->
  ensure_idempotent tenant key env w1 = (Ok tt, w2) ->
  redis (ask settings body tenant key env w).2 = redis w2.
Proof.
  intros H1 H2.
  remember (ask settings body tenant key env w) as o eqn:Hout.
  unfold ask, get_project_by_id in Hout. unfold bind at 1 in Hout. rewrite H1 in Hout.
  unfold bind at 1 in Hout. rewrite H2 in Hout.
  run_handler in Hout.
  destruct (ProjectRepo.get_by_id _ _) as [[project|]|e]; run_handler in Hout;
    [|by subst o|by subst o].
  destruct (bool_decide (tenant_id project = tenant)); run_handler in Hout; [|by subst o].
  destruct (truthy (vector_store_id project)); run_handler in Hout; [|by subst o].
  destruct (SubscriptionRepo.get_with_plan _ _) as [[subscription [plan|]]|];
    run_handler in Hout; [|by subst o|by subst o].
  destruct (bool_decide (_ >= _)); run_handler in Hout; [by subst o|].
  destruct (responses_reply env); by subst o.
Qed.

(** X26. One key, one attempt: whatever became of a question sent with
    a non-empty idempotency key once it was past the limiter and the guard
    -- answered, refused by a later check, or failed at the provider --
    the same key sent again within the next 1800 seconds is answered 409
    "Duplicate request" and reaches neither the tables nor the provider. *)
Theorem ask_retry_is_duplicate (settings : Settings) (body body' : AskBody) (tenant : UUID)
    (k : string) (env env' : Env) (w : World) :
  k <> "" ->
  let out := ask settings body tenant (Some k) env w in
  out.1 <> Raise rate_limit_exceeded ->
  out.1 <> Raise duplicate_request ->
  now env' < now env + 1800 ->
  (check_rate_limit settings tenant env' out.2).1 = Ok tt ->
  let retry := ask settings body' tenant (Some k) env' out.2 in
  retry.1 = Raise duplicate_request
  /\ db retry.2 = db out.2
  /\ provider_calls retry.2 = provider_calls out.2.
Proof.
  intros Hk out Hnot_rate Hnot_dup Hsoon Hrate' retry.
  destruct (check_rate_limit settings tenant env w) as [r1 w1] eqn:H1.
  assert (r1 = Ok tt) as ->.
  { destruct r1 as [[]|e]; [done|]. exfalso. apply Hnot_rate.
    unfold out. rewrite (ask_rate_limited _ _ _ _ _ _ e) by (by rewrite H1).
    rewrite H1. simpl.
    rewrite check_rate_limit_run in H1. cbv zeta in H1.
    destruct (Redis.incr _ _ _) as [current s1]. injection H1 as Hv _.
    unfold verdict in Hv. case_bool_decide; [|done]. congruence. }
  destruct (Redis.get (now env) (idempotency_redis_key tenant k) (redis w1)) as [e|] eqn:Hget.
  { exfalso. apply Hnot_dup. unfold out.
    rewrite ask_duplicate; [done|done|by rewrite H1|].
    destruct (check_rate_limit_frame settings tenant env w) as (_ & _ & Hkeys).
    rewrite H1 in Hkeys. simpl in Hkeys.
    unfold Redis.get in *. rewrite <- Hkeys. rewrite Hget. by eexists. }
  pose proof (ensure_idempotent_claim tenant k env w1 Hk Hget) as H2.
  pose proof (ask_redis settings body tenant (Some k) env w _ _ H1 H2) as Hredis.
  fold out in Hredis.
  assert (is_Some (Redis.get (now env') (idempotency_redis_key tenant k) (redis out.2)))
    as Hlive.
  { apply (claim_live tenant k (now env)); [|done].
    rewrite Hredis. unfold with_redis; simpl. by rewrite lookup_insert_eq. }
  unfold retry. rewrite ask_duplicate by done. simpl.
  destruct (check_rate_limit_frame settings tenant env' out.2) as (Hdb & Hcalls & _).
  done.
Qed.

Lemma ask_retry_is_duplicate_witness :
  let out := ask demo_settings demo_body "t" (Some "k1") (demo_env None) (demo_world []) in
  out.1 = Raise (Upstream "provider call failed")
  /\ (ask demo_settings demo_body "t" (Some "k1") (env_at 2799) out.2).1
     = Raise duplicate_request.
Proof.
  intros out. split; [reflexivity|].
  assert ("k1" <> "") as Hk by discriminate.
  destruct (ask_retry_is_duplicate demo_settings demo_body demo_body "t" "k1"
              (demo_env None) (env_at 2799) (demo_world []) Hk) as (Hdup & _).
  - vm_compute. discriminate.
  - vm_compute. discriminate.
  - simpl. lia.
  - vm_compute. reflexivity.
  - exact Hdup.
Defined.

(** ** Usage over time *)

(** X27. Uploads add up: after a batch of [total] characters has gone
    through on a day of the period, the gate reads [already + total] for
    the project, and a second batch of [total'] characters for it is
    refused with 402 exactly when [already + total + total'] exceeds the
    cap. *)
Theorem uploads_accumulate (settings : Settings) (uuid_of_string : string -> option UUID)
    (tenant_arg project_arg : string) (files files' : list UploadFile) (tenant : UUID)
    (env env' : Env) (w : World) (project_uuid : UUID)
    (project : Project) (subscription : Subscription) (plan : Plan) :
  files <> [] -> files' <> [] ->
  uuid_of_string tenant_arg = Some tenant ->
  uuid_of_string project_arg = Some project_uuid ->
  (check_rate_limit settings tenant env w).1 = Ok tt ->
  ProjectRepo.get_by_id project_uuid (projects (db w)) = Ok (Some project) ->
  tenant_id project = tenant ->
  truthy (vector_store_id project) = true ->
  SubscriptionRepo.get_with_plan tenant (db w) = Some (subscription, Some plan) ->
  current_period_start subscription <= today env < current_period_end subscription ->
  is_Some (files_reply env) -> is_Some (batch_reply env) ->
  let already := UsageRepo.chars_uploaded_for_project_in_period tenant project_uuid
                   (current_period_start subscription) (current_period_end subscription)
                   (usage_daily (db w)) in
  let total := (read_uploads files).2 in
  let total' := (read_uploads files').2 in
  already + total <= monthly_upload_char_cap plan ->
  let first := upload_and_attach settings uuid_of_string tenant_arg project_arg files tenant
                 env w in
  (check_rate_limit settings tenant env' first.2).1 = Ok tt ->
  UsageRepo.chars_uploaded_for_project_in_period tenant project_uuid
    (current_period_start subscription) (current_period_end subscription)
    (usage_daily (db first.2))
  = already + total
  /\ ((upload_and_attach settings uuid_of_string tenant_arg project_arg files' tenant env'
         first.2).1 = Raise upload_cap_exceeded
      <-> already + total + total' > monthly_upload_char_cap plan).
Proof.
  intros Hfiles Hfiles' Ht Hp Hrate Hproject Htenant Hvs Hsub Htoday [ids Hids]
    [batch Hbatch] already total total' Hfits first Hrate'.
  destruct (upload_cases settings uuid_of_string tenant_arg project_arg files tenant env w)
    as [(e' & Hraise & _)
       |(tu & pu & project0 & subscription0 & plan0 & _ & Ht0 & Hp0 & <- & _ & Hproject0
         & _ & _ & Hsub0 & _ & Hrun)];
    fold first in Hraise || fold first in Hrun.
  { exfalso.
    pose proof (upload_at_gate settings uuid_of_string tenant_arg project_arg files tenant
                  env w tenant project_uuid project subscription plan
                  Hfiles Ht Hp eq_refl Hrate Hproject Htenant Hvs Hsub) as Hgate.
    cbv zeta in Hgate. fold first already total in Hgate.
    rewrite bool_decide_false, Hids, Hbatch in Hgate by lia.
    destruct Hgate as [[r Hok] _]. congruence. }
  assert (pu = project_uuid) as -> by congruence.
  rewrite Hids, Hbatch in Hrun. destruct Hrun as (_ & Hdb & _). fold total in Hdb.
  assert (UsageRepo.chars_uploaded_for_project_in_period tenant project_uuid
            (current_period_start subscription) (current_period_end subscription)
            (usage_daily (db first.2)) = already + total) as Hsum.
  { rewrite Hdb. case_bool_decide as Hz; [fold already; lia|]. simpl.
    rewrite record_upload_chars_in_period.
    rewrite !bool_decide_true by (done || lia). simpl. fold already. lia. }
  split; [done|].
  assert (projects (db first.2) = projects (db w)
          /\ subscriptions (db first.2) = subscriptions (db w)
          /\ plans (db first.2) = plans (db w)) as (Hpr & Hsu & Hpl).
  { rewrite Hdb. by case_bool_decide. }
  pose proof (upload_at_gate settings uuid_of_string tenant_arg project_arg files' tenant
                env' first.2 tenant project_uuid project subscription plan
                Hfiles' Ht Hp eq_refl Hrate') as Hgate.
  rewrite Hpr in Hgate. unfold SubscriptionRepo.get_with_plan in Hgate, Hsub.
  rewrite Hsu, Hpl in Hgate. specialize (Hgate Hproject Htenant Hvs Hsub).
  cbv zeta in Hgate. rewrite Hsum in Hgate. fold total' in Hgate.
  case_bool_decide as Hover.
  - rewrite Hgate. simpl. split; [done|]. intros _. done.
  - split; [|lia]. intros Hdenied. exfalso.
    destruct (files_reply env'), (batch_reply env');
      destruct Hgate as [Hres _]; try (rewrite Hres in Hdenied; discriminate).
    destruct Hres as [r Hr]. rewrite Hr in Hdenied. discriminate.
Qed.

Lemma uploads_accumulate_witness :
  let first := upload_and_attach demo_settings canonical_uuid "t" "p"
                 [text_upload [x68; x69]] "t" (demo_env None) (demo_world []) in
  (upload_and_attach demo_settings canonical_uuid "t" "p" [text_upload hello_world] "t"
     (demo_env None) first.2).1
  = Raise upload_cap_exceeded.
Proof.
  intros first.
  assert ([text_upload [x68; x69]] <> []) as H1 by discriminate.
  assert ([text_upload hello_world] <> []) as H2 by discriminate.
  assert (10 <= today (demo_env None) < 40) as Htoday by (simpl; lia).
  assert (is_Some (files_reply (demo_env None))) as Hf by (by eexists).
  assert (is_Some (batch_reply (demo_env None))) as Hb by (by eexists).
  destruct (uploads_accumulate demo_settings canonical_uuid "t" "p"
              [text_upload [x68; x69]] [text_upload hello_world] "t"
              (demo_env None) (demo_env None) (demo_world []) "p"
              demo_project demo_subscription demo_plan
              H1 H2 eq_refl eq_refl eq_refl eq_refl eq_refl eq_refl eq_refl Htoday Hf Hb)
    as [_ Hsecond].
  - vm_compute. discriminate.
  - reflexivity.
  - apply Hsecond. vm_compute. reflexivity.
Defined.

(** X28. Usage is dated by the day it happens, not by the period: a
    question answered on a day outside the subscription's period -- after
    it has ended, say -- is recorded in the ledger but adds nothing to the
    count the message gate reads, so the same tenant passes the gate
    again with the count it had. *)
Theorem usage_outside_period_is_not_counted (settings : Settings) (body : AskBody)
    (tenant : UUID) (key : option string) (env : Env) (w : World)
    (project : Project) (subscription : Subscription) (plan : Plan) (raw : RawResponse) :
  passes_guards settings tenant key env w ->
  ProjectRepo.get_by_id (project_id body) (projects (db w)) = Ok (Some project) ->
  tenant_id project = tenant ->
  truthy (vector_store_id project) = true ->
  SubscriptionRepo.get_with_plan tenant (db w) = Some (subscription, Some plan) ->
  UsageRepo.messages_in_period tenant (current_period_start subscription)
    (current_period_end subscription) (usage_daily (db w))
  < monthly_message_cap plan ->
  responses_reply env = Some raw ->
  ~ (current_period_start subscription <= today env < current_period_end subscription) ->
  let out := ask settings body tenant key env w in
  (exists answer, out.1 = Ok answer)
  /\ usage_row (today env) tenant (project_id body) (usage_daily (db out.2)) <> None
  /\ UsageRepo.messages_in_period tenant (current_period_start subscription)
       (current_period_end subscription) (usage_daily (db out.2))
     = UsageRepo.messages_in_period tenant (current_period_start subscription)
         (current_period_end subscription) (usage_daily (db w)).
Proof.
  intros Hguards Hproject Htenant Hvs Hsub Hcap Hreply Houtside out.
  destruct (passes_guards_inv _ _ _ _ _ Hguards) as (w1 & H1 & H2).
  destruct (ask_gate_open settings body tenant key env w _ _ project subscription plan
              H1 H2 Hproject Htenant Hvs Hsub Hcap) as (_ & _ & Hrun).
  fold out in Hrun. rewrite Hreply in Hrun. destruct Hrun as [Hok Husage].
  split; [by eexists|]. rewrite Husage. split.
  - unfold UsageRepo.increment_message.
    by rewrite (usage_row_upsert_same _ _ _ (today env) tenant (project_id body)).
  - rewrite increment_message_in_period.
    assert (bool_decide (tenant = tenant)
            && bool_decide (current_period_start subscription <= today env)
            && bool_decide (today env < current_period_end subscription) = false) as ->;
      [|lia].
    apply not_true_is_false. rewrite !andb_true_iff, !bool_decide_eq_true. lia.
Qed.

Lemma usage_outside_period_is_not_counted_witness :
  let reply := {| output_text := "ok"; usage := None; file_citations := [] |} in
  let late := {| now := 1000; today := 45; uuid4 := "p2"; responses_reply := Some reply;
                 files_reply := None; batch_reply := None |} in
  UsageRepo.messages_in_period "t" 10 40
    (usage_daily (db (ask demo_settings demo_body "t" None late
                        (demo_world [demo_usage 12 1 0])).2))
  = 1.
Proof.
  intros reply late.
  destruct (usage_outside_period_is_not_counted demo_settings demo_body "t" None late
              (demo_world [demo_usage 12 1 0]) demo_project demo_subscription demo_plan reply
              (conj eq_refl eq_refl) eq_refl eq_refl eq_refl eq_refl)
    as (_ & _ & Hsame).
  - vm_compute. reflexivity.
  - reflexivity.
  - simpl. lia.
  - etransitivity; [exact Hsame | reflexivity].
Defined.
